(** * Pulse: symptom triage and hospital ranking

    A shallow embedding of [backend/symptom_analyzer.py] and of the ranking
    part of [backend/hospital_service.py], with the properties of the
    classifier and of the ranking engine proved over it.

    Conventions of the embedding.
    - A Python [str] is a [string] holding the UTF-8 bytes of the text.
    - A Python [float] is the rational it stands for ([Q]). The arithmetic
      of the ranking engine is that of doubles ([PyFloat]): the exact
      result, rounded to the nearest double, ties to even; overflow to an
      infinity is not modelled. [round] is round-half-to-even on the exact
      value of its argument. The one quotient of the classifier,
      [score / 10.0], is held as the decimal it stands for.
    - A [dict] whose iteration order is observed is an association list in
      insertion order.
    - [geopy.distance.geodesic] is not part of the repository: it is a
      parameter of the ranking engine, and may raise. [Geopy] holds the
      checks the library makes on a pair of coordinates, over any metric. *)

From Stdlib Require Import String Ascii List Bool ZArith QArith Qabs Qround Qminmax Qpower Lia Lqa Morphisms.
From Stdlib Require Import Sorting.Permutation Sorting.Sorted.
Import ListNotations.

Local Open Scope string_scope.
Local Open Scope Z_scope.

(* ================================================================== *)
(** ** Python string primitives *)
(* ================================================================== *)

Module PyStr.

(** [sub in s]: [sub] occurs in [s] as a contiguous substring. *)
Fixpoint contains (sub s : string) : bool :=
  if prefix sub s then true
  else match s with
       | EmptyString => false
       | String _ s' => contains sub s'
       end.

(** White space as [str.split()] sees it, on the ASCII range. *)
Definition is_space (c : ascii) : bool :=
  let n := nat_of_ascii c in
  ((9 <=? n) && (n <=? 13) || (28 <=? n) && (n <=? 32))%nat.

Definition flush (cur : string) (words : list string) : list string :=
  match cur with
  | EmptyString => words
  | _ => cur :: words
  end.

(** The loop of [str.split()]: [cur] is the word being read. *)
Fixpoint split_from (cur s : string) : list string :=
  match s with
  | EmptyString => flush cur []
  | String c s' =>
      if is_space c then flush cur (split_from EmptyString s')
      else split_from (cur ++ String c EmptyString) s'
  end.

(** [s.split()]: the maximal runs of non-blank characters. *)
Definition split (s : string) : list string := split_from EmptyString s.

(** The loop of [s.split(sep)] for a one-character separator: empty fields
    are kept. *)
Fixpoint split_on_from (sep : ascii) (cur s : string) : list string :=
  match s with
  | EmptyString => [cur]
  | String c s' =>
      if Ascii.eqb c sep then cur :: split_on_from sep EmptyString s'
      else split_on_from sep (cur ++ String c EmptyString) s'
  end.

Definition split_on (sep : ascii) (s : string) : list string :=
  split_on_from sep EmptyString s.

Definition lower_ascii (c : ascii) : ascii :=
  let n := nat_of_ascii c in
  if ((65 <=? n) && (n <=? 90))%nat then ascii_of_nat (n + 32) else c.

(** [s.lower()]. The bytes of ASCII capitals are mapped to small letters,
    every other byte is kept: this is [str.lower] on ASCII text and on
    scripts without case (Devanagari, Telugu). *)
Fixpoint lower (s : string) : string :=
  match s with
  | EmptyString => EmptyString
  | String c s' => String (lower_ascii c) (lower s')
  end.

(** The scan of [s.replace(old, new)] for a non-empty [old]: [skip] counts
    the characters of a match that are still to be dropped. *)
Fixpoint replace_from (old new : string) (skip : nat) (s : string) : string :=
  match s with
  | EmptyString => EmptyString
  | String c s' =>
      match skip with
      | S k => replace_from old new k s'
      | O =>
          if prefix old s
          then new ++ replace_from old new (String.length old - 1) s'
          else String c (replace_from old new O s')
      end
  end.

Fixpoint intersperse (new s : string) : string :=
  match s with
  | EmptyString => new
  | String c s' => new ++ String c (intersperse new s')
  end.

(** [s.replace(old, new)]: every non-overlapping occurrence, left to right. *)
Definition replace (old new s : string) : string :=
  match old with
  | EmptyString => intersperse new s
  | _ => replace_from old new O s
  end.

(** [s.lstrip()] *)
Fixpoint lstrip (s : string) : string :=
  match s with
  | EmptyString => EmptyString
  | String c s' => if is_space c then lstrip s' else s
  end.

(** [s.rstrip()] *)
Fixpoint rstrip (s : string) : string :=
  match s with
  | EmptyString => EmptyString
  | String c s' =>
      match rstrip s' with
      | EmptyString => if is_space c then EmptyString else String c EmptyString
      | rest => String c rest
      end
  end.

(** [s.strip()] *)
Definition strip (s : string) : string := rstrip (lstrip s).

(** [sep.join(words)] *)
Definition join (sep : string) (words : list string) : string :=
  String.concat sep words.

(** [any(pattern in s for pattern in patterns)] *)
Definition any_in (patterns : list string) (s : string) : bool :=
  existsb (fun pattern => contains pattern s) patterns.

End PyStr.

(* ================================================================== *)
(** ** Python dictionaries in insertion order *)
(* ================================================================== *)

Module PyDict.

Section Dict.
Context {V : Type}.

Definition dict := list (string * V).

Fixpoint get (d : dict) (k : string) : option V :=
  match d with
  | [] => None
  | (k', v) :: d' => if String.eqb k k' then Some v else get d' k
  end.

(** [d.get(k, default)] *)
Definition get_default (d : dict) (k : string) (default : V) : V :=
  match get d k with
  | Some v => v
  | None => default
  end.

(** [d[k] = v]: an existing key keeps its place, a new key goes last. *)
Fixpoint set (d : dict) (k : string) (v : V) : dict :=
  match d with
  | [] => [(k, v)]
  | (k', v') :: d' =>
      if String.eqb k k' then (k', v) :: d' else (k', v') :: set d' k v
  end.

Definition keys (d : dict) : list string := map fst d.
End Dict.

Arguments dict V : clear implicits.

End PyDict.

(* ================================================================== *)
(** ** [symptom_analyzer.py] *)
(* ================================================================== *)

Module SymptomAnalyzer.

Import PyStr.

(** [_load_medical_keywords] *)
Definition medical_keywords : PyDict.dict (list string) :=
  [ ("cardiovascular",
     ["chest pain"; "heart attack"; "cardiac"; "palpitations"; "angina";
      "shortness of breath"; "irregular heartbeat"; "heart pounding";
      "chest pressure"; "heart racing"; "cardiovascular"]);
    ("respiratory",
     ["breathing"; "cough"; "asthma"; "pneumonia"; "bronchitis";
      "wheezing"; "respiratory"; "lung"; "breathless"; "dyspnea";
      "chest congestion"; "difficulty breathing"]);
    ("neurological",
     ["headache"; "migraine"; "seizure"; "stroke"; "paralysis";
      "numbness"; "tingling"; "dizziness"; "vertigo"; "confusion";
      "memory loss"; "neurological"; "brain"; "nerve pain"]);
    ("gastrointestinal",
     ["stomach pain"; "abdominal pain"; "nausea"; "vomiting"; "diarrhea";
      "constipation"; "digestive"; "gastric"; "intestinal"; "bowel";
      "food poisoning"; "indigestion"; "acid reflux"]);
    ("orthopedic",
     ["bone"; "fracture"; "joint pain"; "back pain"; "spinal";
      "arthritis"; "muscle pain"; "sprain"; "strain"; "orthopedic";
      "knee pain"; "shoulder pain"; "hip pain"]);
    ("infectious",
     ["fever"; "infection"; "flu"; "cold"; "viral"; "bacterial";
      "malaria"; "dengue"; "typhoid"; "chills"; "sweating";
      "body ache"; "fatigue"]);
    ("emergency",
     ["accident"; "injury"; "bleeding"; "trauma"; "burn"; "wound";
      "fall"; "crash"; "emergency"; "severe pain"; "unconscious";
      "heavy bleeding"; "deep cut"]);
    ("pediatric",
     ["child"; "baby"; "infant"; "kid"; "pediatric"; "newborn";
      "toddler"; "childhood"]);
    ("gynecological",
     ["pregnancy"; "prenatal"; "delivery"; "gynecological"; "menstrual";
      "obstetric"; "pregnant"; "labor"; "gynecology"]);
    ("dermatology",
     ["skin"; "rash"; "allergy"; "itch"; "dermatology"; "acne";
      "eczema"; "psoriasis"; "skin infection"; "hives"]);
    ("ophthalmology",
     ["eye"; "vision"; "blind"; "ophthalmology"; "visual"; "sight";
      "eye pain"; "blurred vision"; "eye infection"]);
    ("ent",
     ["ear"; "nose"; "throat"; "ent"; "hearing"; "sinus"; "tonsil";
      "ear pain"; "sore throat"; "nasal"; "hearing loss"]);
    ("general",
     ["general"; "checkup"; "consultation"; "medical"; "health";
      "wellness"; "screening"]) ].

(** [_load_specialty_rules] *)
Definition specialty_rules : PyDict.dict string :=
  [ ("cardiovascular", "Cardiology");
    ("respiratory", "Pulmonology");
    ("neurological", "Neurology");
    ("gastrointestinal", "Gastroenterology");
    ("orthopedic", "Orthopedics");
    ("infectious", "Infectious Disease");
    ("emergency", "Emergency Medicine");
    ("pediatric", "Pediatrics");
    ("gynecological", "Obstetrics & Gynecology");
    ("dermatology", "Dermatology");
    ("ophthalmology", "Ophthalmology");
    ("ent", "ENT");
    ("general", "General Medicine") ].

(** [_load_priority_rules] *)
Definition critical_keywords : list string :=
  ["heart attack"; "stroke"; "unconscious"; "heavy bleeding";
   "severe bleeding"; "can't breathe"; "chest pain"; "paralysis";
   "severe burns"; "head injury"; "poisoning"; "seizure"].

Definition urgent_keywords : list string :=
  ["severe pain"; "high fever"; "difficulty breathing"; "vomiting blood";
   "severe headache"; "abdominal pain"; "accident"; "injury";
   "deep cut"; "broken bone"; "very dizzy"].

Definition priority_rules : PyDict.dict (list string) :=
  [ ("critical", critical_keywords);
    ("urgent", urgent_keywords);
    ("normal", []) ].

(** The translation tables of [_translate_symptoms]. *)
Definition translations : PyDict.dict (PyDict.dict string) :=
  [ ("hi",
     [ ("बुखार", "fever"); ("सिरदर्द", "headache"); ("दर्द", "pain");
       ("पेट", "stomach"); ("खांसी", "cough"); ("सांस", "breathing");
       ("चक्कर", "dizziness"); ("कमजोरी", "weakness");
       ("उल्टी", "vomiting") ]);
    ("te",
     [ ("జ్వరం", "fever"); ("తలనొప్పి", "headache"); ("నొప్పి", "pain");
       ("కడుపు", "stomach"); ("దగ్గు", "cough"); ("శ్వాస", "breathing");
       ("తలతిరగడం", "dizziness"); ("బలహీనత", "weakness");
       ("వాంతులు", "vomiting") ]) ].

(** [_translate_symptoms] *)
Definition _translate_symptoms (symptoms language : string) : string :=
  match PyDict.get translations language with
  | Some table =>
      fold_left
        (fun symptoms entry => replace (fst entry) (snd entry) symptoms)
        table symptoms
  | None => symptoms
  end.

(** One turn of the inner loop of [_score_categories]. *)
Definition keyword_step (symptoms : string) (score : Z) (keyword : string) : Z :=
  if contains keyword symptoms then score + 3
  else if existsb (fun word => contains word symptoms) (split keyword)
       then score + 1
       else score.

(** One turn of the outer loop of [_score_categories]. *)
Definition category_step (symptoms : string) (scores : PyDict.dict Z)
    (entry : string * list string) : PyDict.dict Z :=
  let '(category, keywords) := entry in
  let score := fold_left (keyword_step symptoms) keywords 0 in
  if 0 <? score then PyDict.set scores category score else scores.

(** [_score_categories] *)
Definition _score_categories (symptoms : string) : PyDict.dict Z :=
  fold_left (category_step symptoms) medical_keywords [].

(** The loop [for keyword in ...: if keyword in symptoms: return level]:
    [true] when the loop returns. *)
Fixpoint scan (keywords : list string) (symptoms : string) : bool :=
  match keywords with
  | [] => false
  | keyword :: rest =>
      if contains keyword symptoms then true else scan rest symptoms
  end.

(** [_determine_priority] *)
Definition _determine_priority (symptoms : string) : string :=
  if scan (PyDict.get_default priority_rules "critical" []) symptoms
  then "critical"
  else if scan (PyDict.get_default priority_rules "urgent" []) symptoms
  then "urgent"
  else "normal".

(** [max(items, key=lambda x: x[1])] on a non-empty sequence: the first
    item whose value no later item exceeds strictly. *)
Definition max_by_value (first : string * Z) (rest : list (string * Z))
  : string * Z :=
  fold_left (fun best item => if snd best <? snd item then item else best)
            rest first.

Record AnalysisResult := {
  category : string;
  specialty : string;
  priority : string;
  confidence : Q;
  raw_scores : PyDict.dict Z
}.

(** The text the two scans of [analyze] run on. *)
Definition normalize (symptoms language : string) : string :=
  let symptoms_lower := lower symptoms in
  if String.eqb language "en" then symptoms_lower
  else _translate_symptoms symptoms_lower language.

(** [analyze] *)
Definition analyze (symptoms language : string) : AnalysisResult :=
  let symptoms_lower := normalize symptoms language in
  let category_scores := _score_categories symptoms_lower in
  let priority := _determine_priority symptoms_lower in
  let chosen :=
    match category_scores with
    | first :: rest =>
        let top_category := max_by_value first rest in
        (fst top_category, Qmin (inject_Z (snd top_category) / 10) 1)
    | [] => ("general", 5 # 10)
    end in
  let category := fst chosen in
  let confidence := snd chosen in
  let specialty := PyDict.get_default specialty_rules category "General Medicine" in
  {| category := category;
     specialty := specialty;
     priority := priority;
     confidence := confidence;
     raw_scores := category_scores |}.

End SymptomAnalyzer.

(* ================================================================== *)
(** ** Python numbers and list sorting *)
(* ================================================================== *)

Module PyNum.

Local Open Scope Q_scope.

(** Nearest integer, ties to the even one. *)
Definition round_half_even (x : Q) : Z :=
  let f := Qfloor x in
  match Qcompare (x - inject_Z f) (1 # 2) with
  | Lt => f
  | Gt => (f + 1)%Z
  | Eq => if Z.even f then f else (f + 1)%Z
  end.

(** [round(x, ndigits)] *)
Definition round (x : Q) (ndigits : nat) : Q :=
  let m := Pos.pow 10 (Pos.of_nat ndigits) in
  match ndigits with
  | O => inject_Z (round_half_even x)
  | _ => round_half_even (x * inject_Z (Zpos m)) # m
  end.

(** [int(x)]: truncation towards zero. *)
Definition int (x : Q) : Z :=
  if Qle_bool 0 x then Qfloor x else Qceiling x.

End PyNum.

(* ================================================================== *)
(** ** Python floats: the arithmetic of doubles *)
(* ================================================================== *)

Module PyFloat.

Local Open Scope Q_scope.

(** The exponent of the leading bit of a positive number:
    [2 ^ ilog2 x <= x < 2 ^ (ilog2 x + 1)]. *)
Definition ilog2 (x : Q) : Z :=
  let c := (Z.log2 (Qnum x) - Z.log2 (Zpos (Qden x)))%Z in
  if Qle_bool (2 ^ c) x then c else (c - 1)%Z.

(** The exponent of the last bit of the double nearest to a positive
    number: 53 bits of precision, and no exponent under that of the
    subnormal numbers. *)
Definition exponent (x : Q) : Z := Z.max (ilog2 x - 52) (-1074).

Definition nearest_positive (x : Q) : Q :=
  let e := exponent x in
  inject_Z (PyNum.round_half_even (x / 2 ^ e)) * 2 ^ e.

(** The double nearest to [x], ties to the even one. *)
Definition nearest (x : Q) : Q :=
  match Qcompare x 0 with
  | Eq => 0
  | Gt => nearest_positive x
  | Lt => - nearest_positive (- x)
  end.

Definition add (x y : Q) : Q := nearest (x + y).
Definition sub (x y : Q) : Q := nearest (x - y).
Definition mul (x y : Q) : Q := nearest (x * y).
Definition div (x y : Q) : Q := nearest (x / y).

End PyFloat.

Module PyList.

Section Sort.
Context {A : Type}.

(** [before a b]: [a] has to come strictly before [b]. *)
Variable before : A -> A -> bool.

(** [x] goes after the elements that have to come before it, and before
    all the others: those of equal rank stay behind it. *)
Fixpoint insert (x : A) (l : list A) : list A :=
  match l with
  | [] => [x]
  | y :: l' => if before y x then y :: insert x l' else x :: l
  end.

(** A stable sort: elements of equal rank keep their order. *)
Fixpoint stable_sort (l : list A) : list A :=
  match l with
  | [] => []
  | x :: l' => insert x (stable_sort l')
  end.
End Sort.

(** [l.sort(key=key, reverse=reverse)] for a numeric key. Like every
    stable sort it returns the one arrangement of [l] that is ordered by
    the key and keeps elements of equal key in the order of [l], with
    [reverse] too. *)
Definition sort {A : Type} (key : A -> Q) (reverse : bool) (l : list A)
  : list A :=
  stable_sort
    (fun a b => if reverse then negb (Qle_bool (key a) (key b))
                else negb (Qle_bool (key b) (key a)))
    l.

End PyList.

(* ================================================================== *)
(** ** Exceptions *)
(* ================================================================== *)

Module Exc.

Inductive exc (A : Type) : Type :=
| Return (a : A)
| Raise (error : string).
Arguments Return {A} a.
Arguments Raise {A} error.

Definition bind {A B : Type} (c : exc A) (k : A -> exc B) : exc B :=
  match c with
  | Return a => k a
  | Raise e => Raise e
  end.

Definition raises {A : Type} (c : exc A) : bool :=
  match c with
  | Return _ => false
  | Raise _ => true
  end.

Module Notations.
Notation "x <- c ;; k" := (bind c (fun x => k))
  (at level 61, c at next level, right associativity).
End Notations.

End Exc.

(* ================================================================== *)
(** ** [hospital_service.py] *)
(* ================================================================== *)

Module HospitalService.

Import PyStr Exc Exc.Notations.
Local Open Scope Q_scope.

(** A row of the table [hospitals]. *)
Record Row := {
  row_id : Z;
  row_name : string;
  row_latitude : Q;
  row_longitude : Q;
  row_address : string;
  row_phone : string;
  row_email : string;
  row_rating : Q;
  row_total_reviews : Z;
  row_has_emergency : bool;
  row_has_ambulance : bool;
  row_specialties : option string;
  row_facilities : option string;
  row_open_247 : bool
}.

(** The dictionary [find_nearby_hospitals] makes of a row. *)
Record Hospital := {
  id : Z;
  name : string;
  latitude : Q;
  longitude : Q;
  address : string;
  phone : string;
  email : string;
  rating : Q;
  total_reviews : Z;
  has_emergency : bool;
  has_ambulance : bool;
  specialties : list string;
  facilities : list string;
  open_247 : bool;
  distance_km : Q;
  travel_time_minutes : Z;
  specialty_match : bool
}.

(** The same dictionary once [score_hospitals] has added [total_score]. *)
Record ScoredHospital := {
  hospital :> Hospital;
  total_score : Q
}.

(** [_calculate_travel_time] *)
Definition _calculate_travel_time (distance_km : Q) : Z :=
  let avg_speed_kmh := 25 in
  let travel_time_hours := PyFloat.div distance_km avg_speed_kmh in
  let travel_time_minutes := PyNum.int (PyFloat.mul travel_time_hours 60) in
  Z.max travel_time_minutes 5.

(** The rows the query of [find_nearby_hospitals] selects. *)
Definition select_hospitals (priority : string) (table : list Row) : list Row :=
  if String.eqb priority "critical"
  then filter (fun r => row_has_emergency r && row_open_247 r) table
  else if String.eqb priority "urgent"
  then filter (fun r => row_has_emergency r) table
  else table.

(** [text.split(',') if text else []] *)
Definition comma_list (text : option string) : list string :=
  match text with
  | None | Some EmptyString => []
  | Some text => split_on "," text
  end.

(** The body of [if distance_km <= max_distance_km:]: the dictionary that
    is appended. *)
Definition annotate (specialty : option string) (hospital : Row)
    (distance_km : Q) : Hospital :=
  let specialties := comma_list (row_specialties hospital) in
  {| id := row_id hospital;
     name := row_name hospital;
     latitude := row_latitude hospital;
     longitude := row_longitude hospital;
     address := row_address hospital;
     phone := row_phone hospital;
     email := row_email hospital;
     rating := row_rating hospital;
     total_reviews := row_total_reviews hospital;
     has_emergency := row_has_emergency hospital;
     has_ambulance := row_has_ambulance hospital;
     specialties := specialties;
     facilities := comma_list (row_facilities hospital);
     open_247 := row_open_247 hospital;
     distance_km := PyNum.round distance_km 2;
     travel_time_minutes := _calculate_travel_time distance_km;
     specialty_match :=
       match specialty with
       | None | Some EmptyString => true
       | Some specialty =>
           existsb (fun s => contains (lower specialty) (lower s)) specialties
       end |}.

Section Ranking.

(** [geodesic(a, b).kilometers] of geopy; it may raise. *)
Variable geodesic : Q * Q -> Q * Q -> exc Q.

(** The loop of [find_nearby_hospitals] over the selected rows. *)
Fixpoint annotate_loop (user_location : Q * Q) (specialty : option string)
    (max_distance_km : Q) (all_hospitals : list Row)
    (hospitals_with_distance : list Hospital) : exc (list Hospital) :=
  match all_hospitals with
  | [] => Return hospitals_with_distance
  | hospital :: rest =>
      let hospital_location := (row_latitude hospital, row_longitude hospital) in
      distance_km <- geodesic user_location hospital_location ;;
      if Qle_bool distance_km max_distance_km
      then annotate_loop user_location specialty max_distance_km rest
             (hospitals_with_distance
                ++ [annotate specialty hospital distance_km])%list
      else annotate_loop user_location specialty max_distance_km rest
             hospitals_with_distance
  end.

(** [find_nearby_hospitals], on the content [table] of the data base. *)
Definition find_nearby_hospitals (table : list Row) (latitude longitude : Q)
    (specialty : option string) (priority : string) (max_distance_km : Q)
  : exc (list Hospital) :=
  let all_hospitals := select_hospitals priority table in
  let user_location := (latitude, longitude) in
  hospitals_with_distance <-
    annotate_loop user_location specialty max_distance_km all_hospitals [] ;;
  Return (PyList.sort distance_km false hospitals_with_distance).

(** [find_emergency_hospitals] *)
Definition find_emergency_hospitals (table : list Row)
    (latitude longitude max_distance_km : Q) : exc (list Hospital) :=
  find_nearby_hospitals table latitude longitude None "critical"
                        max_distance_km.

End Ranking.

(** The body of the loop of [score_hospitals]: the value stored under
    [total_score]. The score is an [int] up to the distance, and a [float]
    from the rating on. *)
Definition hospital_score (hospital : Hospital)
    (analysis : SymptomAnalyzer.AnalysisResult) : Q :=
  let score := 0 in
  let score :=
    if specialty_match hospital then score + 40
    else if existsb (String.eqb "General Medicine") (specialties hospital)
         then score + 20
         else score in
  let distance := distance_km hospital in
  let score :=
    if Qle_bool distance 5 then score + 30
    else if Qle_bool distance 10 then score + 25
    else if Qle_bool distance 20 then score + 15
    else if Qle_bool distance 30 then score + 10
    else score + 5 in
  let rating := rating hospital in
  let score := PyFloat.add score (PyFloat.mul (PyFloat.div rating 5) 20) in
  let priority := SymptomAnalyzer.priority analysis in
  let score :=
    if existsb (String.eqb priority) ["critical"; "urgent"]
    then
      let score :=
        if has_emergency hospital then PyFloat.add score 10 else score in
      if has_ambulance hospital then PyFloat.add score 5 else score
    else score in
  PyNum.round score 1.

(** [score_hospitals]; the coordinates of the user are not used. *)
Definition score_hospitals (hospitals : list Hospital) (user_lat user_lng : Q)
    (analysis : SymptomAnalyzer.AnalysisResult) : list ScoredHospital :=
  let scored_hospitals :=
    fold_left
      (fun (scored_hospitals : list ScoredHospital) hospital =>
         (scored_hospitals
            ++ [{| hospital := hospital;
                   total_score := hospital_score hospital analysis |}])%list)
      hospitals [] in
  PyList.sort total_score true scored_hospitals.

(** The dictionary [get_hospital_by_id] makes of a row. *)
Record HospitalInfo := {
  info_id : Z;
  info_name : string;
  info_latitude : Q;
  info_longitude : Q;
  info_address : string;
  info_phone : string;
  info_email : string;
  info_rating : Q;
  info_total_reviews : Z;
  info_has_emergency : bool;
  info_has_ambulance : bool;
  info_specialties : list string;
  info_facilities : list string;
  info_open_247 : bool
}.


End HospitalService.

(* ================================================================== *)
(** ** geopy: what [geodesic] does with a pair of coordinates *)
(* ================================================================== *)

(** [find_nearby_hospitals] hands its two pairs to
    [geopy.distance.geodesic], which makes a [Point] of each before it
    measures: [_normalize_coordinates] of [geopy/point.py] rejects a
    latitude out of range and wraps a longitude out of range. The
    measure on the ellipsoid itself is left open. *)
Module Geopy.

Import Exc Exc.Notations.
Local Open Scope Q_scope.

(** [math.fmod]: the remainder with the sign of [x]; it is exact. *)
Definition fmod (x y : Q) : Q := x - y * inject_Z (PyNum.int (x / y)).

(** [_normalize_angle] *)
Definition _normalize_angle (x limit : Q) : Q :=
  let double_limit := PyFloat.mul limit 2 in
  let modulo := fmod x double_limit in
  if negb (Qle_bool (- limit) modulo) then PyFloat.add modulo double_limit
  else if Qle_bool limit modulo then PyFloat.sub modulo double_limit
  else modulo.

(** [_normalize_coordinates], on a latitude and a longitude. *)
Definition _normalize_coordinates (latitude longitude : Q) : exc (Q * Q) :=
  if negb (Qle_bool (Qabs latitude) 90)
  then Raise "Latitude must be in the [-90; 90] range."
  else
    let longitude :=
      if negb (Qle_bool (Qabs longitude) 180)
      then _normalize_angle longitude 180
      else longitude in
    Return (latitude, longitude).

(** [Point(location)] for a pair. *)
Definition Point (location : Q * Q) : exc (Q * Q) :=
  _normalize_coordinates (fst location) (snd location).

Section Geodesic.

(** The length in kilometres of the geodesic between two points of the
    ellipsoid. *)
Variable measure_km : Q * Q -> Q * Q -> Q.

(** [geodesic(a, b).kilometers] *)
Definition geodesic (a b : Q * Q) : exc Q :=
  a <- Point a ;;
  b <- Point b ;;
  Return (measure_km a b).

End Geodesic.

End Geopy.

(* ================================================================== *)
(** ** The specification's reading of the two components *)
(* ================================================================== *)

Module Spec.

Import PyStr.

(** [sub] occurs in [s] as a substring. *)
Definition occurs (sub s : string) : Prop :=
  exists pre post, s = pre ++ sub ++ post.

(** [a] stands somewhere before [b] in [l]. *)
Definition precedes {A : Type} (a b : A) (l : list A) : Prop :=
  exists l1 l2 l3, l = (l1 ++ a :: l2 ++ b :: l3)%list.

(** What one trigger phrase adds to the score of its category: 3 for the
    whole phrase, else 1 when one of its words occurs, else nothing. *)
Definition phrase_points (text phrase : string) : Z :=
  if contains phrase text then 3
  else if existsb (fun word => contains word text) (split phrase) then 1
  else 0.

Fixpoint sum (l : list Z) : Z :=
  match l with
  | [] => 0
  | n :: l' => n + sum l'
  end.

(** The score of a category: the sum over its trigger phrases. *)
Definition category_score (text : string) (phrases : list string) : Z :=
  sum (map (phrase_points text) phrases).

(** rawScores: the categories of the table, in its order, with their
    scores, those of score zero left out. *)
Definition raw_scores_of (text : string) (table : PyDict.dict (list string))
  : PyDict.dict Z :=
  filter (fun entry => 0 <? snd entry)
         (map (fun entry => (fst entry, category_score text (snd entry))) table).

Local Open Scope Q_scope.

Definition specialty_points (h : HospitalService.Hospital) : Q :=
  if HospitalService.specialty_match h then 40
  else if in_dec string_dec "General Medicine" (HospitalService.specialties h)
       then 20 else 0.

Definition distance_points (h : HospitalService.Hospital) : Q :=
  let d := HospitalService.distance_km h in
  if Qle_bool d 5 then 30
  else if Qle_bool d 10 then 25
  else if Qle_bool d 20 then 15
  else if Qle_bool d 30 then 10
  else 5.

(** The rating, scaled from 5 to 20 points: a division and a product of
    doubles. *)
Definition rating_points (h : HospitalService.Hospital) : Q :=
  PyFloat.mul (PyFloat.div (HospitalService.rating h) 5) 20.

(** The two bonuses of an urgent or critical case. *)
Definition emergency_points (h : HospitalService.Hospital) (priority : string) : Q :=
  if string_dec priority "urgent" then
    (if HospitalService.has_emergency h then 10 else 0)
  else if string_dec priority "critical" then
    (if HospitalService.has_emergency h then 10 else 0)
  else 0.

Definition ambulance_points (h : HospitalService.Hospital) (priority : string) : Q :=
  if string_dec priority "urgent" then
    (if HospitalService.has_ambulance h then 5 else 0)
  else if string_dec priority "critical" then
    (if HospitalService.has_ambulance h then 5 else 0)
  else 0.

(** The sum of the four components, as doubles are summed: the rating is
    added to the points of the specialty and of the distance, then the
    bonus of the emergency department, then that of the ambulance. *)
Definition total_points (h : HospitalService.Hospital) (priority : string) : Q :=
  PyFloat.add
    (PyFloat.add
       (PyFloat.add (specialty_points h + distance_points h) (rating_points h))
       (emergency_points h priority))
    (ambulance_points h priority).

(** Out of the ranges of a latitude and of a longitude. *)
Definition invalid_coordinate (latitude longitude : Q) : Prop :=
  latitude < -90 \/ 90 < latitude \/ longitude < -180 \/ 180 < longitude.

End Spec.

(* ================================================================== *)
(** ** Sample data *)
(* ================================================================== *)

Module Examples.

Import Exc HospitalService.
Local Open Scope Q_scope.

(** Two rows of the sample data of [_ensure_database]. *)
Definition seven_hills : Row :=
  {| row_id := 1;
     row_name := "Seven Hills Hospital";
     row_latitude := 17.7231;
     row_longitude := 83.3008;
     row_address := "Rockdale Layout, Visakhapatnam, AP 530002";
     row_phone := "+91-891-2790000";
     row_email := "info@sevenhillshospital.com";
     row_rating := 4.5;
     row_total_reviews := 1250;
     row_has_emergency := true;
     row_has_ambulance := true;
     row_specialties :=
       Some "Cardiology,Neurology,Orthopedics,Emergency Medicine,ICU,Oncology,Gastroenterology";
     row_facilities :=
       Some "ICU,CT Scan,MRI,24/7 Lab,Pharmacy,Blood Bank,Ambulance";
     row_open_247 := true |}.

Definition visakha_eye : Row :=
  {| row_id := 15;
     row_name := "Visakha Eye Hospital";
     row_latitude := 17.7267;
     row_longitude := 83.3123;
     row_address := "Visakhapatnam, AP 530002";
     row_phone := "+91-891-2799999";
     row_email := "info@visakhaeye.com";
     row_rating := 4.4;
     row_total_reviews := 1240;
     row_has_emergency := false;
     row_has_ambulance := false;
     row_specialties :=
       Some "Ophthalmology,Eye Surgery,Retina,Glaucoma,Pediatric Ophthalmology";
     row_facilities :=
       Some "Operation Theater,Advanced Eye Testing,Optical Shop";
     row_open_247 := false |}.

(** A distance routine that takes any pair of numbers for coordinates: 111
    km for a degree, along the two axes. It stands for a [geodesic] that
    does not check its arguments. *)
Definition grid_distance (a b : Q * Q) : exc Q :=
  Return ((Qabs (fst a - fst b) + Qabs (snd a - snd b)) * 111).

Definition in_range (location : Q * Q) : bool :=
  Qle_bool (-90) (fst location) && Qle_bool (fst location) 90
  && Qle_bool (-180) (snd location) && Qle_bool (snd location) 180.

(** The same routine with a check of both points: it stands for a
    [geodesic] that rejects every coordinate out of range. *)
Definition checked_distance (a b : Q * Q) : exc Q :=
  if in_range a && in_range b then grid_distance a b
  else Raise "ValueError".

(** Seven Hills Hospital at 4.9 km with another rating. *)
Definition seven_hills_rated (rating : Q) : Hospital :=
  annotate None
    {| row_id := row_id seven_hills;
       row_name := row_name seven_hills;
       row_latitude := row_latitude seven_hills;
       row_longitude := row_longitude seven_hills;
       row_address := row_address seven_hills;
       row_phone := row_phone seven_hills;
       row_email := row_email seven_hills;
       row_rating := rating;
       row_total_reviews := row_total_reviews seven_hills;
       row_has_emergency := row_has_emergency seven_hills;
       row_has_ambulance := row_has_ambulance seven_hills;
       row_specialties := row_specialties seven_hills;
       row_facilities := row_facilities seven_hills;
       row_open_247 := row_open_247 seven_hills |}
    4.9.

(** The same count of kilometres as the measure under [Geopy.geodesic]:
    the checks of geopy are made, the ellipsoid is replaced by a grid. *)
Definition grid_km (a b : Q * Q) : Q :=
  (Qabs (fst a - fst b) + Qabs (snd a - snd b)) * 111.

(** Seven Hills Hospital at 4.9 km, no specialty asked for. *)
Definition seven_hills_near : Hospital := annotate None seven_hills 4.9.

(** The eye hospital at 12.5 km, cardiology asked for. *)
Definition visakha_eye_far : Hospital :=
  annotate (Some "Cardiology") visakha_eye 12.5.

End Examples.

(* ================================================================== *)
(** ** [chatbot.py] *)
(* ================================================================== *)

Module MedicalChatbot.

Import PyStr.

(** [_load_responses] *)
Definition responses : PyDict.dict (list string) :=
  [ ("greeting",
     ["Hello! I'm here to help you find the right hospital. How can I assist you today?";
      "Hi! I can help you with medical queries and finding hospitals. What's bothering you?";
      "Welcome! I'm your medical assistant. How may I help you?"]);
    ("symptom_query",
     ["I understand you're experiencing {symptoms}. For an accurate diagnosis, I recommend visiting a hospital. Would you like me to find nearby hospitals for you?";
      "Based on what you've told me, it would be best to consult with a medical professional. Shall I help you find appropriate hospitals nearby?";
      "I can help you find hospitals that specialize in treating {symptoms}. What's your location?"]);
    ("emergency",
     ["This sounds like an emergency! Please call emergency services (108 in India) immediately or visit the nearest emergency room. Would you like me to find emergency hospitals near you?";
      "⚠️ For urgent medical issues, please seek immediate medical attention. Call 108 or go to the nearest hospital. I can help you find emergency hospitals nearby.";
      "This requires immediate medical attention. Please call an ambulance (108) or have someone take you to the emergency room right away."]);
    ("location_query",
     ["To find the best hospitals for you, I'll need your location. Can you share your city or allow location access?";
      "I can search for hospitals near you. What city are you in?";
      "Please share your location so I can find nearby hospitals that can help you."]);
    ("hospital_info",
     ["I can provide information about hospitals including their specialties, ratings, distance from you, and contact details. What would you like to know?";
      "I have detailed information about hospitals in your area. Would you like to know about specific hospitals or search by specialty?";
      "I can help you compare hospitals based on distance, ratings, specialties, and emergency services. What's most important to you?"]);
    ("thanks",
     ["You're welcome! Take care and get well soon. Feel free to ask if you need anything else.";
      "Happy to help! Wishing you good health. Don't hesitate to reach out if you have more questions.";
      "Glad I could assist! Stay safe and feel better soon."]);
    ("unknown",
     ["I'm not sure I understood that. Could you rephrase your question? I can help you find hospitals or answer basic medical queries.";
      "I didn't quite catch that. I specialize in helping you find hospitals and understand symptoms. How can I help?";
      "Could you please provide more details? I'm here to help you find the right hospital for your needs."]);
    ("general_advice",
     ["While I can provide general information, it's important to consult with a healthcare professional for proper diagnosis and treatment. Would you like me to find doctors or hospitals near you?";
      "For medical advice, it's best to speak with a qualified doctor. I can help you find the right hospital or specialist. Shall I search for you?";
      "I recommend getting a professional medical opinion. I can help you find appropriate healthcare providers nearby."]) ].

Definition greeting_patterns : list string :=
  ["hello"; "hi"; "hey"; "good morning"; "good afternoon"; "good evening"].

Definition thanks_patterns : list string := ["thank"; "thanks"; "appreciate"].

Definition symptom_keywords : list string :=
  ["pain"; "ache"; "fever"; "cough"; "headache"; "sick"; "ill";
   "dizzy"; "nausea"; "vomit"; "diarrhea"; "symptom"; "feel"].

Definition location_keywords : list string :=
  ["where"; "location"; "near"; "nearby"; "close"; "around"].

Definition hospital_keywords : list string :=
  ["hospital"; "clinic"; "doctor"; "emergency"; "specialist"].

Definition medical_keywords : list string :=
  ["what should i do"; "what can i do"; "advice"; "recommend"; "suggest"].

(** [_detect_intent] *)
Definition _detect_intent (message : string) : string :=
  if any_in greeting_patterns message then "greeting"
  else if any_in thanks_patterns message then "thanks"
  else if any_in symptom_keywords message then "symptom"
  else if any_in location_keywords message then "location"
  else if any_in hospital_keywords message then "hospital"
  else if any_in medical_keywords message then "medical_advice"
  else "unknown".

Definition symptom_words : list string :=
  ["pain"; "ache"; "fever"; "cough"; "headache"; "dizzy";
   "nausea"; "vomit"; "diarrhea"; "weakness"; "fatigue"].

(** [_extract_symptoms] *)
Definition _extract_symptoms (message : string) : string :=
  let found_symptoms := filter (fun word => contains word message) symptom_words in
  match found_symptoms with
  | _ :: _ => join ", " found_symptoms
  | [] => "your condition"
  end.

Definition emergency_keywords : list string :=
  ["emergency"; "urgent"; "severe"; "critical"; "heart attack";
   "stroke"; "bleeding"; "unconscious"; "can't breathe"; "accident"].

(** [random.choice(seq)] on the draw [r] of the generator: one of the
    items of a sequence that is not empty. *)
Definition choice (r : nat) (seq : list string) : string :=
  nth (r mod List.length seq) seq EmptyString.

(** [template.format(symptoms=symptoms)], for the templates of
    [responses], whose only braces are those of the field [symptoms]. *)
Definition format (template symptoms : string) : string :=
  replace "{symptoms}" symptoms template.

(** [get_response], with the draw [r] of the random generator. *)
Definition get_response (r : nat) (message : string) : string :=
  let message_lower := strip (lower message) in
  let intent := _detect_intent message_lower in
  let templates key := PyDict.get_default responses key [] in
  if any_in emergency_keywords message_lower
  then choice r (templates "emergency")
  else if String.eqb intent "greeting" then choice r (templates "greeting")
  else if String.eqb intent "thanks" then choice r (templates "thanks")
  else if String.eqb intent "symptom" then
    let symptoms := _extract_symptoms message_lower in
    let response := choice r (templates "symptom_query") in
    format response
           (match symptoms with
            | EmptyString => "your symptoms"
            | _ => symptoms
            end)
  else if String.eqb intent "location" then choice r (templates "location_query")
  else if String.eqb intent "hospital" then choice r (templates "hospital_info")
  else if String.eqb intent "medical_advice"
  then choice r (templates "general_advice")
  else choice r (templates "unknown").

End MedicalChatbot.

(* ================================================================== *)
(** ** [app.py] *)
(* ================================================================== *)

Module App.

Import Exc HospitalService.

(** The body of a request to [/api/find-hospitals] and to
    [/api/emergency-hospitals], fields of the expected JSON types: a
    number, a string, or nothing ([None]). *)
Record RequestData := {
  data_latitude : option Q;
  data_longitude : option Q;
  data_symptoms : option string;
  data_language : option string;
  data_session_id : option string;
  data_message : option string
}.

(** An entry of [sessions]. *)
Record Session := {
  session_symptoms : string;
  session_analysis : SymptomAnalyzer.AnalysisResult;
  session_hospitals : list ScoredHospital;
  session_timestamp : string
}.

(** What the handlers pass to [jsonify]. *)
Inductive Payload : Type :=
| FoundHospitals (analysis : SymptomAnalyzer.AnalysisResult)
                 (hospitals : list ScoredHospital)
| EmergencyHospitals (hospitals : list Hospital)
| HospitalDetails (hospital : HospitalInfo)
| ChatbotResponse (response : string)
| Failure (error : string).

Record Response := {
  status : Z;
  payload : Payload
}.

(** Truth value of a number: zero and [None] are false. *)
Definition truthy_number (x : option Q) : bool :=
  match x with
  | Some q => negb (Qeq_bool q 0)
  | None => false
  end.

(** Truth value of a string: the empty string and [None] are false. *)
Definition truthy_text (x : option string) : bool :=
  match x with
  | Some (String _ _) => true
  | _ => false
  end.

Section Handlers.

(** [geodesic] of geopy, and [datetime.now().isoformat()]. *)
Variable geodesic : Q * Q -> Q * Q -> exc Q.
Variable now : string.

(** [find_hospitals], on the data base [table] and the sessions kept so
    far; it returns the response and the sessions kept afterwards. *)
Definition find_hospitals (table : list Row) (sessions : PyDict.dict Session)
    (data : RequestData) : Response * PyDict.dict Session :=
  match data_latitude data, data_longitude data, data_symptoms data with
  | Some latitude, Some longitude, Some symptoms =>
      if negb (truthy_number (Some latitude) && truthy_number (Some longitude)
               && truthy_text (Some symptoms))
      then ({| status := 400; payload := Failure "Missing required fields" |},
            sessions)
      else
        let language :=
          match data_language data with
          | Some language => language
          | None => "en"
          end in
        let analysis := SymptomAnalyzer.analyze symptoms language in
        match find_nearby_hospitals geodesic table latitude longitude
                (Some (SymptomAnalyzer.specialty analysis))
                (SymptomAnalyzer.priority analysis) 50 with
        | Raise e => ({| status := 500; payload := Failure e |}, sessions)
        | Return hospitals =>
            let ranked_hospitals :=
              score_hospitals hospitals latitude longitude analysis in
            let sessions :=
              match data_session_id data with
              | Some (String c id) =>
                  PyDict.set sessions (String c id)
                    {| session_symptoms := symptoms;
                       session_analysis := analysis;
                       session_hospitals := ranked_hospitals;
                       session_timestamp := now |}
              | _ => sessions
              end in
            ({| status := 200;
                payload := FoundHospitals analysis (firstn 10 ranked_hospitals) |},
             sessions)
        end
  | _, _, _ =>
      ({| status := 400; payload := Failure "Missing required fields" |},
       sessions)
  end.

(** [emergency_hospitals] *)
Definition emergency_hospitals (table : list Row) (data : RequestData)
  : Response :=
  match data_latitude data, data_longitude data with
  | Some latitude, Some longitude =>
      if negb (truthy_number (Some latitude) && truthy_number (Some longitude))
      then {| status := 400; payload := Failure "Missing coordinates" |}
      else
        match find_emergency_hospitals geodesic table latitude longitude 30 with
        | Raise e => {| status := 500; payload := Failure e |}
        | Return hospitals =>
            {| status := 200;
               payload := EmergencyHospitals (firstn 15 hospitals) |}
        end
  | _, _ => {| status := 400; payload := Failure "Missing coordinates" |}
  end.

End Handlers.


(** [chatbot_response], with the draw [r] of the random generator. *)
Definition chatbot_response (r : nat) (data : RequestData) : Response :=
  match data_message data with
  | Some (String c message) =>
      {| status := 200;
         payload := ChatbotResponse
                      (MedicalChatbot.get_response r (String c message)) |}
  | _ => {| status := 400; payload := Failure "Message required" |}
  end.

End App.

(* ================================================================== *)
(** ** Sample requests *)
(* ================================================================== *)

Module Samples.

Import Exc HospitalService App.
Local Open Scope Q_scope.

Definition table : list Row := [Examples.seven_hills; Examples.visakha_eye].

(** A request from the town, with a critical symptom and a session id. *)
Definition heart_attack_request : RequestData :=
  {| data_latitude := Some 17.7;
     data_longitude := Some 83.3;
     data_symptoms := Some "I think it is a heart attack";
     data_language := None;
     data_session_id := Some "s1";
     data_message := None |}.

(** A request from a point of the equator. *)
Definition equator_request : RequestData :=
  {| data_latitude := Some 0;
     data_longitude := Some 83.3;
     data_symptoms := Some "fever";
     data_language := None;
     data_session_id := None;
     data_message := None |}.

(** A request with a latitude out of range. *)
Definition far_north_request : RequestData :=
  {| data_latitude := Some 1000;
     data_longitude := Some 83.3;
     data_symptoms := Some "fever";
     data_language := None;
     data_session_id := Some "s2";
     data_message := None |}.

(** Seven Hills Hospital as the search with the grid distance from
    (17.7, 83.3) annotates it. *)
Definition seven_hills_found (specialty : option string) : Hospital :=
  annotate specialty Examples.seven_hills 2.6529.

End Samples.

Import HospitalService.

(* ================================================================== *)
(** ** Facts on strings and dictionaries *)
(* ================================================================== *)

Section StringFacts.
Import PyStr Spec.

Lemma contains_unfold (sub s : string) :
  contains sub s =
  if prefix sub s then true
  else match s with
       | EmptyString => false
       | String _ s' => contains sub s'
       end.
Proof. destruct s; reflexivity. Qed.

Lemma prefix_iff (a s : string) :
  prefix a s = true <-> exists post, s = a ++ post.
Proof.
  revert s; induction a as [|c a IH]; intros s.
  - split; [intros _; now exists s | intros _; now destruct s].
  - destruct s as [|d s]; simpl.
    + split; [discriminate | intros [post H]; discriminate].
    + destruct (ascii_dec c d) as [->|Hcd].
      * rewrite IH. split; intros [post H]; exists post.
        -- now rewrite H.
        -- now injection H.
      * split; [discriminate|]. intros [post H]. injection H as Hd _.
        now elim Hcd.
Qed.

Lemma contains_iff (sub s : string) :
  contains sub s = true <-> occurs sub s.
Proof.
  split.
  - induction s as [|c s IH]; rewrite contains_unfold;
      destruct (prefix sub _) eqn:Hp.
    + intros _. apply prefix_iff in Hp as [post ->]. now exists "", post.
    + discriminate.
    + intros _. apply prefix_iff in Hp as [post ->]. now exists "", post.
    + intros H. destruct (IH H) as (pre & post & ->).
      now exists (String c pre), post.
  - intros (pre & post & ->). induction pre as [|c pre IH].
    + rewrite contains_unfold.
      replace (prefix sub ("" ++ sub ++ post)) with true; [reflexivity|].
      symmetry. apply prefix_iff. now exists post.
    + rewrite contains_unfold.
      destruct (prefix sub _); [reflexivity | exact IH].
Qed.
End StringFacts.

Section DictFacts.
Context {V : Type}.

Lemma set_fresh (d : PyDict.dict V) (k : string) (v : V) :
  ~ In k (PyDict.keys d) -> PyDict.set d k v = (d ++ [(k, v)])%list.
Proof.
  induction d as [|[k' v'] d IH]; simpl; intros Hk; [reflexivity|].
  destruct (String.eqb_spec k k') as [->|_].
  - elim Hk. now left.
  - rewrite IH; [reflexivity | tauto].
Qed.
End DictFacts.

(* ================================================================== *)
(** ** The classifier *)
(* ================================================================== *)

Section ClassifierFacts.
Import PyStr SymptomAnalyzer Spec.

Variable text : string.

Lemma keyword_step_points (score : Z) (keyword : string) :
  keyword_step text score keyword = score + phrase_points text keyword.
Proof.
  unfold keyword_step, phrase_points.
  destruct (contains keyword text); [reflexivity|].
  destruct (existsb _ _); [reflexivity | lia].
Qed.

Lemma keyword_loop_sum (keywords : list string) (score : Z) :
  fold_left (keyword_step text) keywords score
  = score + category_score text keywords.
Proof.
  revert score. induction keywords as [|k ks IH]; intros score; simpl.
  - unfold category_score; simpl; lia.
  - rewrite IH, keyword_step_points. unfold category_score; simpl. lia.
Qed.

Lemma phrase_points_range (phrase : string) :
  0 <= phrase_points text phrase <= 3.
Proof.
  unfold phrase_points.
  destruct (contains phrase text); [lia|]. destruct (existsb _ _); lia.
Qed.

Lemma category_score_nonneg (phrases : list string) :
  0 <= category_score text phrases.
Proof.
  unfold category_score. induction phrases as [|p ps IH]; simpl; [lia|].
  pose proof (phrase_points_range p). lia.
Qed.

Lemma raw_scores_of_keys (table : PyDict.dict (list string)) (k : string) :
  In k (PyDict.keys (raw_scores_of text table)) -> In k (PyDict.keys table).
Proof.
  unfold PyDict.keys, raw_scores_of. rewrite !in_map_iff.
  intros ([k' v] & <- & H). apply filter_In in H as [H _].
  apply in_map_iff in H as ([k'' ps] & Heq & H). simpl in Heq.
  injection Heq as <- _. now exists (k'', ps).
Qed.

Lemma category_loop (table : PyDict.dict (list string)) :
  forall scores : PyDict.dict Z,
    NoDup (PyDict.keys table) ->
    (forall k, In k (PyDict.keys table) -> ~ In k (PyDict.keys scores)) ->
    fold_left (category_step text) table scores
    = (scores ++ raw_scores_of text table)%list.
Proof.
  induction table as [|[category keywords] table IH]; intros scores Hnd Hfresh.
  - simpl. now rewrite app_nil_r.
  - simpl in Hnd. inversion Hnd as [|? ? Hnotin Hnd']; subst.
    cbn [fold_left category_step]. rewrite keyword_loop_sum, Z.add_0_l.
    unfold raw_scores_of; cbn [map filter fst snd].
    fold (raw_scores_of text table).
    destruct (0 <? category_score text keywords) eqn:Hpos.
    + rewrite set_fresh by (apply Hfresh; now left).
      rewrite IH; [now rewrite <- app_assoc | assumption |].
      intros k Hk. unfold PyDict.keys. rewrite map_app, in_app_iff.
      intros [Hin | [<- | []]].
      * apply (Hfresh k); [now right | exact Hin].
      * now apply Hnotin.
    + apply IH; [assumption|]. intros k Hk. apply Hfresh. now right.
Qed.
End ClassifierFacts.

Section ClassifierTheorems.
Import PyStr SymptomAnalyzer Spec.

Lemma medical_keywords_nodup : NoDup (PyDict.keys medical_keywords).
Proof.
  unfold PyDict.keys, medical_keywords; cbn [map fst].
  repeat (constructor; [cbn [In]; intuition discriminate|]).
  constructor.
Qed.

Lemma score_categories_spec (text : string) :
  _score_categories text = raw_scores_of text medical_keywords.
Proof.
  unfold _score_categories.
  rewrite category_loop; [reflexivity | exact medical_keywords_nodup |].
  intros k _ [].
Qed.

Lemma raw_scores_of_nil (text : string) (table : PyDict.dict (list string)) :
  raw_scores_of text table = [] <->
  forall c ps, In (c, ps) table -> category_score text ps = 0.
Proof.
  unfold raw_scores_of. induction table as [|[c ps] table IH]; simpl.
  - split; [intros _ ? ? [] | reflexivity].
  - pose proof (category_score_nonneg text ps) as Hnn.
    destruct (0 <? category_score text ps) eqn:Hpos.
    + apply Z.ltb_lt in Hpos. split; [discriminate|].
      intros H. specialize (H c ps (or_introl eq_refl)). lia.
    + apply Z.ltb_ge in Hpos. rewrite IH. split.
      * intros H c' ps' [Heq | Hin]; [injection Heq as <- <-; lia | eauto].
      * intros H c' ps' Hin. apply (H c' ps'). now right.
Qed.

Lemma filter_map_split {A B : Type} (f : A -> B) (p : B -> bool)
    (l : list A) :
  forall (l1 : list B) (y : B) (l2 : list B),
    filter p (map f l) = (l1 ++ y :: l2)%list ->
    exists b x a,
      l = (b ++ x :: a)%list /\ f x = y /\ p y = true /\
      filter p (map f b) = l1 /\ filter p (map f a) = l2.
Proof.
  induction l as [|x l IH]; intros l1 y l2; simpl.
  - destruct l1; discriminate.
  - destruct (p (f x)) eqn:Hp.
    + destruct l1 as [|z l1]; simpl; intros H; injection H as Hx Hrest.
      * exists [], x, l. subst. repeat split; assumption.
      * destruct (IH _ _ _ Hrest) as (b & x0 & a & -> & Hy & Hpy & Hb & Ha).
        exists (x :: b), x0, a. simpl. rewrite Hp, Hb, Hx.
        repeat split; assumption.
    + intros H.
      destruct (IH _ _ _ H) as (b & x0 & a & -> & Hy & Hpy & Hb & Ha).
      exists (x :: b), x0, a. simpl. rewrite Hp.
      repeat split; assumption.
Qed.

(** [max] returns the first of the items of greatest value. *)
Lemma max_by_value_first (rest : list (string * Z)) :
  forall first : string * Z,
  exists l1 l2,
    first :: rest = (l1 ++ max_by_value first rest :: l2)%list /\
    (forall x, In x l1 -> snd x < snd (max_by_value first rest)) /\
    (forall x, In x l2 -> snd x <= snd (max_by_value first rest)).
Proof.
  induction rest as [|x rest IH] using rev_ind; intros first.
  - exists [], []. simpl. repeat split; intros ? [].
  - destruct (IH first) as (l1 & l2 & Heq & H1 & H2).
    unfold max_by_value in *. rewrite fold_left_app. cbn [fold_left].
    set (m := fold_left _ rest first) in *.
    destruct (snd m <? snd x) eqn:Hlt.
    + apply Z.ltb_lt in Hlt. exists (l1 ++ m :: l2)%list, [].
      split; [|split].
      * rewrite app_comm_cons, Heq. now rewrite <- app_assoc.
      * intros y Hy. apply in_app_iff in Hy as [Hy | [<- | Hy]].
        -- specialize (H1 y Hy). lia.
        -- exact Hlt.
        -- specialize (H2 y Hy). lia.
      * intros ? [].
    + apply Z.ltb_ge in Hlt. exists l1, (l2 ++ [x])%list.
      split; [|split].
      * rewrite app_comm_cons, Heq. now rewrite <- app_assoc.
      * exact H1.
      * intros y Hy. apply in_app_iff in Hy as [Hy | [<- | []]];
          [now apply H2 | exact Hlt].
Qed.

Lemma confidence_range (w : Z) :
  0 < w ->
  (1 # 10 <= Qmin (inject_Z w / 10) 1 /\ Qmin (inject_Z w / 10) 1 <= 1)%Q.
Proof.
  intros Hw. split.
  - apply Q.min_glb; unfold Qle; simpl; lia.
  - apply Q.le_min_r.
Qed.

(** The winner of [analyze] when some category has a positive score. *)
Lemma analyze_winner (symptoms language : string) :
  let text := normalize symptoms language in
  let r := analyze symptoms language in
  raw_scores r <> [] ->
  exists before phrases after,
    medical_keywords = (before ++ (category r, phrases) :: after)%list /\
    0 < category_score text phrases /\
    (forall c ps, In (c, ps) before ->
       category_score text ps < category_score text phrases) /\
    (forall c ps, In (c, ps) after ->
       category_score text ps <= category_score text phrases) /\
    confidence r = Qmin (inject_Z (category_score text phrases) / 10) 1.
Proof.
  intros text r. subst r. unfold analyze. fold text.
  rewrite score_categories_spec.
  destruct (raw_scores_of text medical_keywords) as [|first rest] eqn:Hs;
    cbn [raw_scores category confidence]; [congruence | intros _].
  destruct (max_by_value_first rest first) as (l1 & l2 & Heq & H1 & H2).
  set (top := max_by_value first rest) in *. cbn [fst snd].
  rewrite Heq in Hs. unfold raw_scores_of in Hs.
  apply filter_map_split in Hs
    as (before & [c ps] & after & Htab & Htop & Hpos & Hb & Ha).
  cbn [fst snd] in Htop. rewrite <- Htop in *. cbn [fst snd] in *.
  apply Z.ltb_lt in Hpos.
  exists before, ps, after. repeat split; try assumption.
  - intros c' ps' Hin.
    destruct (0 <? category_score text ps') eqn:Hp'.
    + apply (H1 (c', category_score text ps')). rewrite <- Hb.
      apply filter_In. split; [|exact Hp'].
      apply in_map_iff. now exists (c', ps').
    + apply Z.ltb_ge in Hp'. lia.
  - intros c' ps' Hin.
    destruct (0 <? category_score text ps') eqn:Hp'.
    + apply (H2 (c', category_score text ps')). rewrite <- Ha.
      apply filter_In. split; [|exact Hp'].
      apply in_map_iff. now exists (c', ps').
    + apply Z.ltb_ge in Hp'. lia.
Qed.

Lemma scan_iff (keywords : list string) (symptoms : string) :
  scan keywords symptoms = true <->
  exists keyword, In keyword keywords /\ occurs keyword symptoms.
Proof.
  induction keywords as [|k ks IH]; simpl.
  - split; [discriminate | intros (? & [] & _)].
  - destruct (contains k symptoms) eqn:Hk.
    + split; [|reflexivity]. intros _. exists k. split; [now left|].
      now apply contains_iff.
    + rewrite IH. split; intros (k' & Hin & Hocc).
      * exists k'. split; [now right | assumption].
      * destruct Hin as [<- | Hin]; [|now exists k'].
        apply contains_iff in Hocc. congruence.
Qed.

Lemma normalize_empty (language : string) : normalize "" language = "".
Proof.
  unfold normalize, _translate_symptoms. cbn [lower].
  destruct (String.eqb language "en"); [reflexivity|].
  unfold translations; cbn [PyDict.get].
  destruct (String.eqb language "hi"); [reflexivity|].
  destruct (String.eqb language "te"); reflexivity.
Qed.
End ClassifierTheorems.

Section ClassifierClaims.
Import PyStr SymptomAnalyzer Spec.

(** C1, as the code has it: on "I have severe chest pain and difficulty
    breathing" in English, [analyze] answers category "respiratory"
    (respiratory scores 7: "breathing" 3, "difficulty breathing" 3 and a
    word of "chest congestion" 1; cardiovascular scores 5: "chest pain"
    3, a word of "shortness of breath" 1 and of "chest pressure" 1),
    specialty "Pulmonology", and priority "critical". *)
Theorem chest_pain_example :
  let r := analyze "I have severe chest pain and difficulty breathing" "en" in
  category r = "respiratory" /\
  specialty r = "Pulmonology" /\
  priority r = "critical" /\
  PyDict.get (raw_scores r) "cardiovascular" = Some 5 /\
  PyDict.get (raw_scores r) "respiratory" = Some 7.
Proof. vm_compute. repeat split; reflexivity. Qed.

(** C1 as stated fails: the category of that text is not
    "cardiovascular". *)
Lemma chest_pain_not_cardiovascular :
  ~ (category (analyze "I have severe chest pain and difficulty breathing" "en")
       = "cardiovascular"
     /\ priority (analyze "I have severe chest pain and difficulty breathing" "en")
       = "critical").
Proof. vm_compute. intros [H _]. discriminate H. Qed.

(** C3: the scores [_score_categories] computes are, category by
    category in the order of the keyword table, the sum over the trigger
    phrases of 3 for a phrase that occurs in the text, else 1 when one
    of its words occurs, else 0; a phrase adds 0, 1 or 3, never more;
    and the result holds exactly the categories of positive score. This
    is what [analyze] returns as raw scores, on the normalized text. *)
Theorem score_categories_sum (text : string) :
  _score_categories text = raw_scores_of text medical_keywords /\
  (forall phrase,
      (occurs phrase text /\ phrase_points text phrase = 3) \/
      (~ occurs phrase text /\
       (exists word, In word (split phrase) /\ occurs word text) /\
       phrase_points text phrase = 1) \/
      (~ occurs phrase text /\
       ~ (exists word, In word (split phrase) /\ occurs word text) /\
       phrase_points text phrase = 0)) /\
  (forall category score,
      In (category, score) (_score_categories text) <->
      exists phrases,
        In (category, phrases) medical_keywords /\
        score = category_score text phrases /\ 0 < score) /\
  (forall symptoms language,
      raw_scores (analyze symptoms language)
      = _score_categories (normalize symptoms language)).
Proof.
  split; [apply score_categories_spec|]. split; [|split].
  - intros phrase. unfold phrase_points.
    destruct (contains phrase text) eqn:Hc.
    + left. split; [now apply contains_iff | reflexivity].
    + assert (~ occurs phrase text) as Hno
        by (intros H; apply contains_iff in H; congruence).
      right. destruct (existsb _ _) eqn:He.
      * left. repeat split; [assumption|].
        apply existsb_exists in He as (w & Hin & Hw).
        exists w. split; [assumption | now apply contains_iff].
      * right. repeat split; [assumption|].
        intros (w & Hin & Hw). apply contains_iff in Hw.
        assert (existsb (fun word => contains word text) (split phrase) = true)
          by (apply existsb_exists; now exists w).
        congruence.
  - intros c s. rewrite score_categories_spec. unfold raw_scores_of.
    rewrite filter_In, in_map_iff. cbn [snd]. split.
    + intros [([c' ps] & Heq & Hin) Hpos]. cbn [fst snd] in Heq.
      injection Heq as <- <-. exists ps. apply Z.ltb_lt in Hpos. now repeat split.
    + intros (ps & Hin & -> & Hpos). split; [|now apply Z.ltb_lt].
      now exists (c, ps).
  - reflexivity.
Qed.

(** C4, as the code has it. When some category scores above zero,
    [analyze] returns the category of greatest score, the earliest one
    of the keyword table among those of greatest score, with confidence
    min(score / 10, 1). When none does (so for the empty text), it
    returns category "general", specialty "General Medicine",
    confidence 0.5 and no raw scores; the priority is the result of the
    priority scan of the text, "normal" for the empty text. [analyze] is
    a total function: it returns on every text. *)
Theorem analyze_category (symptoms language : string) :
  let text := normalize symptoms language in
  let r := analyze symptoms language in
  PyDict.keys medical_keywords
  = ["cardiovascular"; "respiratory"; "neurological"; "gastrointestinal";
     "orthopedic"; "infectious"; "emergency"; "pediatric"; "gynecological";
     "dermatology"; "ophthalmology"; "ent"; "general"] /\
  ((exists c ps, In (c, ps) medical_keywords /\ 0 < category_score text ps) ->
   exists before phrases after,
     medical_keywords = (before ++ (category r, phrases) :: after)%list /\
     0 < category_score text phrases /\
     (forall c ps, In (c, ps) before ->
        category_score text ps < category_score text phrases) /\
     (forall c ps, In (c, ps) after ->
        category_score text ps <= category_score text phrases) /\
     confidence r = Qmin (inject_Z (category_score text phrases) / 10) 1) /\
  ((forall c ps, In (c, ps) medical_keywords -> category_score text ps = 0) ->
   category r = "general" /\ specialty r = "General Medicine" /\
   confidence r = 5 # 10 /\ raw_scores r = [] /\
   priority r = _determine_priority text) /\
  analyze "" language
  = {| category := "general"; specialty := "General Medicine";
       priority := "normal"; confidence := 5 # 10; raw_scores := [] |}.
Proof.
  intros text r. split; [reflexivity|]. split; [|split].
  - intros (c & ps & Hin & Hpos). apply analyze_winner.
    subst r. unfold analyze. fold text. rewrite score_categories_spec.
    destruct (raw_scores_of text medical_keywords) eqn:Hs;
      cbn [raw_scores]; [|discriminate].
    pose proof (proj1 (raw_scores_of_nil text medical_keywords) Hs c ps Hin).
    lia.
  - intros H. apply raw_scores_of_nil in H.
    subst r. unfold analyze. fold text. rewrite score_categories_spec, H.
    repeat split.
  - unfold analyze. rewrite normalize_empty. reflexivity.
Qed.

(** C4 as stated fails: on "very dizzy" no category scores, and the
    priority is "urgent", not "normal". *)
Lemma very_dizzy_urgent_without_category :
  raw_scores (analyze "very dizzy" "en") = [] /\
  category (analyze "very dizzy" "en") = "general" /\
  priority (analyze "very dizzy" "en") <> "normal".
Proof. vm_compute. repeat split. discriminate. Qed.

(** C5: the priority [analyze] returns is the result of scanning the
    normalized text alone, whatever the category: "critical" when a
    phrase of the critical list occurs in it, whether or not an urgent
    one does; else "urgent" when a phrase of the urgent list occurs;
    else "normal". *)
Theorem priority_scan (symptoms language : string) :
  let text := normalize symptoms language in
  let r := analyze symptoms language in
  priority r = _determine_priority text /\
  ((exists k, In k critical_keywords /\ occurs k text) ->
   priority r = "critical") /\
  (~ (exists k, In k critical_keywords /\ occurs k text) ->
   (exists k, In k urgent_keywords /\ occurs k text) ->
   priority r = "urgent") /\
  (~ (exists k, In k critical_keywords /\ occurs k text) ->
   ~ (exists k, In k urgent_keywords /\ occurs k text) ->
   priority r = "normal").
Proof.
  intros text r.
  assert (priority r = _determine_priority text) as -> by reflexivity.
  split; [reflexivity|]. unfold _determine_priority.
  change (PyDict.get_default priority_rules "critical" []) with critical_keywords.
  change (PyDict.get_default priority_rules "urgent" []) with urgent_keywords.
  pose proof (scan_iff critical_keywords text) as Hc.
  pose proof (scan_iff urgent_keywords text) as Hu.
  destruct (scan critical_keywords text), (scan urgent_keywords text);
    repeat split; intros; try reflexivity;
    try (exfalso; intuition congruence).
Qed.

(** C10: when the raw scores are not empty the confidence lies between
    0.1 and 1: the least positive score is 1. So a text with one partial
    word match, as "deep", has confidence 0.1, below the 0.5 of a text
    that matches nothing. *)
Theorem confidence_bounds (symptoms language : string) :
  let r := analyze symptoms language in
  (raw_scores r <> [] -> (1 # 10 <= confidence r /\ confidence r <= 1)%Q) /\
  raw_scores (analyze "deep" "en") = [("emergency", 1)] /\
  (confidence (analyze "deep" "en") == 1 # 10)%Q /\
  raw_scores (analyze "zzz qqq" "en") = [] /\
  confidence (analyze "zzz qqq" "en") = 5 # 10 /\
  (confidence (analyze "deep" "en") < confidence (analyze "zzz qqq" "en"))%Q.
Proof.
  intros r. split.
  - intros Hne.
    destruct (analyze_winner symptoms language Hne)
      as (_ & ps & _ & _ & Hpos & _ & _ & Hconf).
    fold r in Hconf. rewrite Hconf. now apply confidence_range.
  - vm_compute. repeat split; reflexivity || congruence.
Qed.
End ClassifierClaims.

(* ================================================================== *)
(** ** Stable sorting *)
(* ================================================================== *)

Section OrderFacts.
Import Spec.
Context {A : Type}.

Lemma precedes_filter (p : A -> bool) (a b : A) (l : list A) :
  p a = true -> p b = true ->
  precedes a b l -> precedes a b (filter p l).
Proof.
  intros Ha Hb (l1 & l2 & l3 & ->).
  exists (filter p l1), (filter p l2), (filter p l3).
  rewrite filter_app. cbn [filter]. rewrite Ha, filter_app. cbn [filter].
  now rewrite Hb.
Qed.

Lemma filter_precedes (p : A -> bool) (a b : A) (l : list A) :
  precedes a b (filter p l) -> precedes a b l.
Proof.
  intros (l1 & l2 & l3 & H). rewrite <- (map_id l) in H.
  apply filter_map_split in H as (b1 & x & a1 & -> & -> & _ & _ & H).
  apply filter_map_split in H as (b2 & y & a2 & -> & -> & _ & _ & _).
  now exists b1, b2, a2.
Qed.

Lemma sorted_precedes (R : A -> A -> Prop) (a b : A) (l : list A) :
  StronglySorted R l -> precedes a b l -> R a b.
Proof.
  intros Hs (l1 & l2 & l3 & ->). induction l1 as [|x l1 IH].
  - simpl in Hs. inversion Hs as [|? ? _ Hall]; subst.
    rewrite Forall_forall in Hall. apply Hall.
    apply in_or_app. right. now left.
  - simpl in Hs. inversion Hs; subst. now apply IH.
Qed.

Lemma sorted_filter (R : A -> A -> Prop) (p : A -> bool) (l : list A) :
  StronglySorted R l -> StronglySorted R (filter p l).
Proof.
  induction 1 as [|x l Hs IH Hall]; simpl; [constructor|].
  destruct (p x); [|assumption]. constructor; [assumption|].
  rewrite Forall_forall in *. intros y Hy. apply Hall.
  now apply filter_In in Hy.
Qed.

Lemma sorted_impl (R R' : A -> A -> Prop) (l : list A) :
  (forall a b, R a b -> R' a b) ->
  StronglySorted R l -> StronglySorted R' l.
Proof.
  intros Himp. induction 1 as [|x l Hs IH Hall]; constructor;
    [assumption|].
  rewrite Forall_forall in *. intros y Hy. now apply Himp, Hall.
Qed.
End OrderFacts.

Section StableSortFacts.
Import PyList.
Context {A : Type}.
Variable before : A -> A -> bool.

Lemma insert_perm (x : A) (l : list A) :
  Permutation (insert before x l) (x :: l).
Proof.
  induction l as [|y l IH]; simpl; [reflexivity|].
  destruct (before y x); [|reflexivity].
  rewrite IH. apply perm_swap.
Qed.

Lemma stable_sort_perm (l : list A) : Permutation (stable_sort before l) l.
Proof.
  induction l as [|x l IH]; simpl; [reflexivity|].
  rewrite insert_perm. now constructor.
Qed.

Lemma insert_filter_out (p : A -> bool) (x : A) (l : list A) :
  p x = false -> filter p (insert before x l) = filter p l.
Proof.
  intros Hx. induction l as [|y l IH]; simpl; [now rewrite Hx|].
  destruct (before y x); simpl; [now rewrite IH | now rewrite Hx].
Qed.

Lemma insert_filter_in (p : A -> bool) (x : A) (l : list A) :
  p x = true ->
  (forall y, p y = true -> before y x = false) ->
  filter p (insert before x l) = x :: filter p l.
Proof.
  intros Hx Hclass. induction l as [|y l IH]; simpl; [now rewrite Hx|].
  destruct (before y x) eqn:Hyx; simpl; [|now rewrite Hx].
  destruct (p y) eqn:Hy; [|exact IH].
  rewrite (Hclass y Hy) in Hyx. discriminate.
Qed.

(** Stability: the elements of one rank come out in the order they came
    in. *)
Lemma stable_sort_filter (p : A -> bool) (l : list A) :
  (forall a b, p a = true -> p b = true -> before a b = false) ->
  filter p (stable_sort before l) = filter p l.
Proof.
  intros Hclass. induction l as [|x l IH]; simpl; [reflexivity|].
  destruct (p x) eqn:Hx.
  - rewrite insert_filter_in; [now rewrite IH | assumption |].
    intros y Hy. now apply Hclass.
  - now rewrite insert_filter_out.
Qed.

Hypothesis before_asym : forall a b, before a b = true -> before b a = false.
Hypothesis before_negtrans :
  forall a b c, before a b = false -> before b c = false -> before a c = false.

Lemma insert_sorted (x : A) (l : list A) :
  StronglySorted (fun a b => before b a = false) l ->
  StronglySorted (fun a b => before b a = false) (insert before x l).
Proof.
  induction 1 as [|y l Hs IH Hall]; simpl.
  - repeat constructor.
  - destruct (before y x) eqn:Hyx.
    + constructor; [assumption|].
      apply (Permutation_Forall (Permutation_sym (insert_perm x l))).
      constructor; [now apply before_asym | assumption].
    + constructor; [now constructor|].
      constructor; [assumption|].
      rewrite Forall_forall in *. intros z Hz.
      apply before_negtrans with y; [now apply Hall | assumption].
Qed.

Lemma stable_sort_sorted (l : list A) :
  StronglySorted (fun a b => before b a = false) (stable_sort before l).
Proof.
  induction l as [|x l IH]; simpl; [constructor | now apply insert_sorted].
Qed.
End StableSortFacts.

Section PySortFacts.
Import PyList.
Context {A : Type}.
Variable key : A -> Q.

Lemma sort_perm (reverse : bool) (l : list A) :
  Permutation (sort key reverse l) l.
Proof. apply stable_sort_perm. Qed.

Lemma negb_Qle_bool_false (x y : Q) :
  negb (Qle_bool x y) = false <-> (x <= y)%Q.
Proof. rewrite negb_false_iff. apply Qle_bool_iff. Qed.

Lemma negb_Qle_bool_true (x y : Q) :
  negb (Qle_bool x y) = true <-> (y < x)%Q.
Proof.
  rewrite negb_true_iff, <- not_true_iff_false, Qle_bool_iff.
  split; [apply Qnot_le_lt | apply Qlt_not_le].
Qed.

Lemma sort_descending (l : list A) :
  StronglySorted (fun a b => (key b <= key a)%Q) (sort key true l).
Proof.
  unfold sort. eapply sorted_impl; [|apply stable_sort_sorted].
  - intros a b H. cbv beta in H. now apply negb_Qle_bool_false in H.
  - intros a b H. apply negb_Qle_bool_true in H.
    apply negb_Qle_bool_false. now apply Qlt_le_weak.
  - intros a b c H1 H2. apply negb_Qle_bool_false in H1, H2.
    apply negb_Qle_bool_false. now apply Qle_trans with (key b).
Qed.

Lemma sort_ascending (l : list A) :
  StronglySorted (fun a b => (key a <= key b)%Q) (sort key false l).
Proof.
  unfold sort. eapply sorted_impl; [|apply stable_sort_sorted].
  - intros a b H. cbv beta in H. now apply negb_Qle_bool_false in H.
  - intros a b H. apply negb_Qle_bool_true in H.
    apply negb_Qle_bool_false. now apply Qlt_le_weak.
  - intros a b c H1 H2. apply negb_Qle_bool_false in H1, H2.
    apply negb_Qle_bool_false. now apply Qle_trans with (key b).
Qed.

(** Elements of equal key keep the order of the input. *)
Lemma sort_stable (reverse : bool) (k : Q) (l : list A) :
  filter (fun a => Qeq_bool (key a) k) (sort key reverse l)
  = filter (fun a => Qeq_bool (key a) k) l.
Proof.
  apply stable_sort_filter. intros a b Ha Hb.
  apply Qeq_bool_iff in Ha, Hb.
  destruct reverse; apply negb_Qle_bool_false; rewrite Ha, Hb;
    apply Qle_refl.
Qed.
End PySortFacts.

(* ================================================================== *)
(** ** The ranking engine *)
(* ================================================================== *)

Section RankingFacts.
Import Exc HospitalService.

Lemma fold_append_map {A B : Type} (f : A -> B) (l : list A) :
  forall acc : list B,
    fold_left (fun acc x => (acc ++ [f x])%list) l acc
    = (acc ++ map f l)%list.
Proof.
  induction l as [|x l IH]; intros acc; simpl.
  - now rewrite app_nil_r.
  - now rewrite IH, <- app_assoc.
Qed.

Lemma score_hospitals_sort (hospitals : list Hospital) (user_lat user_lng : Q)
    (analysis : SymptomAnalyzer.AnalysisResult) :
  score_hospitals hospitals user_lat user_lng analysis
  = PyList.sort total_score true
      (map (fun h => {| hospital := h;
                        total_score := hospital_score h analysis |})
           hospitals).
Proof. unfold score_hospitals. now rewrite fold_append_map. Qed.

Lemma travel_time_floor (distance_km : Q) :
  _calculate_travel_time distance_km
  = Z.max 5 (Qfloor (PyFloat.mul (PyFloat.div distance_km 25) 60)).
Proof.
  unfold _calculate_travel_time, PyNum.int.
  set (x := PyFloat.mul (PyFloat.div distance_km 25) 60).
  destruct (Qle_bool 0 x) eqn:Hx; [apply Z.max_comm|].
  assert (x < 0)%Q as Hneg.
  { apply Qnot_le_lt. intros H. apply Qle_bool_iff in H. congruence. }
  assert (Qceiling x <= 0)%Z.
  { pose proof (Qceiling_lt x) as Hc.
    assert (inject_Z (Qceiling x - 1) < inject_Z 0)%Q as Hlt
        by (eapply Qlt_trans; eassumption).
    rewrite <- Zlt_Qlt in Hlt. lia. }
  assert (Qfloor x < 0)%Z.
  { pose proof (Qfloor_le x) as Hf.
    assert (inject_Z (Qfloor x) < inject_Z 0)%Q as Hlt
        by (eapply Qle_lt_trans; eassumption).
    now rewrite <- Zlt_Qlt in Hlt. }
  lia.
Qed.

Variable geodesic : Q * Q -> Q * Q -> exc Q.

Lemma annotate_loop_returns (user_location : Q * Q) (specialty : option string)
    (max_distance_km : Q) (dist : Row -> Q) (all_hospitals : list Row) :
  (forall r, In r all_hospitals ->
     geodesic user_location (row_latitude r, row_longitude r)
     = Return (dist r)) ->
  forall acc,
    annotate_loop geodesic user_location specialty max_distance_km
                  all_hospitals acc
    = Return (acc ++ map (fun r => annotate specialty r (dist r))
                         (filter (fun r => Qle_bool (dist r) max_distance_km)
                                 all_hospitals))%list.
Proof.
  induction all_hospitals as [|r rs IH]; intros Hd acc; simpl.
  - now rewrite app_nil_r.
  - rewrite (Hd r (or_introl eq_refl)). cbn [bind].
    destruct (Qle_bool (dist r) max_distance_km).
    + rewrite IH by (intros; apply Hd; now right).
      simpl. now rewrite <- app_assoc.
    + apply IH. intros; apply Hd; now right.
Qed.

Lemma annotate_loop_raises (user_location : Q * Q) (specialty : option string)
    (max_distance_km : Q) (all_hospitals : list Row) :
  forall acc,
    raises (annotate_loop geodesic user_location specialty max_distance_km
                          all_hospitals acc)
    = existsb (fun r => raises (geodesic user_location
                                         (row_latitude r, row_longitude r)))
              all_hospitals.
Proof.
  induction all_hospitals as [|r rs IH]; intros acc; simpl; [reflexivity|].
  destruct (geodesic user_location _) as [d|e]; cbn [bind raises orb];
    [|reflexivity].
  destruct (Qle_bool d max_distance_km); apply IH.
Qed.

Lemma find_nearby_ascending (table : list Row) (latitude longitude : Q)
    (specialty : option string) (priority : string) (max_distance_km : Q)
    (out : list Hospital) :
  find_nearby_hospitals geodesic table latitude longitude specialty priority
                        max_distance_km = Return out ->
  StronglySorted (fun a b => (distance_km a <= distance_km b)%Q) out.
Proof.
  unfold find_nearby_hospitals.
  destruct (annotate_loop _ _ _ _ _ _) as [l|e]; cbn [bind];
    [|discriminate].
  intros H. injection H as <-. apply sort_ascending.
Qed.
End RankingFacts.

Section RankingClaims.
Import Exc HospitalService Spec.

(** C9: the list [score_hospitals] returns is a rearrangement of its
    input: the same facilities, as many times each, every one with all
    its fields as they were and the field [total_score] added. *)
Theorem score_hospitals_permutation (hospitals : list Hospital)
    (user_lat user_lng : Q) (analysis : SymptomAnalyzer.AnalysisResult) :
  let out := score_hospitals hospitals user_lat user_lng analysis in
  Permutation (map hospital out) hospitals /\
  Permutation out
    (map (fun h => {| hospital := h;
                      total_score := hospital_score h analysis |})
         hospitals) /\
  length out = length hospitals.
Proof.
  intros out. subst out. rewrite score_hospitals_sort.
  set (scored := map _ hospitals).
  pose proof (sort_perm total_score true scored) as Hp.
  assert (map hospital scored = hospitals) as Hm.
  { subst scored. rewrite map_map. cbn [hospital]. apply map_id. }
  repeat split.
  - apply Permutation_trans with (map hospital scored);
      [now apply Permutation_map | now rewrite Hm].
  - exact Hp.
  - rewrite (Permutation_length Hp). subst scored. apply length_map.
Qed.

(** C2: on an input in ascending order of [distance_km], the output of
    [score_hospitals] is in non-increasing order of [total_score], and
    of two facilities of equal [total_score] the one that stands first
    has the smaller (or the same) [distance_km]: the facilities of one
    score keep the order of the input. *)
Theorem score_hospitals_sorted_stable (hospitals : list Hospital)
    (user_lat user_lng : Q) (analysis : SymptomAnalyzer.AnalysisResult) :
  StronglySorted (fun a b => (distance_km a <= distance_km b)%Q) hospitals ->
  let out := score_hospitals hospitals user_lat user_lng analysis in
  StronglySorted (fun a b => (total_score b <= total_score a)%Q) out /\
  (forall a b, precedes a b out -> (total_score a == total_score b)%Q ->
               (distance_km a <= distance_km b)%Q) /\
  (forall score,
      map hospital (filter (fun a => Qeq_bool (total_score a) score) out)
      = filter (fun h => Qeq_bool (hospital_score h analysis) score)
               hospitals).
Proof.
  intros Hsorted out. subst out. rewrite score_hospitals_sort.
  set (scored := map _ hospitals).
  assert (forall score,
             map hospital (filter (fun a => Qeq_bool (total_score a) score)
                                  (PyList.sort total_score true scored))
             = filter (fun h => Qeq_bool (hospital_score h analysis) score)
                      hospitals) as Hclass.
  { intros score. rewrite sort_stable. subst scored.
    clear Hsorted. induction hospitals as [|h hs IH]; simpl; [reflexivity|].
    destruct (Qeq_bool (hospital_score h analysis) score); simpl; now rewrite IH. }
  split; [apply sort_descending|]. split; [|exact Hclass].
  intros a b Hprec Heq.
  set (p := fun x : ScoredHospital => Qeq_bool (total_score x) (total_score a)).
  assert (precedes (hospital a) (hospital b)
            (filter (fun h => Qeq_bool (hospital_score h analysis) (total_score a))
                    hospitals)) as Hin.
  { rewrite <- Hclass.
    apply (precedes_filter p) in Hprec.
    - destruct Hprec as (l1 & l2 & l3 & Heq'). unfold p in Heq'.
      exists (map hospital l1), (map hospital l2), (map hospital l3).
      rewrite Heq', map_app. cbn [map]. now rewrite map_app.
    - apply Qeq_bool_iff. reflexivity.
    - apply Qeq_bool_iff. now symmetry. }
  apply filter_precedes in Hin.
  exact (sorted_precedes _ _ _ _ Hsorted Hin).
Qed.

(** C6: when the distance routine returns a distance for every
    candidate, [find_nearby_hospitals] returns, and what it returns is a
    rearrangement of the candidates whose computed distance is at most
    [max_distance_km], annotated: a candidate at exactly that distance is
    in, one beyond it is out; and each has as travel time
    max(5, floor(distance / 25 * 60)) minutes of its computed distance,
    the quotient and the product being those of doubles, so 5 minutes at
    least. *)
Theorem find_nearby_within_radius (geodesic : Q * Q -> Q * Q -> exc Q)
    (table : list Row) (latitude longitude : Q) (specialty : option string)
    (priority : string) (max_distance_km : Q) (dist : Row -> Q) :
  let candidates := select_hospitals priority table in
  (forall r, In r candidates ->
     geodesic (latitude, longitude) (row_latitude r, row_longitude r)
     = Return (dist r)) ->
  exists out,
    find_nearby_hospitals geodesic table latitude longitude specialty
                          priority max_distance_km = Return out /\
    Permutation out
      (map (fun r => annotate specialty r (dist r))
           (filter (fun r => Qle_bool (dist r) max_distance_km) candidates)) /\
    (forall r, In r candidates ->
       (In (annotate specialty r (dist r)) out
        <-> (dist r <= max_distance_km)%Q)) /\
    (forall r, In r candidates -> (dist r == max_distance_km)%Q ->
       In (annotate specialty r (dist r)) out) /\
    (forall r, In r candidates -> (max_distance_km < dist r)%Q ->
       ~ In (annotate specialty r (dist r)) out) /\
    (forall h, In h out ->
       exists r, In r candidates /\ (dist r <= max_distance_km)%Q /\
                 h = annotate specialty r (dist r) /\
                 travel_time_minutes h
                 = Z.max 5 (Qfloor (PyFloat.mul (PyFloat.div (dist r) 25) 60)) /\
                 5 <= travel_time_minutes h).
Proof.
  intros candidates Hd.
  unfold find_nearby_hospitals. fold candidates.
  rewrite (annotate_loop_returns geodesic _ specialty max_distance_km dist
             candidates Hd []).
  cbn [bind app]. set (kept := map _ (filter _ candidates)).
  exists (PyList.sort distance_km false kept).
  pose proof (sort_perm distance_km false kept) as Hp.
  assert (forall h, In h kept <->
            exists r, In r candidates /\ (dist r <= max_distance_km)%Q
                      /\ h = annotate specialty r (dist r)) as Hkept.
  { intros h. subst kept. rewrite in_map_iff. split.
    - intros (r & <- & Hr). apply filter_In in Hr as [Hr Hle].
      exists r. apply Qle_bool_iff in Hle. now repeat split.
    - intros (r & Hr & Hle & ->). exists r. split; [reflexivity|].
      apply filter_In. split; [assumption | now apply Qle_bool_iff]. }
  assert (forall r, In r candidates ->
            (In (annotate specialty r (dist r))
                (PyList.sort distance_km false kept)
             <-> (dist r <= max_distance_km)%Q)) as Hiff.
  { intros r Hr. split.
    + intros Hin. apply (Permutation_in _ Hp) in Hin.
      apply Hkept in Hin as (r' & Hr' & Hle & Heq).
      assert (row_latitude r = row_latitude r') as Hlat
          by exact (f_equal HospitalService.latitude Heq).
      assert (row_longitude r = row_longitude r') as Hlon
          by exact (f_equal HospitalService.longitude Heq).
      pose proof (Hd r Hr) as H1. pose proof (Hd r' Hr') as H2.
      rewrite Hlat, Hlon, H2 in H1. injection H1 as H1. now rewrite <- H1.
    + intros Hle. apply (Permutation_in _ (Permutation_sym Hp)).
      apply Hkept. now exists r. }
  split; [reflexivity|]. split; [exact Hp|]. split; [exact Hiff|].
  split; [|split].
  - intros r Hr Heq. apply Hiff; [assumption|]. rewrite Heq. apply Qle_refl.
  - intros r Hr Hlt Hin. apply Hiff in Hin; [|assumption].
    exact (Qlt_not_le _ _ Hlt Hin).
  - intros h Hin. apply (Permutation_in _ Hp) in Hin.
    apply Hkept in Hin as (r & Hr & Hle & ->).
    exists r. repeat split; try assumption.
    + apply travel_time_floor.
    + cbn [annotate travel_time_minutes]. rewrite travel_time_floor. lia.
Qed.
End RankingClaims.

Section RoundFacts.
Import PyNum.
Local Open Scope Q_scope.

Lemma round_half_even_comp (x y : Q) :
  x == y -> round_half_even x = round_half_even y.
Proof.
  intros H. unfold round_half_even.
  rewrite (Qfloor_comp _ _ H).
  assert (x - inject_Z (Qfloor y) == y - inject_Z (Qfloor y)) as H'
      by now rewrite H.
  now rewrite (Qcompare_comp _ _ H' _ _ (Qeq_refl (1 # 2))).
Qed.

Lemma round_comp (x y : Q) (ndigits : nat) :
  x == y -> round x ndigits = round y ndigits.
Proof.
  intros H. unfold round. destruct ndigits.
  - now rewrite (round_half_even_comp _ _ H).
  - set (m := inject_Z _).
    rewrite (round_half_even_comp (x * m) (y * m)); [reflexivity|].
    now rewrite H.
Qed.

Lemma round_half_even_lower (k : Z) (x : Q) :
  inject_Z k <= x -> (k <= round_half_even x)%Z.
Proof.
  intros H. apply Qfloor_resp_le in H. rewrite Qfloor_Z in H.
  unfold round_half_even. destruct (Qcompare _ _); [|lia|lia].
  destruct (Z.even _); lia.
Qed.

Lemma round_half_even_upper (k : Z) (x : Q) :
  x <= inject_Z k -> (round_half_even x <= k)%Z.
Proof.
  intros H. pose proof (Qfloor_resp_le _ _ H) as Hf. rewrite Qfloor_Z in Hf.
  unfold round_half_even.
  destruct (Z.eq_dec (Qfloor x) k) as [Hk | Hk].
  - assert (x - inject_Z (Qfloor x) == 0) as H0.
    { rewrite Hk. pose proof (Qfloor_le x) as Hle. rewrite Hk in Hle.
      apply Qle_antisym; lra. }
    rewrite (Qcompare_comp _ _ H0 _ _ (Qeq_refl (1 # 2))). cbn. lia.
  - destruct (Qcompare _ _); [|lia|lia]. destruct (Z.even _); lia.
Qed.

Lemma round1_range (lo hi : Z) (x : Q) :
  inject_Z lo <= x -> x <= inject_Z hi ->
  inject_Z lo <= round x 1 /\ round x 1 <= inject_Z hi.
Proof.
  intros Hlo Hhi. unfold round. cbn [Pos.of_nat Pos.pow].
  change (Pos.pow 10 1) with 10%positive.
  assert (inject_Z (lo * 10) <= x * inject_Z 10) as H1.
  { rewrite inject_Z_mult. apply Qmult_le_compat_r; [assumption | discriminate]. }
  assert (x * inject_Z 10 <= inject_Z (hi * 10)) as H2.
  { rewrite inject_Z_mult. apply Qmult_le_compat_r; [assumption | discriminate]. }
  apply round_half_even_lower in H1. apply round_half_even_upper in H2.
  unfold Qle; cbn [Qnum Qden inject_Z]. lia.
Qed.
End RoundFacts.

Section RoundMonotone.
Import PyNum.
Local Open Scope Q_scope.

Lemma round_half_even_mono (x y : Q) :
  x <= y -> (round_half_even x <= round_half_even y)%Z.
Proof.
  intros Hxy. pose proof (Qfloor_resp_le _ _ Hxy) as Hf.
  unfold round_half_even.
  destruct (Z.eq_dec (Qfloor x) (Qfloor y)) as [Heq | Hne].
  - rewrite <- Heq.
    destruct (Qcompare_spec (x - inject_Z (Qfloor x)) (1 # 2)) as [Hx|Hx|Hx],
             (Qcompare_spec (y - inject_Z (Qfloor x)) (1 # 2)) as [Hy|Hy|Hy];
      try (destruct (Z.even (Qfloor x))); try lia; exfalso; lra.
  - destruct (Qcompare (x - _) _), (Qcompare (y - _) _);
      try (destruct (Z.even (Qfloor x))); try (destruct (Z.even (Qfloor y)));
      lia.
Qed.

Lemma round_mono (x y : Q) (ndigits : nat) :
  x <= y -> round x ndigits <= round y ndigits.
Proof.
  intros Hxy. unfold round. destruct ndigits.
  - rewrite <- Zle_Qle. now apply round_half_even_mono.
  - set (m := Pos.pow 10 _).
    assert (x * inject_Z (Z.pos m) <= y * inject_Z (Z.pos m)) as H
        by (apply Qmult_le_compat_r; [assumption | discriminate]).
    apply round_half_even_mono in H.
    unfold Qle; cbn [Qnum Qden]. nia.
Qed.

Lemma round_upper_Z (x : Q) (k : Z) (ndigits : nat) :
  x <= inject_Z k -> round x ndigits <= inject_Z k.
Proof.
  intros Hx. unfold round. destruct ndigits.
  - rewrite <- Zle_Qle. now apply round_half_even_upper.
  - set (m := Pos.pow 10 _).
    assert (x * inject_Z (Z.pos m) <= inject_Z (k * Z.pos m)) as H.
    { rewrite inject_Z_mult. apply Qmult_le_compat_r; [assumption | discriminate]. }
    apply round_half_even_upper in H.
    unfold Qle; cbn [Qnum Qden inject_Z]. nia.
Qed.
End RoundMonotone.

(* ================================================================== *)
(** ** Facts on doubles *)
(* ================================================================== *)

Section FloatFacts.
Import PyNum PyFloat.
Local Open Scope Q_scope.

Lemma pow2_pos (e : Z) : 0 < 2 ^ e.
Proof. apply Qpower_0_lt. reflexivity. Qed.

Lemma pow2_plus (a b : Z) : 2 ^ (a + b) == 2 ^ a * 2 ^ b.
Proof. apply Qpower_plus. discriminate. Qed.

Lemma pow2_le (a b : Z) : (a <= b)%Z -> 2 ^ a <= 2 ^ b.
Proof. intros H. apply Qpower_le_compat_l; [assumption | discriminate]. Qed.

Lemma pow2_lt_inv (a b : Z) : 2 ^ a < 2 ^ b -> (a < b)%Z.
Proof. intros H. apply Qpower_lt_compat_l_inv with 2; [assumption | reflexivity]. Qed.

Lemma pow2_Z (n : Z) : (0 <= n)%Z -> inject_Z (2 ^ n) == 2 ^ n.
Proof. intros H. apply (Zpower_Qpower 2 n H). Qed.

Lemma round_half_even_Z (k : Z) : round_half_even (inject_Z k) = k.
Proof.
  pose proof (round_half_even_lower k (inject_Z k) (Qle_refl _)).
  pose proof (round_half_even_upper k (inject_Z k) (Qle_refl _)).
  lia.
Qed.

Lemma ilog2_spec (x : Q) :
  0 < x -> 2 ^ ilog2 x <= x /\ x < 2 ^ (ilog2 x + 1).
Proof.
  intros Hx. unfold ilog2.
  destruct x as [n d]. cbn [Qnum Qden].
  assert (0 < n)%Z as Hn by (unfold Qlt in Hx; cbn in Hx; lia).
  set (ln := Z.log2 n). set (ld := Z.log2 (Z.pos d)).
  destruct (Z.log2_spec n Hn) as [Hn1 Hn2]. fold ln in Hn1, Hn2.
  destruct (Z.log2_spec (Z.pos d) eq_refl) as [Hd1 Hd2]. fold ld in Hd1, Hd2.
  assert (0 <= ln)%Z as Hln by apply Z.log2_nonneg.
  assert (0 <= ld)%Z as Hld by apply Z.log2_nonneg.
  assert (2 ^ ln <= inject_Z n) as Qn1
      by (rewrite <- pow2_Z by assumption; now rewrite <- Zle_Qle).
  assert (inject_Z n < 2 ^ (ln + 1)) as Qn2
      by (rewrite <- pow2_Z by lia; rewrite <- Zlt_Qlt;
          now rewrite <- Z.add_1_r in Hn2).
  assert (2 ^ ld <= inject_Z (Z.pos d)) as Qd1
      by (rewrite <- pow2_Z by assumption; now rewrite <- Zle_Qle).
  assert (inject_Z (Z.pos d) < 2 ^ (ld + 1)) as Qd2
      by (rewrite <- pow2_Z by lia; rewrite <- Zlt_Qlt;
          now rewrite <- Z.add_1_r in Hd2).
  assert (0 < inject_Z (Z.pos d)) as Dpos by reflexivity.
  assert (n # d == inject_Z n / inject_Z (Z.pos d)) as Hdiv
      by apply Qmake_Qdiv.
  pose proof (pow2_pos ln) as Pln. pose proof (pow2_pos ld) as Pld.
  assert (2 ^ (ln - ld - 1) < n # d) as Hlow.
  { rewrite Hdiv. apply Qlt_shift_div_l; [assumption|].
    assert (2 ^ ln == 2 ^ (ln - ld - 1) * 2 ^ (ld + 1)) as E
        by (rewrite <- pow2_plus; apply Qpower_comp; [reflexivity | lia]).
    pose proof (pow2_pos (ln - ld - 1)). nra. }
  assert (n # d < 2 ^ (ln - ld + 1)) as Hup.
  { rewrite Hdiv. apply Qlt_shift_div_r; [assumption|].
    assert (2 ^ (ln + 1) == 2 ^ (ln - ld + 1) * 2 ^ ld) as E
        by (rewrite <- pow2_plus; apply Qpower_comp; [reflexivity | lia]).
    pose proof (pow2_pos (ln - ld + 1)). nra. }
  destruct (Qle_bool (2 ^ (ln - ld)) (n # d)) eqn:Hc.
  - apply Qle_bool_iff in Hc. split; assumption.
  - assert (n # d < 2 ^ (ln - ld)) as Hlt.
    { apply Qnot_le_lt. intros H. apply Qle_bool_iff in H. congruence. }
    split; [now apply Qlt_le_weak|].
    assert (2 ^ (ln - ld - 1 + 1) == 2 ^ (ln - ld)) as E
        by (apply Qpower_comp; [reflexivity | lia]).
    now rewrite E.
Qed.

Lemma ilog2_unique (x : Q) (k : Z) :
  0 < x -> 2 ^ k <= x -> x < 2 ^ (k + 1) -> ilog2 x = k.
Proof.
  intros Hx H1 H2. destruct (ilog2_spec x Hx) as [S1 S2].
  assert (ilog2 x < k + 1)%Z
    by (apply pow2_lt_inv; now apply Qle_lt_trans with x).
  assert (k < ilog2 x + 1)%Z
    by (apply pow2_lt_inv; now apply Qle_lt_trans with x).
  lia.
Qed.

Lemma ilog2_mono (x y : Q) : 0 < x -> x <= y -> (ilog2 x <= ilog2 y)%Z.
Proof.
  intros Hx Hxy. assert (0 < y) as Hy by now apply Qlt_le_trans with x.
  destruct (ilog2_spec x Hx) as [S1 _]. destruct (ilog2_spec y Hy) as [_ S2].
  assert (ilog2 x < ilog2 y + 1)%Z; [|lia].
  apply pow2_lt_inv. apply Qle_lt_trans with x; [assumption|].
  now apply Qle_lt_trans with y.
Qed.

Lemma exponent_mono (x y : Q) : 0 < x -> x <= y -> (exponent x <= exponent y)%Z.
Proof.
  intros Hx Hxy. unfold exponent. pose proof (ilog2_mono x y Hx Hxy). lia.
Qed.

Lemma scaled_lt (x : Q) : 0 < x -> x / 2 ^ exponent x < inject_Z (2 ^ 53).
Proof.
  intros Hx. apply Qlt_shift_div_r; [apply pow2_pos|].
  destruct (ilog2_spec x Hx) as [_ S2].
  rewrite pow2_Z by lia.
  apply Qlt_le_trans with (2 ^ (ilog2 x + 1)); [assumption|].
  rewrite <- pow2_plus. apply pow2_le. unfold exponent. lia.
Qed.

Lemma scaled_ge (x : Q) :
  0 < x -> exponent x = (ilog2 x - 52)%Z ->
  inject_Z (2 ^ 52) <= x / 2 ^ exponent x.
Proof.
  intros Hx He. apply Qle_shift_div_l; [apply pow2_pos|].
  destruct (ilog2_spec x Hx) as [S1 _].
  rewrite pow2_Z by lia. rewrite <- pow2_plus, He.
  assert (2 ^ (52 + (ilog2 x - 52)) == 2 ^ ilog2 x) as ->
      by (apply Qpower_comp; [reflexivity | lia]).
  assumption.
Qed.

Lemma nearest_positive_nonneg (x : Q) : 0 < x -> 0 <= nearest_positive x.
Proof.
  intros Hx. unfold nearest_positive.
  assert (0 <= round_half_even (x / 2 ^ exponent x))%Z as Hm.
  { apply round_half_even_lower. apply Qle_shift_div_l; [apply pow2_pos|].
    rewrite Qmult_0_l. now apply Qlt_le_weak. }
  apply Qmult_le_0_compat; [now rewrite <- (Zle_Qle 0) | apply Qlt_le_weak, pow2_pos].
Qed.

Lemma nearest_positive_mono (x y : Q) :
  0 < x -> x <= y -> nearest_positive x <= nearest_positive y.
Proof.
  intros Hx Hxy. assert (0 < y) as Hy by now apply Qlt_le_trans with x.
  pose proof (exponent_mono x y Hx Hxy) as He.
  unfold nearest_positive.
  destruct (Z.eq_dec (exponent x) (exponent y)) as [Heq | Hne].
  - rewrite Heq. apply Qmult_le_compat_r; [|apply Qlt_le_weak, pow2_pos].
    rewrite <- Zle_Qle. apply round_half_even_mono.
    apply Qmult_le_compat_r; [assumption|].
    apply Qlt_le_weak, Qinv_lt_0_compat, pow2_pos.
  - assert (exponent y = (ilog2 y - 52)%Z) as Hey
        by (unfold exponent in *; lia).
    pose proof (round_half_even_lower _ _ (scaled_ge y Hy Hey)) as Hmy.
    pose proof (round_half_even_upper _ _
                  (Qlt_le_weak _ _ (scaled_lt x Hx))) as Hmx.
    apply Qle_trans with (inject_Z (2 ^ 53) * 2 ^ exponent x).
    + apply Qmult_le_compat_r; [now rewrite <- Zle_Qle|].
      apply Qlt_le_weak, pow2_pos.
    + apply Qle_trans with (inject_Z (2 ^ 52) * 2 ^ exponent y).
      * rewrite !pow2_Z by lia. rewrite <- !pow2_plus. apply pow2_le. lia.
      * apply Qmult_le_compat_r; [now rewrite <- Zle_Qle|].
        apply Qlt_le_weak, pow2_pos.
Qed.

Lemma nearest_mono (x y : Q) : x <= y -> nearest x <= nearest y.
Proof.
  intros Hxy. unfold nearest.
  destruct (Qcompare_spec x 0) as [Hx|Hx|Hx],
           (Qcompare_spec y 0) as [Hy|Hy|Hy];
    try apply Qle_refl; try (exfalso; lra).
  - now apply nearest_positive_nonneg.
  - assert (0 <= nearest_positive (- x)) by (apply nearest_positive_nonneg; lra).
    lra.
  - assert (nearest_positive (- y) <= nearest_positive (- x))
      by (apply nearest_positive_mono; lra).
    lra.
  - assert (0 <= nearest_positive (- x)) by (apply nearest_positive_nonneg; lra).
    pose proof (nearest_positive_nonneg y Hy). lra.
  - now apply nearest_positive_mono.
Qed.

Lemma nearest_comp (x y : Q) : x == y -> nearest x == nearest y.
Proof.
  intros H. apply Qle_antisym; apply nearest_mono; rewrite H; apply Qle_refl.
Qed.

Lemma nearest_opp (x : Q) : nearest (- x) == - nearest x.
Proof.
  unfold nearest.
  destruct (Qcompare_spec x 0) as [Hx|Hx|Hx],
           (Qcompare_spec (- x) 0) as [Hy|Hy|Hy];
    try reflexivity; try (exfalso; lra).
  - ring.
  - assert (nearest_positive (- - x) == nearest_positive x) as E.
    { pose proof (nearest_comp (- - x) x (Qopp_involutive x)) as Hc.
      unfold nearest in Hc.
      destruct (Qcompare_spec (- - x) 0), (Qcompare_spec x 0);
        try (exfalso; lra). exact Hc. }
    rewrite E. reflexivity.
Qed.

(** A number whose quotient by the last bit is whole is a double. *)
Lemma nearest_positive_exact (x : Q) (j : Z) :
  x / 2 ^ exponent x == inject_Z j -> nearest_positive x == x.
Proof.
  intros H. unfold nearest_positive.
  rewrite (round_half_even_comp _ _ H), round_half_even_Z, <- H.
  field. pose proof (pow2_pos (exponent x)). lra.
Qed.

Lemma nearest_representable (m e : Z) :
  (0 < m <= 2 ^ 53)%Z -> (-1074 <= e)%Z ->
  nearest (inject_Z m * 2 ^ e) == inject_Z m * 2 ^ e.
Proof.
  intros Hm He. set (r := inject_Z m * 2 ^ e).
  assert (0 < inject_Z m) as Qm by (rewrite <- (Zlt_Qlt 0); lia).
  assert (0 < r) as Hr
      by (apply Qmult_lt_0_compat; [assumption | apply pow2_pos]).
  unfold nearest. destruct (Qcompare_spec r 0) as [H|H|H];
    try (exfalso; lra).
  destruct (Z.log2_spec m (proj1 Hm)) as [L1 L2].
  pose proof (Z.log2_nonneg m) as L0. set (L := Z.log2 m) in *.
  assert (ilog2 r = (L + e)%Z) as Hlog.
  { apply ilog2_unique; [assumption| |].
    - rewrite pow2_plus. subst r.
      apply Qmult_le_compat_r; [|apply Qlt_le_weak, pow2_pos].
      rewrite <- pow2_Z by assumption. now rewrite <- Zle_Qle.
    - assert (2 ^ (L + e + 1) == 2 ^ (L + 1) * 2 ^ e) as ->
          by (rewrite <- pow2_plus; apply Qpower_comp; [reflexivity | lia]).
      subst r. apply Qmult_lt_compat_r; [apply pow2_pos|].
      rewrite <- pow2_Z by lia. rewrite <- Zlt_Qlt.
      now rewrite <- Z.add_1_r in L2. }
  assert (L <= 53)%Z as L53.
  { assert (L < 54)%Z; [|lia]. apply (Z.pow_lt_mono_r_iff 2); lia. }
  destruct (Z.eq_dec L 53) as [HL | HL].
  - assert (m = 2 ^ 53)%Z as -> by (rewrite HL in L1; lia).
    apply (nearest_positive_exact r (2 ^ 52)).
    assert (exponent r = (e + 1)%Z) as -> by (unfold exponent; lia).
    subst r. rewrite !pow2_Z by lia. rewrite pow2_plus. field.
    pose proof (pow2_pos e). lra.
  - assert (exponent r <= e)%Z as Hle by (unfold exponent; lia).
    apply (nearest_positive_exact r (m * 2 ^ (e - exponent r))).
    rewrite inject_Z_mult, pow2_Z by lia. subst r.
    assert (2 ^ e == 2 ^ (e - exponent (inject_Z m * 2 ^ e))
                     * 2 ^ exponent (inject_Z m * 2 ^ e)) as E
        by (rewrite <- pow2_plus; apply Qpower_comp; [reflexivity | lia]).
    rewrite E at 1. field.
    pose proof (pow2_pos (exponent (inject_Z m * 2 ^ e))). lra.
Qed.

Lemma nearest_idem (x : Q) : nearest (nearest x) == nearest x.
Proof.
  assert (forall y, 0 < y ->
            nearest (nearest_positive y) == nearest_positive y) as Hpos.
  { intros y Hy. unfold nearest_positive.
    set (m := round_half_even (y / 2 ^ exponent y)).
    assert (0 <= m)%Z as Hm0.
    { apply round_half_even_lower. apply Qle_shift_div_l; [apply pow2_pos|].
      rewrite Qmult_0_l. now apply Qlt_le_weak. }
    assert (m <= 2 ^ 53)%Z as Hm1
        by (apply round_half_even_upper, Qlt_le_weak, scaled_lt; assumption).
    destruct (Z.eq_dec m 0) as [-> | Hne].
    - rewrite (nearest_comp _ 0) by apply Qmult_0_l.
      cbn. symmetry. apply Qmult_0_l.
    - apply nearest_representable; [lia | unfold exponent; lia]. }
  unfold nearest at 2 3.
  destruct (Qcompare_spec x 0) as [Hx|Hx|Hx].
  - reflexivity.
  - rewrite nearest_opp. rewrite Hpos by lra. reflexivity.
  - now apply Hpos.
Qed.

Lemma nearest_Z (k : Z) :
  (Z.abs k <= 2 ^ 53)%Z -> nearest (inject_Z k) == inject_Z k.
Proof.
  assert (forall j, (0 < j <= 2 ^ 53)%Z -> nearest (inject_Z j) == inject_Z j)
    as Hpos.
  { intros j Hj. pose proof (nearest_representable j 0 Hj ltac:(lia)) as H.
    assert (inject_Z j * 2 ^ 0 == inject_Z j) as E by (cbn; ring).
    rewrite <- E at 2. rewrite <- H. apply nearest_comp. now symmetry. }
  intros Hk. destruct (Z.lt_trichotomy k 0) as [Hneg | [-> | Hp]].
  - assert (inject_Z k == - inject_Z (- k)) as E
        by (rewrite inject_Z_opp; ring).
    rewrite (nearest_comp _ _ E), nearest_opp, Hpos by lia.
    now symmetry.
  - reflexivity.
  - apply Hpos. lia.
Qed.

Lemma add_mono (x y x' y' : Q) : x <= x' -> y <= y' -> add x y <= add x' y'.
Proof. intros. apply nearest_mono. lra. Qed.

Lemma add_zero (x : Q) : add (nearest x) 0 == nearest x.
Proof.
  unfold add. rewrite (nearest_comp _ (nearest x)) by ring. apply nearest_idem.
Qed.

Lemma add_comp (x y x' y' : Q) : x == x' -> y == y' -> add x y == add x' y'.
Proof. intros H1 H2. apply nearest_comp. now rewrite H1, H2. Qed.

Lemma mul_comp (x y x' y' : Q) : x == x' -> y == y' -> mul x y == mul x' y'.
Proof. intros H1 H2. apply nearest_comp. now rewrite H1, H2. Qed.

Lemma div_comp (x y x' y' : Q) : x == x' -> y == y' -> div x y == div x' y'.
Proof. intros H1 H2. apply nearest_comp. now rewrite H1, H2. Qed.

Lemma div_mono (x x' y : Q) : 0 < y -> x <= x' -> div x y <= div x' y.
Proof.
  intros Hy H. apply nearest_mono. apply Qmult_le_compat_r; [assumption|].
  now apply Qlt_le_weak, Qinv_lt_0_compat.
Qed.

Lemma mul_mono (x x' y : Q) : 0 <= y -> x <= x' -> mul x y <= mul x' y.
Proof. intros Hy H. apply nearest_mono. now apply Qmult_le_compat_r. Qed.
(** The operations on doubles respect the equality of rationals. *)
#[global] Instance nearest_Proper : Proper (Qeq ==> Qeq) PyFloat.nearest.
Proof. intros x y H. now apply nearest_comp. Qed.

#[global] Instance add_Proper : Proper (Qeq ==> Qeq ==> Qeq) PyFloat.add.
Proof. intros x x' Hx y y' Hy. now apply add_comp. Qed.

#[global] Instance mul_Proper : Proper (Qeq ==> Qeq ==> Qeq) PyFloat.mul.
Proof. intros x x' Hx y y' Hy. now apply mul_comp. Qed.

#[global] Instance div_Proper : Proper (Qeq ==> Qeq ==> Qeq) PyFloat.div.
Proof. intros x x' Hx y y' Hy. now apply div_comp. Qed.
End FloatFacts.

Section ScoreFacts.
Import PyFloat HospitalService Spec.
Local Open Scope Q_scope.

Lemma existsb_eqb_in_dec (s : string) (l : list string) :
  existsb (String.eqb s) l = if in_dec string_dec s l then true else false.
Proof.
  destruct (in_dec string_dec s l) as [Hin | Hnot].
  - apply existsb_exists. exists s. split; [assumption | apply String.eqb_refl].
  - apply not_true_iff_false. intros H.
    apply existsb_exists in H as (x & Hx & Heq).
    apply String.eqb_eq in Heq. now subst.
Qed.

Lemma urgent_or_critical (priority : string) :
  existsb (String.eqb priority) ["critical"; "urgent"]
  = if string_dec priority "urgent" then true
    else if string_dec priority "critical" then true else false.
Proof.
  rewrite existsb_eqb_in_dec.
  destruct (in_dec string_dec priority _) as [Hin | Hnot],
    (string_dec priority "urgent"), (string_dec priority "critical");
    try reflexivity; cbn [In] in *; intuition congruence.
Qed.

(** Adding the integer 0 to a double changes nothing. *)
Lemma add_nothing (x y : Q) : add (add x y) 0 == add x y.
Proof. apply add_zero. Qed.

(** The sum of doubles the loop of [score_hospitals] makes, on the points
    [base] of the specialty and of the distance. *)
Lemma score_sum (base base' rating_points : Q) (urgent emergency ambulance : bool) :
  base == base' ->
  (let score := add base rating_points in
   if urgent
   then
     let score := if emergency then add score 10 else score in
     if ambulance then add score 5 else score
   else score)
  == add (add (add base' rating_points)
              (if urgent then if emergency then 10 else 0 else 0))
         (if urgent then if ambulance then 5 else 0 else 0).
Proof.
  intros Hb. cbv zeta.
  destruct urgent, emergency, ambulance;
    rewrite Hb; repeat rewrite add_nothing; reflexivity.
Qed.
Lemma hospital_score_sum (h : Hospital)
    (analysis : SymptomAnalyzer.AnalysisResult) :
  hospital_score h analysis
  = PyNum.round (total_points h (SymptomAnalyzer.priority analysis)) 1.
Proof.
  unfold hospital_score. apply round_comp.
  rewrite score_sum with (base' := specialty_points h + distance_points h).
  - unfold total_points, rating_points, emergency_points, ambulance_points.
    rewrite urgent_or_critical.
    destruct (string_dec (SymptomAnalyzer.priority analysis) "urgent"),
      (string_dec (SymptomAnalyzer.priority analysis) "critical");
      reflexivity.
  - unfold specialty_points, distance_points.
    rewrite (existsb_eqb_in_dec "General Medicine").
    destruct (specialty_match h),
      (in_dec string_dec "General Medicine" (specialties h)),
      (Qle_bool (distance_km h) 5), (Qle_bool (distance_km h) 10),
      (Qle_bool (distance_km h) 20), (Qle_bool (distance_km h) 30); ring.
Qed.

Lemma rating_points_range (h : Hospital) :
  0 <= rating h -> rating h <= 5 ->
  0 <= rating_points h /\ rating_points h <= 20.
Proof.
  intros Hlo Hhi. unfold rating_points. split.
  - apply Qle_trans with (mul (div 0 5) 20); [vm_compute; discriminate|].
    apply mul_mono; [discriminate|]. apply div_mono; [reflexivity | exact Hlo].
  - apply Qle_trans with (mul (div 5 5) 20); [|vm_compute; discriminate].
    apply mul_mono; [discriminate|]. apply div_mono; [reflexivity | exact Hhi].
Qed.

Lemma components_range (h : Hospital) (priority : string) :
  0 <= rating h -> rating h <= 5 ->
  5 <= total_points h priority /\ total_points h priority <= 105.
Proof.
  intros Hlo Hhi.
  destruct (rating_points_range h Hlo Hhi) as [Hr0 Hr20].
  assert (5 <= specialty_points h + distance_points h
          /\ specialty_points h + distance_points h <= 70) as [Hb5 Hb70].
  { unfold specialty_points, distance_points.
    destruct (specialty_match h),
      (in_dec string_dec "General Medicine" (specialties h)),
      (Qle_bool (distance_km h) 5), (Qle_bool (distance_km h) 10),
      (Qle_bool (distance_km h) 20), (Qle_bool (distance_km h) 30);
      split; lra. }
  assert (0 <= emergency_points h priority
          /\ emergency_points h priority <= 10) as [He0 He10].
  { unfold emergency_points.
    destruct (string_dec priority "urgent"), (string_dec priority "critical"),
      (has_emergency h); split; lra. }
  assert (0 <= ambulance_points h priority
          /\ ambulance_points h priority <= 5) as [Ha0 Ha5].
  { unfold ambulance_points.
    destruct (string_dec priority "urgent"), (string_dec priority "critical"),
      (has_ambulance h); split; lra. }
  unfold total_points. split.
  - apply Qle_trans with (add (add (add 5 0) 0) 0); [vm_compute; discriminate|].
    repeat apply add_mono; assumption.
  - apply Qle_trans with (add (add (add 70 20) 10) 5); [|vm_compute; discriminate].
    repeat apply add_mono; assumption.
Qed.

(** Every facility handed to [score_hospitals] comes back with its score,
    and nothing else comes back. *)
Lemma score_hospitals_members (hospitals : list Hospital)
    (user_lat user_lng : Q) (analysis : SymptomAnalyzer.AnalysisResult)
    (s : ScoredHospital) :
  In s (score_hospitals hospitals user_lat user_lng analysis)
  <-> exists h, In h hospitals
                /\ s = {| hospital := h;
                          total_score := hospital_score h analysis |}.
Proof.
  rewrite score_hospitals_sort.
  set (scored := map _ hospitals).
  pose proof (sort_perm total_score true scored) as Hp.
  split.
  - intros Hin. apply (Permutation_in _ Hp) in Hin.
    apply in_map_iff in Hin as (h & <- & Hh). now exists h.
  - intros (h & Hh & ->). apply (Permutation_in _ (Permutation_sym Hp)).
    apply in_map_iff. now exists h.
Qed.
End ScoreFacts.

Section ScoreClaims.
Import PyFloat HospitalService Spec.
Local Open Scope Q_scope.

(** C7: [score_hospitals] gives every facility it is handed a
    [total_score], and this is the sum, rounded to one decimal, of the
    specialty points (40 on a specialty match, else 20 with
    "General Medicine" among the specialties, else 0), the distance
    points (30 up to 5 km, 25 up to 10, 15 up to 20, 10 up to 30, else
    5), the rating points (rating / 5.0 * 20) and, for priority urgent
    or critical only, the readiness points (10 with an emergency
    department, then 5 with an ambulance), the quotient, the product and
    the sums being those of doubles; for a rating between 0 and 5 it
    lies between 0 and 105; and at 4.9 km, with a specialty match,
    rating 4.5 and priority normal it is 88.0. *)
Theorem total_score_components (h : Hospital)
    (analysis : SymptomAnalyzer.AnalysisResult) :
  0 <= rating h -> rating h <= 5 ->
  hospital_score h analysis
  = PyNum.round (total_points h (SymptomAnalyzer.priority analysis)) 1
  /\ (0 <= hospital_score h analysis /\ hospital_score h analysis <= 105)
  /\ (forall hospitals user_lat user_lng,
        In h hospitals ->
        In {| hospital := h; total_score := hospital_score h analysis |}
           (score_hospitals hospitals user_lat user_lng analysis))
  /\ (forall hospitals user_lat user_lng s,
        In s (score_hospitals hospitals user_lat user_lng analysis) ->
        In (hospital s) hospitals
        /\ total_score s = hospital_score (hospital s) analysis)
  /\ (specialty_match h = true -> distance_km h == 4.9 -> rating h == 4.5 ->
      SymptomAnalyzer.priority analysis = "normal" ->
      hospital_score h analysis == 88).
Proof.
  intros Hlo Hhi. split; [apply hospital_score_sum|].
  split; [|split; [|split]].
  - rewrite hospital_score_sum.
    destruct (components_range h (SymptomAnalyzer.priority analysis) Hlo Hhi)
      as [H5 H105].
    apply (round1_range 0 105); [|exact H105].
    apply Qle_trans with 5; [discriminate | exact H5].
  - intros hospitals user_lat user_lng Hin.
    apply score_hospitals_members. now exists h.
  - intros hospitals user_lat user_lng s Hin.
    apply score_hospitals_members in Hin as (h' & Hh' & ->).
    split; [exact Hh' | reflexivity].
  - intros Hmatch Hd Hr Hp. rewrite hospital_score_sum.
    rewrite (round_comp _ 88 1); [reflexivity|].
    unfold total_points, specialty_points, distance_points, rating_points,
      emergency_points, ambulance_points.
    rewrite Hmatch, Hp.
    assert (Qle_bool (distance_km h) 5 = true) as ->
        by (apply Qle_bool_iff; rewrite Hd; discriminate).
    destruct (string_dec "normal" "urgent"); [discriminate|].
    destruct (string_dec "normal" "critical"); [discriminate|].
    rewrite Hr. vm_compute. reflexivity.
Qed.
End ScoreClaims.

(* ================================================================== *)
(** ** Coordinates out of range *)
(* ================================================================== *)

Section CoordinateFacts.
Import PyFloat Exc HospitalService Geopy.
Local Open Scope Q_scope.

Lemma int_near (q : Q) :
  inject_Z (PyNum.int q) - 1 < q /\ q < inject_Z (PyNum.int q) + 1
  /\ (0 <= q -> inject_Z (PyNum.int q) <= q)
  /\ (q <= 0 -> q <= inject_Z (PyNum.int q)).
Proof.
  unfold PyNum.int.
  pose proof (Qfloor_le q) as F1. pose proof (Qlt_floor q) as F2.
  pose proof (Qle_ceiling q) as C1. pose proof (Qceiling_lt q) as C2.
  rewrite inject_Z_plus in F2.
  unfold Z.sub in C2. rewrite inject_Z_plus, inject_Z_opp in C2.
  assert (inject_Z 1 == 1) as E1 by reflexivity.
  destruct (Qle_bool 0 q) eqn:Hq.
  - apply Qle_bool_iff in Hq. repeat split; try lra.
    intros Hle. assert (q == 0) as E by lra.
    rewrite (Qfloor_comp _ _ E). rewrite E. discriminate.
  - assert (q < 0) as Hneg.
    { apply Qnot_le_lt. intros H. apply Qle_bool_iff in H. congruence. }
    repeat split; try lra.
Qed.

(** [fmod] stays under its second argument, on the side of its first. *)
Lemma fmod_range (x y : Q) :
  0 < y -> - y < fmod x y /\ fmod x y < y.
Proof.
  intros Hy. unfold fmod.
  assert (x == y * (x / y)) as E by (field; lra).
  destruct (int_near (x / y)) as (H1 & H2 & _).
  set (q := x / y) in *. set (k := inject_Z (PyNum.int q)) in *.
  split; nra.
Qed.

Lemma double_limit_180 : mul 180 2 == 360.
Proof. vm_compute. reflexivity. Qed.

(** [_normalize_angle] brings every longitude into the range. *)
Lemma normalize_angle_range (x : Q) :
  -180 <= _normalize_angle x 180 /\ _normalize_angle x 180 <= 180.
Proof.
  unfold _normalize_angle. cbv zeta.
  assert (0 < mul 180 2) as Hpos by (rewrite double_limit_180; reflexivity).
  destruct (fmod_range x (mul 180 2) Hpos) as [Hlo Hhi].
  set (modulo := fmod x (mul 180 2)) in *.
  rewrite double_limit_180 in Hlo, Hhi.
  assert (nearest 0 == 0) as N0 by reflexivity.
  assert (nearest 180 == 180) as N180 by (vm_compute; reflexivity).
  assert (nearest (-180) == -180) as M180 by (vm_compute; reflexivity).
  destruct (Qle_bool (-(180)) modulo) eqn:H1; cbn [negb].
  - apply Qle_bool_iff in H1.
    destruct (Qle_bool 180 modulo) eqn:H2.
    + apply Qle_bool_iff in H2. unfold sub. split.
      * rewrite <- M180. apply nearest_mono. rewrite double_limit_180. lra.
      * apply Qle_trans with (nearest 0); [|rewrite N0; discriminate].
        apply nearest_mono. rewrite double_limit_180. lra.
    + assert (modulo < 180) as H2'.
      { apply Qnot_le_lt. intros H. apply Qle_bool_iff in H.
        rewrite H2 in H. discriminate. }
      split; lra.
  - assert (modulo < -(180)) as H1'.
    { apply Qnot_le_lt. intros H. apply Qle_bool_iff in H.
      rewrite H1 in H. discriminate. }
    unfold add. split.
    + apply Qle_trans with (nearest 0); [rewrite N0; discriminate|].
      apply nearest_mono. rewrite double_limit_180. lra.
    + rewrite <- N180. apply nearest_mono. rewrite double_limit_180. lra.
Qed.

Lemma abs_in_range (x y : Q) :
  - y <= x -> x <= y -> negb (Qle_bool (Qabs x) y) = false.
Proof.
  intros H1 H2. apply negb_false_iff, Qle_bool_iff, Qabs_Qle_condition.
  now split.
Qed.

Lemma abs_out_of_range (x y : Q) :
  x < - y \/ y < x -> negb (Qle_bool (Qabs x) y) = true.
Proof.
  intros H. apply negb_true_iff, not_true_iff_false. intros Hle.
  apply Qle_bool_iff, Qabs_Qle_condition in Hle. lra.
Qed.

Lemma latitude_out_of_range (latitude longitude : Q) :
  latitude < -90 \/ 90 < latitude ->
  _normalize_coordinates latitude longitude
  = Raise "Latitude must be in the [-90; 90] range.".
Proof.
  intros H. unfold _normalize_coordinates.
  now rewrite (abs_out_of_range latitude 90) by exact H.
Qed.

Lemma longitude_out_of_range (latitude longitude : Q) :
  -90 <= latitude -> latitude <= 90 ->
  longitude < -180 \/ 180 < longitude ->
  _normalize_coordinates latitude longitude
  = Return (latitude, _normalize_angle longitude 180).
Proof.
  intros H1 H2 H. unfold _normalize_coordinates.
  rewrite (abs_in_range latitude 90) by assumption.
  now rewrite (abs_out_of_range longitude 180) by exact H.
Qed.

Lemma coordinates_in_range (latitude longitude : Q) :
  -90 <= latitude -> latitude <= 90 ->
  -180 <= longitude -> longitude <= 180 ->
  _normalize_coordinates latitude longitude = Return (latitude, longitude).
Proof.
  intros H1 H2 H3 H4. unfold _normalize_coordinates.
  rewrite (abs_in_range latitude 90) by assumption.
  now rewrite (abs_in_range longitude 180) by assumption.
Qed.

(** A [Point] is made of every pair with a latitude in the range. *)
Lemma point_returns (latitude longitude : Q) :
  -90 <= latitude -> latitude <= 90 ->
  exists longitude', Point (latitude, longitude) = Return (latitude, longitude').
Proof.
  intros H1 H2. unfold Point. cbn [fst snd]. unfold _normalize_coordinates.
  rewrite (abs_in_range latitude 90) by assumption. eauto.
Qed.

(** The loop of [find_nearby_hospitals] sees the place of the user
    through the distance routine only. *)
Lemma annotate_loop_ext (geodesic geodesic' : Q * Q -> Q * Q -> exc Q)
    (user_location user_location' : Q * Q) (specialty : option string)
    (max_distance_km : Q) (all_hospitals : list Row) :
  (forall location,
     geodesic user_location location = geodesic' user_location' location) ->
  forall acc,
    annotate_loop geodesic user_location specialty max_distance_km
                  all_hospitals acc
    = annotate_loop geodesic' user_location' specialty max_distance_km
                    all_hospitals acc.
Proof.
  intros Hg. induction all_hospitals as [|r rs IH]; intros acc; simpl;
    [reflexivity|].
  rewrite Hg. destruct (geodesic' user_location' _) as [d|e]; cbn [bind];
    [|reflexivity].
  destruct (Qle_bool d max_distance_km); apply IH.
Qed.

Lemma find_nearby_raises (geodesic : Q * Q -> Q * Q -> exc Q)
    (table : list Row) (latitude longitude : Q) (specialty : option string)
    (priority : string) (max_distance_km : Q) :
  raises (find_nearby_hospitals geodesic table latitude longitude specialty
                                priority max_distance_km)
  = existsb (fun r => raises (geodesic (latitude, longitude)
                                       (row_latitude r, row_longitude r)))
            (select_hospitals priority table).
Proof.
  unfold find_nearby_hospitals.
  rewrite <- (annotate_loop_raises geodesic (latitude, longitude) specialty
                max_distance_km (select_hospitals priority table) []).
  now destruct (annotate_loop _ _ _ _ _ _).
Qed.
End CoordinateFacts.

Section CoordinateClaims.
Import PyFloat Exc HospitalService Geopy Spec.
Local Open Scope Q_scope.

(** C8, as the code has it. [find_nearby_hospitals] checks no range
    itself; the checks are those [geodesic] makes on the place of the
    user, whatever the measure on the ellipsoid. A latitude out of
    [-90, 90] raises the error of geopy, at the first row the query
    selects; with no row selected nothing is measured and nothing fails.
    A longitude out of [-180, 180], with a latitude in the range, raises
    nothing: it is wrapped into the range, and the search returns what it
    returns at the wrapped longitude, distances included; it fails on no
    row of a latitude in the range. *)
Theorem find_nearby_invalid_coordinates (measure_km : Q * Q -> Q * Q -> Q)
    (table : list Row) (latitude longitude : Q) (specialty : option string)
    (priority : string) (max_distance_km : Q) :
  ((latitude < -90 \/ 90 < latitude) ->
   (forall location,
      geodesic measure_km (latitude, longitude) location
      = Raise "Latitude must be in the [-90; 90] range.")
   /\ (select_hospitals priority table <> [] ->
       find_nearby_hospitals (geodesic measure_km) table latitude longitude
                             specialty priority max_distance_km
       = Raise "Latitude must be in the [-90; 90] range.")
   /\ (select_hospitals priority table = [] ->
       find_nearby_hospitals (geodesic measure_km) table latitude longitude
                             specialty priority max_distance_km
       = Return []))
  /\
  (-90 <= latitude -> latitude <= 90 ->
   (longitude < -180 \/ 180 < longitude) ->
   (-180 <= _normalize_angle longitude 180
    /\ _normalize_angle longitude 180 <= 180)
   /\ (forall location,
         geodesic measure_km (latitude, longitude) location
         = geodesic measure_km (latitude, _normalize_angle longitude 180)
                    location)
   /\ find_nearby_hospitals (geodesic measure_km) table latitude longitude
                            specialty priority max_distance_km
      = find_nearby_hospitals (geodesic measure_km) table latitude
                              (_normalize_angle longitude 180)
                              specialty priority max_distance_km
   /\ ((forall r, In r (select_hospitals priority table) ->
          -90 <= row_latitude r /\ row_latitude r <= 90) ->
       raises (find_nearby_hospitals (geodesic measure_km) table latitude
                                     longitude specialty priority
                                     max_distance_km)
       = false)).
Proof.
  split.
  - intros Hlat.
    assert (forall location,
              geodesic measure_km (latitude, longitude) location
              = Raise "Latitude must be in the [-90; 90] range.") as Hg.
    { intros location. unfold geodesic, Point. cbn [fst snd].
      now rewrite latitude_out_of_range. }
    split; [exact Hg|]. unfold find_nearby_hospitals. split.
    + destruct (select_hospitals priority table) as [|r rs]; [congruence|].
      intros _. cbn [annotate_loop]. now rewrite Hg.
    + intros ->. reflexivity.
  - intros Hlo Hhi Hlon.
    destruct (normalize_angle_range longitude) as [Wlo Whi].
    assert (forall location,
              geodesic measure_km (latitude, longitude) location
              = geodesic measure_km (latitude, _normalize_angle longitude 180)
                         location) as Hg.
    { intros location. unfold geodesic, Point. cbn [fst snd].
      rewrite longitude_out_of_range by assumption.
      now rewrite (coordinates_in_range latitude
                     (_normalize_angle longitude 180)) by assumption. }
    split; [now split|]. split; [exact Hg|]. split.
    + unfold find_nearby_hospitals. cbv zeta.
      now rewrite (annotate_loop_ext _ (geodesic measure_km)
                     (latitude, longitude)
                     (latitude, _normalize_angle longitude 180) _ _ _ Hg).
    + intros Hrows. rewrite find_nearby_raises.
      apply not_true_iff_false. intros Hex.
      apply existsb_exists in Hex as (r & Hr & Hraise).
      destruct (Hrows r Hr) as [R1 R2].
      unfold geodesic in Hraise.
      destruct (point_returns latitude longitude Hlo Hhi) as (l1 & E1).
      destruct (point_returns (row_latitude r) (row_longitude r) R1 R2)
        as (l2 & E2).
      rewrite E1 in Hraise. cbn [bind] in Hraise.
      rewrite E2 in Hraise. discriminate.
Qed.

(** C8 as stated fails at the longitude: 443.25 degrees east is out of
    range, and the search returns Seven Hills Hospital with a distance,
    the one it has from 83.25 degrees east. *)
Lemma out_of_range_longitude_accepted :
  invalid_coordinate 17.75 443.25 /\
  (exists h,
     find_nearby_hospitals (geodesic Examples.grid_km) [Examples.seven_hills]
                           17.75 443.25 None "normal" 50
     = Return [h]
     /\ name h = "Seven Hills Hospital" /\ distance_km h == 8.62) /\
  find_nearby_hospitals (geodesic Examples.grid_km) [Examples.seven_hills]
                        17.75 443.25 None "normal" 50
  = find_nearby_hospitals (geodesic Examples.grid_km) [Examples.seven_hills]
                          17.75 83.25 None "normal" 50.
Proof.
  split; [right; right; right; reflexivity|]. split.
  - eexists. split; [vm_compute; reflexivity|].
    split; vm_compute; reflexivity.
  - vm_compute. reflexivity.
Qed.
End CoordinateClaims.

(* ================================================================== *)
(** ** The theorems at sample inputs *)
(* ================================================================== *)

Section Witnesses.
Import PyStr SymptomAnalyzer HospitalService Spec Exc.

(** C4 on the text "Deep": one word of "deep cut" occurs, emergency wins. *)
Lemma analyze_category_witness :
  exists before phrases after,
    medical_keywords
    = (before ++ (category (analyze "Deep" "en"), phrases) :: after)%list /\
    0 < category_score (normalize "Deep" "en") phrases /\
    (forall c ps, In (c, ps) before ->
       category_score (normalize "Deep" "en") ps
       < category_score (normalize "Deep" "en") phrases) /\
    (forall c ps, In (c, ps) after ->
       category_score (normalize "Deep" "en") ps
       <= category_score (normalize "Deep" "en") phrases) /\
    confidence (analyze "Deep" "en")
    = Qmin (inject_Z (category_score (normalize "Deep" "en") phrases) / 10) 1.
Proof.
  apply (proj1 (proj2 (analyze_category "Deep" "en"))).
  exists "emergency",
    ["accident"; "injury"; "bleeding"; "trauma"; "burn"; "wound";
     "fall"; "crash"; "emergency"; "severe pain"; "unconscious";
     "heavy bleeding"; "deep cut"].
  split; [vm_compute; tauto | reflexivity].
Defined.

(** C5 on a text with a critical and an urgent phrase. *)
Lemma priority_scan_witness :
  priority (analyze "Heart attack, then severe pain" "en") = "critical".
Proof.
  apply (proj1 (proj2 (priority_scan "Heart attack, then severe pain" "en"))).
  exists "heart attack". split; [simpl; tauto|].
  exists "", ", then severe pain". reflexivity.
Defined.

(** C10 on the text "deep". *)
Lemma confidence_bounds_witness :
  (1 # 10 <= confidence (analyze "deep" "en")
   /\ confidence (analyze "deep" "en") <= 1)%Q.
Proof.
  apply (proj1 (confidence_bounds "deep" "en")). vm_compute. discriminate.
Defined.

(** C2 on two facilities, the nearer one first. *)
Lemma score_hospitals_sorted_stable_witness :
  StronglySorted (fun a b => (total_score b <= total_score a)%Q)
    (score_hospitals [Examples.seven_hills_near; Examples.visakha_eye_far]
                     17.7 83.3 (analyze "zzz qqq" "en")).
Proof.
  apply (score_hospitals_sorted_stable
           [Examples.seven_hills_near; Examples.visakha_eye_far]
           17.7 83.3 (analyze "zzz qqq" "en")).
  repeat constructor. vm_compute. discriminate.
Defined.

(** C6 on two rows of the sample data, with the grid distance. *)
Lemma find_nearby_within_radius_witness :
  exists out,
    find_nearby_hospitals Examples.grid_distance
      [Examples.seven_hills; Examples.visakha_eye] 17.7 83.3 None "normal" 50
    = Return out /\
    Permutation out
      [annotate None Examples.seven_hills 2.6529;
       annotate None Examples.visakha_eye 4.329].
Proof.
  destruct (find_nearby_within_radius Examples.grid_distance
              [Examples.seven_hills; Examples.visakha_eye] 17.7 83.3 None
              "normal" 50
              (fun r => (Qabs (17.7 - row_latitude r)
                         + Qabs (83.3 - row_longitude r)) * 111)%Q
              (fun r _ => eq_refl))
    as (out & Hret & Hperm & _).
  exists out. split; [exact Hret|].
  vm_compute in Hperm. vm_compute. exact Hperm.
Defined.

(** C7 on Seven Hills Hospital at 4.9 km, rating 4.5, priority normal. *)
Lemma total_score_components_witness :
  (hospital_score Examples.seven_hills_near (analyze "zzz qqq" "en") == 88)%Q.
Proof.
  apply (total_score_components Examples.seven_hills_near
           (analyze "zzz qqq" "en")).
  - vm_compute. discriminate.
  - vm_compute. discriminate.
  - reflexivity.
  - vm_compute. reflexivity.
  - vm_compute. reflexivity.
  - reflexivity.
Defined.

(** C8 on a latitude of 1000 degrees: the error of geopy, at the first
    row. *)
Lemma find_nearby_invalid_coordinates_witness :
  find_nearby_hospitals (Geopy.geodesic Examples.grid_km)
    [Examples.visakha_eye] 1000 83 None "normal" 50
  = Raise "Latitude must be in the [-90; 90] range.".
Proof.
  apply (proj1 (proj2 (proj1 (find_nearby_invalid_coordinates
                               Examples.grid_km [Examples.visakha_eye]
                               1000 83 None "normal" 50)
                             (or_intror eq_refl)))).
  discriminate.
Defined.
End Witnesses.

(* ================================================================== *)
(** ** Further properties of the classifier *)
(* ================================================================== *)

Section ClassifierInvariants.
Import PyStr SymptomAnalyzer Spec.

Lemma specialty_rules_total (c : string) :
  In c (PyDict.keys medical_keywords) ->
  exists s, PyDict.get specialty_rules c = Some s /\ s <> "".
Proof.
  unfold PyDict.keys, medical_keywords; cbn [map fst In].
  intros H.
  repeat (destruct H as [<- | H];
          [eexists; split; [reflexivity | discriminate]|]).
  destruct H.
Qed.

Lemma determine_priority_values (text : string) :
  In (_determine_priority text) ["critical"; "urgent"; "normal"].
Proof.
  unfold _determine_priority.
  destruct (scan _ text); [now left|].
  destruct (scan _ text); [right; now left | right; right; now left].
Qed.

Lemma analyze_category_in_table (symptoms language : string) :
  In (category (analyze symptoms language)) (PyDict.keys medical_keywords).
Proof.
  destruct (raw_scores (analyze symptoms language)) eqn:Hs.
  - unfold analyze in *. cbn [raw_scores category] in *. rewrite Hs.
    cbn [fst]. unfold PyDict.keys, medical_keywords; cbn [map fst In]. tauto.
  - assert (raw_scores (analyze symptoms language) <> []) as Hne by congruence.
    destruct (analyze_winner symptoms language Hne)
      as (before & ps & after & Htab & _).
    rewrite Htab. unfold PyDict.keys. rewrite map_app. cbn [map fst].
    apply in_or_app. right. now left.
Qed.

(** X1: whatever the text and the language, [analyze] returns a category
    of the keyword table, the specialty the specialty table has for that
    category (the default of the lookup is never needed), one of the three
    priorities, and a confidence above 0 and at most 1. *)
Theorem analyze_invariants (symptoms language : string) :
  let r := analyze symptoms language in
  In (category r) (PyDict.keys medical_keywords) /\
  PyDict.get specialty_rules (category r) = Some (specialty r) /\
  specialty r <> "" /\
  In (priority r) ["critical"; "urgent"; "normal"] /\
  (0 < confidence r /\ confidence r <= 1)%Q.
Proof.
  intros r. pose proof (analyze_category_in_table symptoms language) as Hc.
  fold r in Hc. split; [exact Hc|].
  destruct (specialty_rules_total _ Hc) as (s & Hget & Hs).
  assert (specialty r = s) as Hspec.
  { change (specialty r)
      with (PyDict.get_default specialty_rules (category r) "General Medicine").
    unfold PyDict.get_default. now rewrite Hget. }
  split; [now rewrite Hspec|]. split; [now rewrite Hspec|].
  split; [apply determine_priority_values|].
  destruct (raw_scores r) eqn:Hs'.
  - subst r. unfold analyze in *. cbn [raw_scores confidence] in *.
    rewrite Hs'. cbn [snd]. split; [reflexivity | discriminate].
  - assert (raw_scores r <> []) as Hne by congruence.
    destruct (analyze_winner symptoms language Hne)
      as (_ & ps & _ & _ & Hpos & _ & _ & Hconf).
    fold r in Hconf. rewrite Hconf.
    destruct (confidence_range _ Hpos) as [Hlo Hhi].
    split; [|exact Hhi].
    apply Qlt_le_trans with (1 # 10)%Q; [reflexivity | exact Hlo].
Qed.
End ClassifierInvariants.

Section TextExtension.
Import PyStr SymptomAnalyzer Spec.

Lemma append_assoc' (a b c : string) : (a ++ b) ++ c = a ++ b ++ c.
Proof. induction a as [|x a IH]; simpl; [reflexivity | now rewrite IH]. Qed.

Lemma occurs_trans (a b c : string) : occurs a b -> occurs b c -> occurs a c.
Proof.
  intros (p1 & q1 & ->) (p2 & q2 & ->).
  exists (p2 ++ p1), (q1 ++ q2). now rewrite !append_assoc'.
Qed.

Lemma contains_extend (k text text' : string) :
  occurs text text' -> contains k text = true -> contains k text' = true.
Proof.
  intros Hocc Hk. apply contains_iff. apply contains_iff in Hk.
  now apply occurs_trans with text.
Qed.

Lemma scan_extend (keywords : list string) (text text' : string) :
  occurs text text' -> scan keywords text = true -> scan keywords text' = true.
Proof.
  intros Hocc H. apply scan_iff in H as (k & Hin & Hk). apply scan_iff.
  exists k. split; [assumption | now apply occurs_trans with text].
Qed.

Lemma phrase_points_extend (text text' phrase : string) :
  occurs text text' -> phrase_points text phrase <= phrase_points text' phrase.
Proof.
  intros Hocc. unfold phrase_points.
  destruct (contains phrase text) eqn:Hc.
  - now rewrite (contains_extend _ _ _ Hocc Hc).
  - destruct (existsb (fun word => contains word text) (split phrase)) eqn:He.
    + apply existsb_exists in He as (w & Hin & Hw).
      assert (existsb (fun word => contains word text') (split phrase) = true)
        as -> by (apply existsb_exists; exists w; split;
                  [assumption | now apply contains_extend with text]).
      destruct (contains phrase text'); lia.
    + destruct (contains phrase text'); [lia|].
      destruct (existsb (fun word => contains word text') (split phrase)); lia.
Qed.

Lemma category_score_extend (text text' : string) (phrases : list string) :
  occurs text text' -> category_score text phrases <= category_score text' phrases.
Proof.
  intros Hocc. unfold category_score.
  induction phrases as [|p ps IH]; simpl; [lia|].
  pose proof (phrase_points_extend text text' p Hocc). lia.
Qed.

Lemma lower_app (a b : string) : lower (a ++ b) = lower a ++ lower b.
Proof. induction a as [|c a IH]; simpl; [reflexivity | now rewrite IH]. Qed.

Lemma normalize_en_occurs (pre symptoms post : string) :
  occurs (normalize symptoms "en") (normalize (pre ++ symptoms ++ post) "en").
Proof.
  unfold normalize. cbn [String.eqb Ascii.eqb Bool.eqb].
  exists (lower pre), (lower post). now rewrite !lower_app.
Qed.

(** X2: matching is monotone in the text. When a text occurs inside a
    longer one, no category scores less on the longer one; so every
    category in the raw scores of an English description is still there,
    with at least the same score, when words are put before or after the
    description. *)
Theorem scores_grow_with_text (pre symptoms post : string) :
  (forall text text' phrases,
      occurs text text' ->
      category_score text phrases <= category_score text' phrases) /\
  (forall c n,
      In (c, n) (raw_scores (analyze symptoms "en")) ->
      exists n',
        In (c, n') (raw_scores (analyze (pre ++ symptoms ++ post) "en"))
        /\ n <= n').
Proof.
  split; [intros; now apply category_score_extend|].
  intros c n Hin.
  change (raw_scores (analyze symptoms "en"))
    with (_score_categories (normalize symptoms "en")) in Hin.
  change (raw_scores (analyze (pre ++ symptoms ++ post) "en"))
    with (_score_categories (normalize (pre ++ symptoms ++ post) "en")).
  rewrite score_categories_spec in *. unfold raw_scores_of in *.
  apply filter_In in Hin as [Hin Hpos]. cbn [snd] in Hpos.
  apply in_map_iff in Hin as ([c' ps] & Heq & Hin). cbn [fst snd] in Heq.
  injection Heq as -> <-. apply Z.ltb_lt in Hpos.
  pose proof (category_score_extend _ _ ps
                (normalize_en_occurs pre symptoms post)) as Hle.
  eexists. split; [|exact Hle].
  apply filter_In. split; [apply in_map_iff; now exists (c, ps)|].
  cbn [snd]. apply Z.ltb_lt. lia.
Qed.

(** X3: the priority never falls when words are put before or after an
    English description: "critical" stays "critical", and "urgent" stays
    "urgent" or becomes "critical". *)
Theorem priority_grows_with_text (pre symptoms post : string) :
  (priority (analyze symptoms "en") = "critical" ->
   priority (analyze (pre ++ symptoms ++ post) "en") = "critical") /\
  (priority (analyze symptoms "en") = "urgent" ->
   priority (analyze (pre ++ symptoms ++ post) "en") = "urgent" \/
   priority (analyze (pre ++ symptoms ++ post) "en") = "critical").
Proof.
  change (priority (analyze symptoms "en"))
    with (_determine_priority (normalize symptoms "en")).
  change (priority (analyze (pre ++ symptoms ++ post) "en"))
    with (_determine_priority (normalize (pre ++ symptoms ++ post) "en")).
  pose proof (normalize_en_occurs pre symptoms post) as Hocc.
  unfold _determine_priority.
  set (t := normalize symptoms "en") in *.
  set (t' := normalize (pre ++ symptoms ++ post) "en") in *.
  pose proof (scan_extend (PyDict.get_default priority_rules "critical" []) t t' Hocc) as Hc.
  pose proof (scan_extend (PyDict.get_default priority_rules "urgent" []) t t' Hocc) as Hu.
  destruct (scan (PyDict.get_default priority_rules "critical" []) t).
  - rewrite (Hc eq_refl). split; [reflexivity | discriminate].
  - destruct (scan (PyDict.get_default priority_rules "urgent" []) t).
    + rewrite (Hu eq_refl). split; [discriminate|]. intros _.
      destruct (scan _ t'); [now right | now left].
    + split; discriminate.
Qed.
End TextExtension.

Section CaseAndLanguage.
Import PyStr SymptomAnalyzer Spec.

Lemma lower_ascii_idem (c : ascii) : lower_ascii (lower_ascii c) = lower_ascii c.
Proof. destruct c as [[] [] [] [] [] [] [] []]; reflexivity. Qed.

Lemma lower_idem (s : string) : lower (lower s) = lower s.
Proof.
  induction s as [|c s IH]; simpl; [reflexivity|].
  now rewrite lower_ascii_idem, IH.
Qed.

(** X4: [analyze] does not see the case of ASCII letters: a description
    and the same description in small letters get the same result, in
    every language. *)
Theorem analyze_ignores_case (symptoms language : string) :
  analyze (lower symptoms) language = analyze symptoms language.
Proof.
  unfold analyze, normalize. now rewrite lower_idem.
Qed.

(** X5: a language code without a translation table, that is any code but
    "hi" and "te", is no error: the description is analysed as English. *)
Theorem analyze_unknown_language (symptoms language : string) :
  language <> "hi" -> language <> "te" ->
  analyze symptoms language = analyze symptoms "en".
Proof.
  intros Hhi Hte.
  assert (normalize symptoms language = normalize symptoms "en") as Hn.
  { unfold normalize. cbn [String.eqb Ascii.eqb Bool.eqb].
    destruct (String.eqb language "en"); [reflexivity|].
    unfold _translate_symptoms, translations; cbn [PyDict.get].
    apply String.eqb_neq in Hhi, Hte. now rewrite Hhi, Hte. }
  unfold analyze. now rewrite Hn.
Qed.

Lemma contains_cons_false (old : string) (c : ascii) (s : string) :
  contains old (String c s) = false ->
  prefix old (String c s) = false /\ contains old s = false.
Proof.
  rewrite contains_unfold. destruct (prefix old (String c s)); [discriminate|].
  now split.
Qed.

Lemma replace_from_absent (old new s : string) :
  contains old s = false -> replace_from old new O s = s.
Proof.
  induction s as [|c s IH]; [reflexivity|].
  intros H. apply contains_cons_false in H as [Hp Hc].
  cbn [replace_from]. rewrite Hp. now rewrite IH.
Qed.

Lemma replace_absent (old new s : string) :
  old <> "" -> contains old s = false -> replace old new s = s.
Proof.
  intros Hold H. unfold replace. destruct old; [congruence|].
  now apply replace_from_absent.
Qed.

Lemma translate_loop_absent (table : PyDict.dict string) (text : string) :
  (forall native english, In (native, english) table ->
     native <> "" /\ ~ occurs native text) ->
  fold_left (fun symptoms entry => replace (fst entry) (snd entry) symptoms)
            table text = text.
Proof.
  induction table as [|[native english] table IH]; intros H; simpl;
    [reflexivity|].
  destruct (H native english (or_introl eq_refl)) as [Hne Hno].
  rewrite replace_absent; [|assumption|].
  - apply IH. intros n e Hin. apply (H n e). now right.
  - apply not_true_iff_false. intros Hc. now apply contains_iff in Hc.
Qed.

(** X6: the translation only touches the words of its table: a text in
    which no native word of the table of the language occurs is left as
    it is by [_translate_symptoms], and is analysed as in English. *)
Theorem translate_without_native_words (text language : string)
    (table : PyDict.dict string) :
  PyDict.get translations language = Some table ->
  (forall native english, In (native, english) table ->
     ~ occurs native (lower text)) ->
  _translate_symptoms (lower text) language = lower text /\
  analyze text language = analyze text "en".
Proof.
  intros Hget Hno.
  assert (_translate_symptoms (lower text) language = lower text) as Ht.
  { unfold _translate_symptoms. rewrite Hget.
    apply translate_loop_absent. intros native english Hin.
    split; [|now apply (Hno native english)].
    revert Hget Hin. unfold translations; cbn [PyDict.get].
    destruct (String.eqb language "hi");
      [|destruct (String.eqb language "te"); [|discriminate]];
      intros Heq; injection Heq as <-; cbn [In]; intros Hin;
      repeat (destruct Hin as [Heq | Hin];
              [injection Heq as <- _; discriminate|]);
      destruct Hin. }
  split; [exact Ht|].
  assert (normalize text language = normalize text "en") as Hn.
  { unfold normalize. cbn [String.eqb Ascii.eqb Bool.eqb].
    destruct (String.eqb language "en"); [reflexivity | exact Ht]. }
  unfold analyze. now rewrite Hn.
Qed.
End CaseAndLanguage.

(* ================================================================== *)
(** ** Further properties of the ranking engine *)
(* ================================================================== *)

Section NearbyFacts.
Import Exc HospitalService Spec.

Lemma select_hospitals_subset (priority : string) (table : list Row) (r : Row) :
  In r (select_hospitals priority table) ->
  In r table /\
  (priority = "critical" ->
   row_has_emergency r = true /\ row_open_247 r = true) /\
  (priority = "urgent" -> row_has_emergency r = true).
Proof.
  unfold select_hospitals.
  destruct (String.eqb_spec priority "critical") as [-> | Hc].
  - intros H. apply filter_In in H as [Hin Hb].
    apply andb_true_iff in Hb. repeat split; try tauto; try discriminate.
  - destruct (String.eqb_spec priority "urgent") as [-> | Hu].
    + intros H. apply filter_In in H as [Hin Hb].
      repeat split; try tauto; try discriminate.
    + intros H. repeat split; try assumption; intros; contradiction.
Qed.
Variable geodesic : Q * Q -> Q * Q -> exc Q.

(** Where the facilities [annotate_loop] returns come from. *)
Lemma annotate_loop_origin (user_location : Q * Q) (specialty : option string)
    (max_distance_km : Q) (all_hospitals : list Row) :
  forall acc out,
    annotate_loop geodesic user_location specialty max_distance_km
                  all_hospitals acc = Return out ->
    forall h, In h out ->
      In h acc \/
      exists r d,
        In r all_hospitals /\
        geodesic user_location (row_latitude r, row_longitude r) = Return d /\
        (d <= max_distance_km)%Q /\ h = annotate specialty r d.
Proof.
  induction all_hospitals as [|r rs IH]; intros acc out; simpl.
  - intros H; injection H as <-. now left.
  - destruct (geodesic user_location _) as [d|e] eqn:Hg; cbn [bind];
      [|discriminate].
    destruct (Qle_bool d max_distance_km) eqn:Hle; intros H h Hin;
      destruct (IH _ _ H h Hin) as [Hacc | (r' & d' & Hr' & Hg' & Hle' & ->)].
    + apply in_app_iff in Hacc as [Hacc | [<- | []]]; [now left|].
      right. exists r, d. apply Qle_bool_iff in Hle. now repeat split; try left.
    + right. exists r', d'. now repeat split; try right.
    + now left.
    + right. exists r', d'. now repeat split; try right.
Qed.

Lemma find_nearby_origin (table : list Row) (latitude longitude : Q)
    (specialty : option string) (priority : string) (max_distance_km : Q)
    (out : list Hospital) :
  find_nearby_hospitals geodesic table latitude longitude specialty priority
                        max_distance_km = Return out ->
  forall h, In h out ->
    exists r d,
      In r (select_hospitals priority table) /\
      geodesic (latitude, longitude) (row_latitude r, row_longitude r)
      = Return d /\
      (d <= max_distance_km)%Q /\ h = annotate specialty r d.
Proof.
  unfold find_nearby_hospitals.
  destruct (annotate_loop _ _ _ _ _ _) as [l|e] eqn:Hl; cbn [bind];
    [|discriminate].
  intros H h Hin. injection H as <-.
  apply (Permutation_in _ (sort_perm distance_km false l)) in Hin.
  destruct (annotate_loop_origin _ _ _ _ _ _ Hl h Hin) as [[] | H]. exact H.
Qed.

End NearbyFacts.

Section NearbyClaims.
Import Exc HospitalService Spec.

(** X7: the list [find_nearby_hospitals] returns is in ascending order of
    [distance_km], and the facilities of one [distance_km] stand in the
    order of their rows in the table. *)
Theorem find_nearby_sorted_stable (geodesic : Q * Q -> Q * Q -> exc Q)
    (table : list Row) (latitude longitude : Q) (specialty : option string)
    (priority : string) (max_distance_km : Q) (dist : Row -> Q) :
  let candidates := select_hospitals priority table in
  (forall r, In r candidates ->
     geodesic (latitude, longitude) (row_latitude r, row_longitude r)
     = Return (dist r)) ->
  exists out,
    find_nearby_hospitals geodesic table latitude longitude specialty
                          priority max_distance_km = Return out /\
    StronglySorted (fun a b => (distance_km a <= distance_km b)%Q) out /\
    forall d,
      filter (fun h => Qeq_bool (distance_km h) d) out
      = filter (fun h => Qeq_bool (distance_km h) d)
          (map (fun r => annotate specialty r (dist r))
               (filter (fun r => Qle_bool (dist r) max_distance_km)
                       candidates)).
Proof.
  intros candidates Hd. unfold find_nearby_hospitals. fold candidates.
  rewrite (annotate_loop_returns geodesic _ specialty max_distance_km dist
             candidates Hd []).
  cbn [bind app]. eexists. split; [reflexivity|].
  split; [apply sort_ascending|]. intros d. apply sort_stable.
Qed.

(** X8: the priority decides which rows are looked at. With priority
    "critical" every facility returned has an emergency department and is
    open day and night, with "urgent" every one has an emergency
    department; [find_emergency_hospitals] is the search with priority
    "critical" and no specialty, so every facility it returns has both
    and counts as a specialty match. *)
Theorem find_nearby_respects_priority (geodesic : Q * Q -> Q * Q -> exc Q)
    (table : list Row) (latitude longitude : Q) (specialty : option string)
    (priority : string) (max_distance_km : Q) (out : list Hospital) :
  (find_nearby_hospitals geodesic table latitude longitude specialty priority
                         max_distance_km = Return out ->
   (priority = "critical" ->
    forall h, In h out -> has_emergency h = true /\ open_247 h = true) /\
   (priority = "urgent" ->
    forall h, In h out -> has_emergency h = true)) /\
  (find_emergency_hospitals geodesic table latitude longitude max_distance_km
   = Return out ->
   forall h, In h out ->
     has_emergency h = true /\ open_247 h = true /\ specialty_match h = true).
Proof.
  split.
  - intros Hret. split; intros Hp h Hin;
      destruct (find_nearby_origin geodesic _ _ _ _ _ _ _ Hret h Hin)
        as (r & d & Hr & _ & _ & ->);
      pose proof (select_hospitals_subset _ _ _ Hr) as (_ & Hc & Hu);
      [exact (Hc Hp) | exact (Hu Hp)].
  - unfold find_emergency_hospitals. intros Hret h Hin.
    destruct (find_nearby_origin geodesic _ _ _ _ _ _ _ Hret h Hin)
      as (r & d & Hr & _ & _ & ->).
    pose proof (select_hospitals_subset _ _ _ Hr) as (_ & Hc & _).
    destruct (Hc eq_refl). cbn [annotate has_emergency open_247 specialty_match].
    now repeat split.
Qed.

(** X9: a priority that is neither "critical" nor "urgent" is no error
    and counts as "normal": the search looks at the whole table, as for
    "normal", and the score has no readiness points, as for "normal". *)
Theorem unknown_priority_is_normal (geodesic : Q * Q -> Q * Q -> exc Q)
    (table : list Row) (latitude longitude : Q) (specialty : option string)
    (priority : string) (max_distance_km : Q) :
  priority <> "critical" -> priority <> "urgent" ->
  select_hospitals priority table = table /\
  find_nearby_hospitals geodesic table latitude longitude specialty priority
                        max_distance_km
  = find_nearby_hospitals geodesic table latitude longitude specialty "normal"
                          max_distance_km /\
  forall h analysis analysis',
    SymptomAnalyzer.priority analysis = priority ->
    SymptomAnalyzer.priority analysis' = "normal" ->
    hospital_score h analysis = hospital_score h analysis'.
Proof.
  intros Hc Hu.
  assert (select_hospitals priority table = table) as Hsel.
  { unfold select_hospitals. apply String.eqb_neq in Hc, Hu. now rewrite Hc, Hu. }
  split; [exact Hsel|]. split.
  - unfold find_nearby_hospitals. now rewrite Hsel.
  - intros h a a' Ha Ha'. unfold hospital_score. rewrite Ha, Ha'.
    cbn [existsb]. apply String.eqb_neq in Hc, Hu. rewrite Hc, Hu.
    reflexivity.
Qed.
End NearbyClaims.

Section SpecialtyAndLists.
Import PyStr HospitalService Spec.

Lemma append_nil_r' (s : string) : s ++ "" = s.
Proof. induction s as [|c s IH]; simpl; [reflexivity | now rewrite IH]. Qed.

Lemma contains_refl (s : string) : contains s s = true.
Proof. apply contains_iff. exists "", "". simpl. now rewrite append_nil_r'. Qed.

(** X10: the specialty match. Without a specialty asked for (none, or the
    empty string) every facility matches. A specialty that is asked for
    matches a facility that lists it, whatever the case of the letters on
    either side; and nothing matches a facility without specialties. *)
Theorem specialty_match_cases (r : Row) (distance_km : Q) (asked : string) :
  specialty_match (annotate None r distance_km) = true /\
  specialty_match (annotate (Some "") r distance_km) = true /\
  (asked <> "" ->
   (forall listed, In listed (comma_list (row_specialties r)) ->
                   lower listed = lower asked ->
                   specialty_match (annotate (Some asked) r distance_km) = true)
   /\ (comma_list (row_specialties r) = [] ->
       specialty_match (annotate (Some asked) r distance_km) = false)).
Proof.
  split; [reflexivity|]. split; [reflexivity|].
  intros Hne. destruct asked as [|c asked]; [congruence|].
  cbn [annotate specialty_match]. split.
  - intros listed Hin Heq. apply existsb_exists. exists listed.
    split; [assumption|]. rewrite Heq. apply contains_refl.
  - intros ->. reflexivity.
Qed.

Lemma split_on_from_nonempty (sep : ascii) (s : string) :
  forall cur, split_on_from sep cur s <> [].
Proof.
  induction s as [|c s IH]; intros cur; simpl; [discriminate|].
  destruct (Ascii.eqb c sep); [discriminate | apply IH].
Qed.

Lemma join_split_on_from (sep : ascii) (s : string) :
  forall cur,
    join (String sep "") (split_on_from sep cur s) = cur ++ s.
Proof.
  unfold join. induction s as [|c s IH]; intros cur; cbn [split_on_from].
  - cbn [String.concat]. now rewrite append_nil_r'.
  - destruct (Ascii.eqb_spec c sep) as [-> | Hc].
    + pose proof (split_on_from_nonempty sep s "") as Hne.
      pose proof (IH "") as IH0.
      destruct (split_on_from sep "" s) as [|f fs] eqn:Hs; [congruence|].
      change (String.concat (String sep "") (cur :: f :: fs))
        with (cur ++ String sep "" ++ String.concat (String sep "") (f :: fs)).
      rewrite IH0. reflexivity.
    + rewrite IH. now rewrite append_assoc'.
Qed.

Lemma split_on_from_fields (sep : ascii) (s : string) :
  forall cur field,
    contains (String sep "") cur = false ->
    In field (split_on_from sep cur s) ->
    contains (String sep "") field = false.
Proof.
  induction s as [|c s IH]; intros cur field Hcur; simpl.
  - intros [<- | []]. exact Hcur.
  - destruct (Ascii.eqb_spec c sep) as [-> | Hc].
    + intros [<- | Hin]; [exact Hcur|]. apply (IH "" field); [reflexivity|].
      exact Hin.
    + apply IH. apply not_true_iff_false. intros H.
      apply contains_iff in H as (pre & post & Heq).
      apply not_true_iff_false in Hcur. apply Hcur. apply contains_iff.
      (* the separator lies within [cur], since the last character is [c] *)
      clear - Heq Hc. revert pre Heq.
      induction cur as [|x cur IHc]; intros pre Heq.
      * destruct pre as [|p pre]; simpl in Heq.
        -- injection Heq as Heq _. now elim Hc.
        -- injection Heq as _ Heq. destruct pre; discriminate.
      * destruct pre as [|p pre]; simpl in Heq.
        -- injection Heq as <- Heq. now exists "", cur.
        -- injection Heq as <- Heq. destruct (IHc _ Heq) as (pre' & post' & ->).
           now exists (String x pre'), post'.
Qed.

(** X11: the lists of specialties and of facilities are the fields of the
    text of the row between its commas: joined with commas they give the
    text back, and no field holds a comma. A row without the text (null,
    or empty) has the empty list. *)
Theorem comma_list_round_trip (text : string) :
  comma_list None = [] /\ comma_list (Some "") = [] /\
  (text <> "" ->
   join "," (comma_list (Some text)) = text /\
   comma_list (Some text) <> [] /\
   forall field, In field (comma_list (Some text)) ->
                 ~ occurs "," field).
Proof.
  split; [reflexivity|]. split; [reflexivity|].
  intros Hne. destruct text as [|c text]; [congruence|].
  cbn [comma_list]. unfold split_on. split; [|split].
  - apply (join_split_on_from "," (String c text) "").
  - apply split_on_from_nonempty.
  - intros field Hin Hocc. apply contains_iff in Hocc.
    rewrite (split_on_from_fields "," (String c text) "" field) in Hocc;
      [discriminate | reflexivity | exact Hin].
Qed.
End SpecialtyAndLists.

Section ScoreOrder.
Import PyFloat HospitalService Spec.
Local Open Scope Q_scope.

Lemma Qle_bool_false (x y : Q) : Qle_bool x y = false -> y < x.
Proof.
  intros H. apply Qnot_le_lt. intros Hle. apply Qle_bool_iff in Hle. congruence.
Qed.

Lemma distance_points_antitone (h h' : Hospital) :
  distance_km h' <= distance_km h -> distance_points h <= distance_points h'.
Proof.
  intros Hd. unfold distance_points. cbv zeta.
  destruct (Qle_bool (distance_km h) 5) eqn:H5;
    destruct (Qle_bool (distance_km h) 10) eqn:H10;
    destruct (Qle_bool (distance_km h) 20) eqn:H20;
    destruct (Qle_bool (distance_km h) 30) eqn:H30;
    destruct (Qle_bool (distance_km h') 5) eqn:H5';
    destruct (Qle_bool (distance_km h') 10) eqn:H10';
    destruct (Qle_bool (distance_km h') 20) eqn:H20';
    destruct (Qle_bool (distance_km h') 30) eqn:H30';
    try discriminate;
    repeat match goal with
           | H : Qle_bool _ _ = true |- _ => apply Qle_bool_iff in H
           | H : Qle_bool _ _ = false |- _ => apply Qle_bool_false in H
           end;
    exfalso; lra.
Qed.

(** The minutes before the cut to whole minutes and the floor of 5. *)
Lemma minutes_mono (d d' : Q) :
  d <= d' -> mul (div d 25) 60 <= mul (div d' 25) 60.
Proof.
  intros H. apply mul_mono; [discriminate|]. now apply div_mono.
Qed.

(** The doubles under 2.5 end at the last one before it. *)
Lemma double_below_2_5 (d : Q) :
  nearest d == d -> d < 2.5 -> d <= 2.5 - 2 ^ (-51).
Proof.
  intros Hd Hlt.
  assert (2 ^ (-51) * inject_Z (2 ^ 51) == 1) as Hp by (vm_compute; reflexivity).
  assert (0 < 2 ^ (-51)) as Hpos by apply pow2_pos.
  assert (0 < inject_Z (2 ^ 51)) as Hbig by reflexivity.
  set (p := 2 ^ (-51)) in *. set (P := inject_Z (2 ^ 51)) in *.
  assert (p <= 1 # 2) as Hsmall.
  { assert (2 <= P) by (subst P; vm_compute; discriminate). nra. }
  destruct (Qlt_le_dec d 2) as [H2 | H2]; [lra|].
  assert (0 < d) as H0 by lra.
  assert (ilog2 d = 1%Z) as Hlog.
  { apply ilog2_unique; [exact H0 | exact H2 |].
    apply Qlt_trans with 2.5; [exact Hlt | reflexivity]. }
  assert (exponent d = (-51)%Z) as Hexp by (unfold exponent; rewrite Hlog; reflexivity).
  unfold nearest in Hd.
  destruct (Qcompare_spec d 0) as [E|E|E]; try lra.
  unfold nearest_positive in Hd. rewrite Hexp in Hd. fold p in Hd.
  set (k := PyNum.round_half_even (d / p)) in *.
  assert (inject_Z k < inject_Z (5 * 2 ^ 50)) as Hk.
  { assert (inject_Z (5 * 2 ^ 50) == (5 # 2) * P) as -> by (subst P; vm_compute; reflexivity).
    nra. }
  rewrite <- Zlt_Qlt in Hk.
  assert (inject_Z k <= inject_Z (5 * 2 ^ 50 - 1)) as Hk' by (rewrite <- Zle_Qle; lia).
  assert (inject_Z (5 * 2 ^ 50 - 1) == (5 # 2) * P - 1) as E1
      by (subst P; vm_compute; reflexivity).
  rewrite E1 in Hk'. nra.
Qed.
(** X12: the score follows the merits of a facility. Of two facilities
    with the same list of specialties, the one that is at least as near,
    at least as well rated, and has the specialty match, the emergency
    department and the ambulance whenever the other has, never gets the
    lower [total_score], under any priority. *)
Theorem hospital_score_monotone (h h' : Hospital)
    (analysis : SymptomAnalyzer.AnalysisResult) :
  specialties h = specialties h' ->
  (specialty_match h = true -> specialty_match h' = true) ->
  distance_km h' <= distance_km h ->
  rating h <= rating h' ->
  (has_emergency h = true -> has_emergency h' = true) ->
  (has_ambulance h = true -> has_ambulance h' = true) ->
  hospital_score h analysis <= hospital_score h' analysis.
Proof.
  intros Hs Hm Hd Hr He Ha. rewrite !hospital_score_sum. apply round_mono.
  pose proof (distance_points_antitone h h' Hd) as Hdp.
  assert (specialty_points h <= specialty_points h') as Hsp.
  { unfold specialty_points. rewrite <- Hs.
    destruct (specialty_match h), (specialty_match h');
      try (specialize (Hm eq_refl); discriminate);
      destruct (in_dec string_dec "General Medicine" (specialties h));
      discriminate. }
  assert (rating_points h <= rating_points h') as Hrp.
  { unfold rating_points. apply mul_mono; [discriminate|].
    apply div_mono; [reflexivity | exact Hr]. }
  assert (emergency_points h (SymptomAnalyzer.priority analysis)
          <= emergency_points h' (SymptomAnalyzer.priority analysis)) as Hem.
  { unfold emergency_points.
    destruct (string_dec (SymptomAnalyzer.priority analysis) "urgent"),
      (string_dec (SymptomAnalyzer.priority analysis) "critical"),
      (has_emergency h), (has_emergency h');
      try (specialize (He eq_refl); discriminate); discriminate. }
  assert (ambulance_points h (SymptomAnalyzer.priority analysis)
          <= ambulance_points h' (SymptomAnalyzer.priority analysis)) as Ham.
  { unfold ambulance_points.
    destruct (string_dec (SymptomAnalyzer.priority analysis) "urgent"),
      (string_dec (SymptomAnalyzer.priority analysis) "critical"),
      (has_ambulance h), (has_ambulance h');
      try (specialize (Ha eq_refl); discriminate); discriminate. }
  unfold total_points. repeat apply add_mono; try assumption. lra.
Qed.

(** X13: the travel time is at least 5 minutes and never falls when the
    distance grows; it is more than the 5 minutes of the floor from
    2.5 km on, and the 5 minutes exactly for every double under
    2.5 km. *)
Theorem travel_time_floor_and_growth (d d' : Q) :
  (5 <= _calculate_travel_time d)%Z /\
  (d <= d' -> (_calculate_travel_time d <= _calculate_travel_time d')%Z) /\
  (_calculate_travel_time d = 5%Z -> d < 2.5) /\
  (nearest d == d -> d < 2.5 -> _calculate_travel_time d = 5%Z).
Proof.
  rewrite !travel_time_floor. split; [lia|]. split; [|split].
  - intros Hle. apply minutes_mono, Qfloor_resp_le in Hle. lia.
  - intros H. apply Qnot_le_lt. intros Hge.
    apply minutes_mono, Qfloor_resp_le in Hge.
    assert (Qfloor (mul (div 2.5 25) 60) = 6%Z) as E
        by (vm_compute; reflexivity).
    lia.
  - intros Hd Hlt. pose proof (double_below_2_5 d Hd Hlt) as Hle.
    apply minutes_mono, Qfloor_resp_le in Hle.
    assert (Qfloor (mul (div (2.5 - 2 ^ (-51)) 25) 60) = 5%Z) as E
        by (vm_compute; reflexivity).
    lia.
Qed.
End ScoreOrder.

Section Rerank.
Import HospitalService Spec PyList.

Lemma stable_sort_of_sorted {A : Type} (before : A -> A -> bool) (l : list A) :
  StronglySorted (fun a b => before b a = false) l ->
  stable_sort before l = l.
Proof.
  induction 1 as [|x l Hs IH Hall]; simpl; [reflexivity|].
  rewrite IH. destruct l as [|y l]; [reflexivity|]. simpl.
  inversion Hall as [|? ? Hy _]; subst. now rewrite Hy.
Qed.

Lemma sort_of_sorted_descending {A : Type} (key : A -> Q) (l : list A) :
  StronglySorted (fun a b => (key b <= key a)%Q) l ->
  sort key true l = l.
Proof.
  intros Hs. unfold sort. apply stable_sort_of_sorted.
  eapply sorted_impl; [|exact Hs].
  intros a b H. cbv beta. now apply negb_Qle_bool_false.
Qed.

(** X14: ranking twice is ranking once. When the facilities of a ranked
    list are given to [score_hospitals] again, under the same analysis,
    the ranked list comes back as it is. *)
Theorem score_hospitals_idempotent (hospitals : list Hospital)
    (user_lat user_lng user_lat' user_lng' : Q)
    (analysis : SymptomAnalyzer.AnalysisResult) :
  let ranked := score_hospitals hospitals user_lat user_lng analysis in
  score_hospitals (map hospital ranked) user_lat' user_lng' analysis = ranked.
Proof.
  intros ranked. rewrite score_hospitals_sort.
  assert (map (fun h => {| hospital := h;
                           total_score := hospital_score h analysis |})
              (map hospital ranked) = ranked) as ->.
  { rewrite map_map.
    assert (Forall (fun s => total_score s = hospital_score s analysis) ranked)
      as Hall.
    { apply Forall_forall. intros s Hin. subst ranked.
      rewrite score_hospitals_sort in Hin.
      apply (Permutation_in _ (sort_perm total_score true _)) in Hin.
      apply in_map_iff in Hin as (h & <- & _). reflexivity. }
    induction Hall as [|[h t] l Ht _ IH]; simpl; [reflexivity|].
    cbn [hospital total_score] in Ht. now rewrite IH, Ht. }
  apply sort_of_sorted_descending. subst ranked.
  rewrite score_hospitals_sort. apply sort_descending.
Qed.
End Rerank.

Section Lookup.
Import Exc HospitalService Spec.

End Lookup.

Section DistanceField.
Import Exc HospitalService Spec.

(** X16: with a whole number of kilometres for radius (as the 50 and the
    30 of the callers), no facility returned shows a [distance_km] beyond
    the radius, rounded though it is; with another radius the rounding can
    lift it over: a computed 49.996 km is within 49.997 km and shows as
    50.0. *)
Theorem distance_field_within_radius (geodesic : Q * Q -> Q * Q -> exc Q)
    (table : list Row) (latitude longitude : Q) (specialty : option string)
    (priority : string) (radius : Z) (out : list Hospital) :
  (find_nearby_hospitals geodesic table latitude longitude specialty priority
                         (inject_Z radius) = Return out ->
   forall h, In h out -> (distance_km h <= inject_Z radius)%Q) /\
  (Qle_bool 49.996 49.997 = true /\
   (49.997 < distance_km (annotate specialty Examples.seven_hills 49.996))%Q).
Proof.
  split; [|split; reflexivity].
  intros Hret h Hin.
  destruct (find_nearby_origin geodesic _ _ _ _ _ _ _ Hret h Hin)
    as (r & d & _ & _ & Hle & ->).
  cbn [annotate distance_km]. now apply round_upper_Z.
Qed.
End DistanceField.

(* ================================================================== *)
(** ** The request handlers *)
(* ================================================================== *)

Section HandlerFacts.
Import Exc HospitalService Spec App.

Lemma dict_get_set {V : Type} (d : PyDict.dict V) (k : string) (v : V) :
  PyDict.get (PyDict.set d k v) k = Some v.
Proof.
  induction d as [|[k' v'] d IH]; simpl.
  - now rewrite String.eqb_refl.
  - destruct (String.eqb k k') eqn:Hk; simpl; rewrite Hk; [reflexivity | exact IH].
Qed.

Lemma firstn_incl {A : Type} (n : nat) (l : list A) (x : A) :
  In x (firstn n l) -> In x l.
Proof.
  revert n. induction l as [|y l IH]; intros [|n]; simpl; try tauto.
  intros [-> | H]; [now left | right; now apply (IH n)].
Qed.

Lemma sorted_firstn {A : Type} (R : A -> A -> Prop) (n : nat) (l : list A) :
  StronglySorted R l -> StronglySorted R (firstn n l).
Proof.
  intros Hs. revert n. induction Hs as [|x l Hs IH Hall]; intros n.
  - rewrite firstn_nil. constructor.
  - destruct n; simpl; [constructor|]. constructor; [apply IH|].
    rewrite Forall_forall in *. intros y Hy. apply Hall.
    now apply firstn_incl in Hy.
Qed.

Lemma truthy_number_zero (q : Q) : (q == 0)%Q -> truthy_number (Some q) = false.
Proof.
  intros H. unfold truthy_number. apply negb_false_iff. now apply Qeq_bool_iff.
Qed.

Variable geodesic : Q * Q -> Q * Q -> exc Q.
Variable now : string.

Lemma annotate_loop_error (user_location : Q * Q) (specialty : option string)
    (max_distance_km : Q) (all_hospitals : list Row) :
  forall acc e,
    annotate_loop geodesic user_location specialty max_distance_km
                  all_hospitals acc = Raise e ->
    exists r, In r all_hospitals /\
      geodesic user_location (row_latitude r, row_longitude r) = Raise e.
Proof.
  induction all_hospitals as [|r rs IH]; intros acc e; simpl; [discriminate|].
  destruct (geodesic user_location _) as [d|e'] eqn:Hg; cbn [bind].
  - destruct (Qle_bool d max_distance_km); intros H;
      destruct (IH _ _ H) as (r' & Hin & Hr'); exists r'; split;
        (now right) || assumption.
  - intros H; injection H as <-. exists r. split; [now left | assumption].
Qed.

(** When [find_nearby_hospitals] raises, and what. *)
Lemma find_nearby_failure (table : list Row) (latitude longitude : Q)
    (specialty : option string) (priority : string) (max_distance_km : Q) :
  raises (find_nearby_hospitals geodesic table latitude longitude specialty
                                priority max_distance_km)
  = existsb (fun r => raises (geodesic (latitude, longitude)
                                       (row_latitude r, row_longitude r)))
            (select_hospitals priority table) /\
  forall e,
    find_nearby_hospitals geodesic table latitude longitude specialty
                          priority max_distance_km = Raise e ->
    exists r, In r (select_hospitals priority table) /\
      geodesic (latitude, longitude) (row_latitude r, row_longitude r)
      = Raise e.
Proof.
  unfold find_nearby_hospitals. split.
  - rewrite <- (annotate_loop_raises geodesic (latitude, longitude) specialty
                  max_distance_km (select_hospitals priority table) []).
    now destruct (annotate_loop _ _ _ _ _ _).
  - intros e.
    destruct (annotate_loop _ _ _ _ _ _) as [l|e'] eqn:Hl; cbn [bind];
      [discriminate|].
    intros H; injection H as <-. exact (annotate_loop_error _ _ _ _ _ _ Hl).
Qed.

(** What [find_hospitals] does once the three fields are there. *)
Lemma find_hospitals_valid (table : list Row) (sessions : PyDict.dict Session)
    (data : RequestData) (latitude longitude : Q) (symptoms : string) :
  data_latitude data = Some latitude ->
  data_longitude data = Some longitude ->
  data_symptoms data = Some symptoms ->
  truthy_number (Some latitude) && truthy_number (Some longitude)
  && truthy_text (Some symptoms) = true ->
  let language := match data_language data with
                  | Some language => language
                  | None => "en"
                  end in
  let analysis := SymptomAnalyzer.analyze symptoms language in
  find_hospitals geodesic now table sessions data
  = match find_nearby_hospitals geodesic table latitude longitude
            (Some (SymptomAnalyzer.specialty analysis))
            (SymptomAnalyzer.priority analysis) 50 with
    | Raise e => ({| status := 500; payload := Failure e |}, sessions)
    | Return hospitals =>
        let ranked := score_hospitals hospitals latitude longitude analysis in
        ({| status := 200;
            payload := FoundHospitals analysis (firstn 10 ranked) |},
         match data_session_id data with
         | Some (String c id) =>
             PyDict.set sessions (String c id)
               {| session_symptoms := symptoms;
                  session_analysis := analysis;
                  session_hospitals := ranked;
                  session_timestamp := now |}
         | _ => sessions
         end)
    end.
Proof.
  intros Hlat Hlon Hsym Hvalid language analysis.
  unfold find_hospitals. rewrite Hlat, Hlon, Hsym, Hvalid. cbn [negb].
  fold language. fold analysis.
  destruct (find_nearby_hospitals _ _ _ _ _ _ _); reflexivity.
Qed.
End HandlerFacts.

Section HandlerClaims.
Import Exc HospitalService Spec App.

(** X17: [find_hospitals] answers 400 "Missing required fields", keeps
    the sessions as they are and measures no distance, exactly when the
    latitude, the longitude or the symptoms are absent, zero or empty: a
    latitude or longitude of 0, on the equator or the prime meridian, is
    turned down like a missing one. *)
Theorem find_hospitals_missing_fields (geodesic : Q * Q -> Q * Q -> exc Q)
    (now : string) (table : list Row) (sessions : PyDict.dict Session)
    (data : RequestData) :
  let present :=
    truthy_number (data_latitude data) && truthy_number (data_longitude data)
    && truthy_text (data_symptoms data) in
  let out := find_hospitals geodesic now table sessions data in
  (status (fst out) = 400 <-> present = false) /\
  (present = false ->
   out = ({| status := 400; payload := Failure "Missing required fields" |},
          sessions)) /\
  (forall q, (q == 0)%Q ->
     data_latitude data = Some q \/ data_longitude data = Some q ->
     status (fst out) = 400).
Proof.
  intros present out.
  assert (present = false ->
          out = ({| status := 400; payload := Failure "Missing required fields" |},
                 sessions)) as H400.
  { subst present out. unfold find_hospitals.
    destruct (data_latitude data) as [lat|], (data_longitude data) as [lon|],
      (data_symptoms data) as [sym|]; intros Hp; try reflexivity.
    now rewrite Hp. }
  assert (present = true -> status (fst out) <> 400) as Hok.
  { subst present out. intros Hp.
    destruct (data_latitude data) as [lat|] eqn:Hlat;
      [|discriminate].
    destruct (data_longitude data) as [lon|] eqn:Hlon;
      [|cbn in Hp; rewrite andb_false_r in Hp; discriminate].
    destruct (data_symptoms data) as [sym|] eqn:Hsym;
      [|cbn in Hp; rewrite andb_false_r in Hp; discriminate].
    rewrite (find_hospitals_valid geodesic now table sessions data lat lon sym
               Hlat Hlon Hsym Hp).
    destruct (find_nearby_hospitals _ _ _ _ _ _ _); cbn; discriminate. }
  split; [|split; [exact H400|]].
  - split.
    + intros Hs. destruct present; [|reflexivity]. now elim (Hok eq_refl).
    + intros Hp. now rewrite (H400 Hp).
  - intros q Hq Hor.
    assert (present = false) as Hp.
    { subst present. destruct Hor as [-> | ->];
        rewrite (truthy_number_zero q Hq); [reflexivity|].
      now rewrite andb_false_r. }
    now rewrite (H400 Hp).
Qed.

(** X18: a failure of the distance routine does not escape from
    [find_hospitals]: with the three fields present the answer is 500,
    with the message of the error, exactly when the routine raises on one
    of the rows selected for the priority of the analysis, and 200 else;
    and only an answer 200 changes the sessions. *)
Theorem find_hospitals_failure (geodesic : Q * Q -> Q * Q -> exc Q)
    (now : string) (table : list Row) (sessions : PyDict.dict Session)
    (data : RequestData) (latitude longitude : Q) (symptoms : string) :
  data_latitude data = Some latitude ->
  data_longitude data = Some longitude ->
  data_symptoms data = Some symptoms ->
  truthy_number (Some latitude) && truthy_number (Some longitude)
  && truthy_text (Some symptoms) = true ->
  let language := match data_language data with
                  | Some language => language
                  | None => "en"
                  end in
  let analysis := SymptomAnalyzer.analyze symptoms language in
  let failing :=
    existsb (fun r => raises (geodesic (latitude, longitude)
                                       (row_latitude r, row_longitude r)))
            (select_hospitals (SymptomAnalyzer.priority analysis) table) in
  let out := find_hospitals geodesic now table sessions data in
  (failing = true ->
   status (fst out) = 500 /\ snd out = sessions /\
   exists e r, payload (fst out) = Failure e /\ In r table /\
     geodesic (latitude, longitude) (row_latitude r, row_longitude r) = Raise e)
  /\ (failing = false -> status (fst out) = 200).
Proof.
  intros Hlat Hlon Hsym Hvalid language analysis failing out.
  subst out.
  rewrite (find_hospitals_valid geodesic now table sessions data
             latitude longitude symptoms Hlat Hlon Hsym Hvalid).
  fold language. fold analysis.
  pose proof (find_nearby_failure geodesic table latitude longitude
                (Some (SymptomAnalyzer.specialty analysis))
                (SymptomAnalyzer.priority analysis) 50) as Hr.
  fold failing in Hr.
  destruct (find_nearby_hospitals _ _ _ _ _ _ _) as [hs|e] eqn:Hf.
  - destruct Hr as [Hr _]. cbn [raises] in Hr. rewrite <- Hr.
    split; [discriminate | reflexivity].
  - destruct Hr as [Hr Herr]. cbn [raises] in Hr. rewrite <- Hr.
    split; [|discriminate]. intros _. cbn [fst snd status payload].
    split; [reflexivity|]. split; [reflexivity|].
    destruct (Herr e eq_refl) as (r & Hin & Hg).
    exists e, r. split; [reflexivity|]. split; [|exact Hg].
    exact (proj1 (select_hospitals_subset _ _ _ Hin)).
Qed.
End HandlerClaims.

Section HandlerResults.
Import Exc HospitalService Spec App.

Lemma analyze_priority_critical (symptoms language keyword : string) :
  In keyword SymptomAnalyzer.critical_keywords ->
  occurs keyword (SymptomAnalyzer.normalize symptoms language) ->
  SymptomAnalyzer.priority (SymptomAnalyzer.analyze symptoms language)
  = "critical".
Proof.
  intros Hin Hocc.
  change (SymptomAnalyzer.priority (SymptomAnalyzer.analyze symptoms language))
    with (SymptomAnalyzer._determine_priority
            (SymptomAnalyzer.normalize symptoms language)).
  unfold SymptomAnalyzer._determine_priority.
  change (PyDict.get_default SymptomAnalyzer.priority_rules "critical" [])
    with SymptomAnalyzer.critical_keywords.
  assert (SymptomAnalyzer.scan SymptomAnalyzer.critical_keywords
            (SymptomAnalyzer.normalize symptoms language) = true) as ->
      by (apply scan_iff; now exists keyword).
  reflexivity.
Qed.

(** What a successful [find_hospitals] answers and keeps. *)
Lemma find_hospitals_ok (geodesic : Q * Q -> Q * Q -> exc Q)
    (now : string) (table : list Row) (sessions : PyDict.dict Session)
    (data : RequestData) (response : Response)
    (sessions' : PyDict.dict Session) :
  find_hospitals geodesic now table sessions data = (response, sessions') ->
  status response = 200 ->
  exists latitude longitude symptoms analysis ranked,
    data_latitude data = Some latitude /\
    data_longitude data = Some longitude /\
    data_symptoms data = Some symptoms /\
    analysis = SymptomAnalyzer.analyze symptoms
                 (match data_language data with
                  | Some language => language
                  | None => "en"
                  end) /\
    payload response = FoundHospitals analysis (firstn 10 ranked) /\
    (List.length (firstn 10 ranked) <= 10)%nat /\
    StronglySorted (fun a b => (total_score b <= total_score a)%Q)
                   (firstn 10 ranked) /\
    (forall h : ScoredHospital, In h ranked ->
       (distance_km h <= 50)%Q /\
       (SymptomAnalyzer.priority analysis = "critical" ->
        has_emergency h = true /\ open_247 h = true) /\
       (SymptomAnalyzer.priority analysis = "urgent" ->
        has_emergency h = true)) /\
    (forall sid, data_session_id data = Some sid -> sid <> "" ->
       exists session,
         PyDict.get sessions' sid = Some session /\
         session_hospitals session = ranked /\
         session_symptoms session = symptoms /\
         session_analysis session = analysis) /\
    (data_session_id data = None \/ data_session_id data = Some "" ->
     sessions' = sessions).
Proof.
  intros Hfind Hstatus.
  destruct (data_latitude data) as [lat|] eqn:Hlat;
    [|unfold find_hospitals in Hfind; rewrite Hlat in Hfind;
      injection Hfind as <- _; discriminate].
  destruct (data_longitude data) as [lon|] eqn:Hlon;
    [|unfold find_hospitals in Hfind; rewrite Hlat, Hlon in Hfind;
      injection Hfind as <- _; discriminate].
  destruct (data_symptoms data) as [sym|] eqn:Hsym;
    [|unfold find_hospitals in Hfind; rewrite Hlat, Hlon, Hsym in Hfind;
      injection Hfind as <- _; discriminate].
  destruct (truthy_number (Some lat) && truthy_number (Some lon)
            && truthy_text (Some sym)) eqn:Hvalid;
    [|unfold find_hospitals in Hfind;
      rewrite Hlat, Hlon, Hsym, Hvalid in Hfind;
      injection Hfind as <- _; discriminate].
  rewrite (find_hospitals_valid geodesic now table sessions data lat lon sym
             Hlat Hlon Hsym Hvalid) in Hfind.
  set (analysis := SymptomAnalyzer.analyze sym _) in *.
  destruct (find_nearby_hospitals _ _ _ _ _ _ _) as [hs|e] eqn:Hnear;
    [|injection Hfind as <- _; discriminate].
  cbv zeta in Hfind. injection Hfind as <- <-.
  set (ranked := score_hospitals hs lat lon analysis).
  exists lat, lon, sym, analysis, ranked.
  repeat (split; [reflexivity|]).
  split; [apply firstn_le_length|].
  split; [apply sorted_firstn; subst ranked; rewrite score_hospitals_sort;
          apply sort_descending|].
  split; [|split].
  - intros h Hin.
    assert (In (hospital h) hs) as Hh.
    { subst ranked. rewrite score_hospitals_sort in Hin.
      apply (Permutation_in _ (sort_perm total_score true _)) in Hin.
      apply in_map_iff in Hin as (h0 & <- & Hin). exact Hin. }
    destruct (find_nearby_origin geodesic _ _ _ _ _ _ _ Hnear _ Hh)
      as (r & d & Hr & _ & Hle & Heq).
    pose proof (select_hospitals_subset _ _ _ Hr) as (_ & Hc & Hu).
    rewrite Heq. cbn [annotate distance_km has_emergency open_247].
    split; [apply (round_upper_Z d 50 2); exact Hle|].
    split; assumption.
  - intros sid Hsid Hne. rewrite Hsid.
    destruct sid as [|c sid]; [congruence|].
    eexists. split; [apply dict_get_set|]. now repeat split.
  - intros [-> | ->]; reflexivity.
Qed.


(** X20: a description in which a phrase of the critical list occurs
    only ever brings facilities with an emergency department that are
    open day and night: the priority of the classifier reaches the
    selection of the rows. *)
Theorem critical_symptoms_get_emergency_hospitals
    (geodesic : Q * Q -> Q * Q -> exc Q) (now : string) (table : list Row)
    (sessions : PyDict.dict Session) (data : RequestData)
    (symptoms keyword : string) (analysis : SymptomAnalyzer.AnalysisResult)
    (hospitals : list ScoredHospital) :
  data_symptoms data = Some symptoms ->
  In keyword SymptomAnalyzer.critical_keywords ->
  occurs keyword
    (SymptomAnalyzer.normalize symptoms
       (match data_language data with
        | Some language => language
        | None => "en"
        end)) ->
  payload (fst (find_hospitals geodesic now table sessions data))
  = FoundHospitals analysis hospitals ->
  SymptomAnalyzer.priority analysis = "critical" /\
  forall h : ScoredHospital, In h hospitals ->
    has_emergency h = true /\ open_247 h = true.
Proof.
  intros Hsym Hk Hocc Hpay.
  destruct (find_hospitals geodesic now table sessions data)
    as [response sessions'] eqn:Hfind.
  cbn [fst] in Hpay.
  assert (status response = 200) as Hstatus.
  { revert Hfind Hpay. unfold find_hospitals.
    destruct (data_latitude data), (data_longitude data), (data_symptoms data);
      try (intros H; injection H as <- _; discriminate).
    destruct (negb _); [intros H; injection H as <- _; discriminate|].
    destruct (find_nearby_hospitals _ _ _ _ _ _ _);
      intros H; injection H as <- _; [reflexivity | discriminate]. }
  destruct (find_hospitals_ok _ _ _ _ _ _ _ Hfind Hstatus)
    as (lat & lon & sym & a & ranked & _ & _ & Hsym' & Ha & Hp & _ & _ & Hall & _).
  rewrite Hsym in Hsym'. injection Hsym' as <-.
  rewrite Hp in Hpay. injection Hpay as <- <-.
  assert (SymptomAnalyzer.priority a = "critical") as Hcrit.
  { rewrite Ha. now apply analyze_priority_critical with keyword. }
  split; [exact Hcrit|]. intros h Hin.
  apply (firstn_incl 10 ranked) in Hin. now apply (Hall h Hin).
Qed.

(** X21: [emergency_hospitals] answers 400 "Missing coordinates" when the
    latitude or the longitude is absent or zero; when it answers 200 it
    gives at most fifteen facilities, nearest first, each with an
    emergency department, open day and night, and shown within 30 km. *)
Theorem emergency_hospitals_response (geodesic : Q * Q -> Q * Q -> exc Q)
    (table : list Row) (data : RequestData) :
  let response := emergency_hospitals geodesic table data in
  (truthy_number (data_latitude data) && truthy_number (data_longitude data)
   = false ->
   response = {| status := 400; payload := Failure "Missing coordinates" |}) /\
  (status response = 200 ->
   exists hospitals,
     payload response = EmergencyHospitals hospitals /\
     (List.length hospitals <= 15)%nat /\
     StronglySorted (fun a b => (distance_km a <= distance_km b)%Q) hospitals /\
     forall h, In h hospitals ->
       has_emergency h = true /\ open_247 h = true /\
       (distance_km h <= 30)%Q).
Proof.
  intros response. subst response. unfold emergency_hospitals. split.
  - destruct (data_latitude data) as [lat|], (data_longitude data) as [lon|];
      intros Hp; try reflexivity. now rewrite Hp.
  - destruct (data_latitude data) as [lat|]; [|discriminate].
    destruct (data_longitude data) as [lon|]; [|discriminate].
    destruct (negb _); [discriminate|].
    destruct (find_emergency_hospitals geodesic table lat lon 30)
      as [hs|e] eqn:Hem; [|discriminate].
    intros _. exists (firstn 15 hs). cbn [payload].
    split; [reflexivity|]. split; [apply firstn_le_length|].
    split.
    + apply sorted_firstn. unfold find_emergency_hospitals in Hem.
      exact (find_nearby_ascending geodesic _ _ _ _ _ _ _ Hem).
    + intros h Hin. apply firstn_incl in Hin.
      unfold find_emergency_hospitals in Hem.
      destruct (find_nearby_origin geodesic _ _ _ _ _ _ _ Hem h Hin)
        as (r & d & Hr & _ & Hle & ->).
      pose proof (select_hospitals_subset _ _ _ Hr) as (_ & Hc & _).
      destruct (Hc eq_refl) as [He Ho].
      cbn [annotate has_emergency open_247 distance_km].
      split; [exact He|]. split; [exact Ho|].
      apply (round_upper_Z d 30 2). exact Hle.
Qed.
End HandlerResults.

(* ================================================================== *)
(** ** The chatbot *)
(* ================================================================== *)

Section ChatbotFacts.
Import PyStr Spec MedicalChatbot.

Lemma any_in_iff (patterns : list string) (message : string) :
  any_in patterns message = true <->
  exists pattern, In pattern patterns /\ occurs pattern message.
Proof.
  unfold any_in. rewrite existsb_exists. split; intros (p & Hin & Hp);
    exists p; (split; [assumption | now apply contains_iff]).
Qed.

Lemma choice_in (r : nat) (seq : list string) :
  seq <> [] -> In (choice r seq) seq.
Proof.
  intros Hne. unfold choice. apply nth_In. apply Nat.mod_upper_bound.
  destruct seq; [congruence | discriminate].
Qed.

Lemma join_nonempty (sep first : string) (rest : list string) :
  first <> "" -> join sep (first :: rest) <> "".
Proof.
  intros Hne. unfold join. cbn [String.concat].
  destruct first as [|c first]; [congruence|].
  destruct rest; discriminate.
Qed.

(** X22: a message in which an emergency keyword occurs, in any case of
    the letters, always gets one of the three emergency answers, whatever
    it says else and whatever the random draw. *)
Theorem emergency_messages_get_emergency_answers (r : nat)
    (message keyword : string) :
  In keyword emergency_keywords ->
  occurs keyword (strip (lower message)) ->
  In (get_response r message) (PyDict.get_default responses "emergency" []) /\
  get_response r message <> "".
Proof.
  intros Hin Hocc.
  assert (get_response r message
          = choice r (PyDict.get_default responses "emergency" [])) as ->.
  { unfold get_response.
    assert (any_in emergency_keywords (strip (lower message)) = true) as ->
        by (apply any_in_iff; now exists keyword).
    reflexivity. }
  assert (In (choice r (PyDict.get_default responses "emergency" []))
             (PyDict.get_default responses "emergency" [])) as H
      by (apply choice_in; discriminate).
  split; [exact H|].
  revert H. generalize (choice r (PyDict.get_default responses "emergency" [])).
  intros s. cbn. intros [<- | [<- | [<- | []]]]; discriminate.
Qed.

(** X23: the greeting patterns are looked for first, and anywhere in the
    message: a message in which "hi" (or another greeting pattern) occurs,
    be it inside a word as in "chills", is taken for a greeting, and
    unless an emergency keyword occurs too it is answered with a
    greeting, whatever symptoms it tells. *)
Theorem greeting_patterns_win (r : nat) (message pattern : string) :
  In pattern greeting_patterns ->
  occurs pattern (strip (lower message)) ->
  _detect_intent (strip (lower message)) = "greeting" /\
  (any_in emergency_keywords (strip (lower message)) = false ->
   In (get_response r message) (PyDict.get_default responses "greeting" [])).
Proof.
  intros Hin Hocc.
  assert (_detect_intent (strip (lower message)) = "greeting") as Hi.
  { unfold _detect_intent.
    assert (any_in greeting_patterns (strip (lower message)) = true) as ->
        by (apply any_in_iff; now exists pattern).
    reflexivity. }
  split; [exact Hi|]. intros Hno.
  unfold get_response. rewrite Hno, Hi. cbn [String.eqb Ascii.eqb Bool.eqb].
  apply choice_in. discriminate.
Qed.

(** X24: [_extract_symptoms] never returns the empty string: it is the
    symptom words that occur in the message, joined, or "your condition".
    So the words "your symptoms" that [get_response] keeps for an empty
    result are never used: a message taken for a symptom message is
    answered with a symptom template filled with the result as it is. *)
Theorem extract_symptoms_never_empty (r : nat) (message : string) :
  _extract_symptoms message <> "" /\
  (_extract_symptoms message = "your condition" <->
   forall word, In word symptom_words -> ~ occurs word message) /\
  (any_in emergency_keywords (strip (lower message)) = false ->
   _detect_intent (strip (lower message)) = "symptom" ->
   get_response r message
   = format (choice r (PyDict.get_default responses "symptom_query" []))
            (_extract_symptoms (strip (lower message)))).
Proof.
  assert (forall m, _extract_symptoms m <> "") as Hne.
  { intros m. unfold _extract_symptoms.
    destruct (filter _ symptom_words) as [|w ws] eqn:Hf; [discriminate|].
    apply join_nonempty.
    assert (In w symptom_words) as Hw.
    { assert (In w (w :: ws)) as H by now left.
      rewrite <- Hf in H. now apply filter_In in H. }
    cbn in Hw. intuition (subst; discriminate). }
  split; [apply Hne|]. split.
  - unfold _extract_symptoms.
    destruct (filter _ symptom_words) as [|w ws] eqn:Hf.
    + split; [|reflexivity]. intros _ word Hin Hocc.
      apply contains_iff in Hocc.
      assert (In word (filter (fun word => contains word message) symptom_words))
        as H by (apply filter_In; now split).
      now rewrite Hf in H.
    + split.
      * intros Heq. exfalso.
        assert (In w (w :: ws)) as H by now left.
        rewrite <- Hf in H. apply filter_In in H as [Hw _].
        revert Heq. unfold join. cbn [String.concat].
        cbn in Hw.
        destruct ws; intuition (subst; discriminate).
      * intros H. exfalso.
        assert (In w (w :: ws)) as Hin by now left.
        rewrite <- Hf in Hin. apply filter_In in Hin as [Hw Hc].
        apply (H w Hw). now apply contains_iff.
  - intros Hno Hi. unfold get_response. rewrite Hno, Hi.
    cbn [String.eqb Ascii.eqb Bool.eqb].
    specialize (Hne (strip (lower message))).
    destruct (_extract_symptoms (strip (lower message))); [congruence|].
    reflexivity.
Qed.
End ChatbotFacts.

(* ================================================================== *)
(** ** Doubles and exact quotients *)
(* ================================================================== *)

Section DoubleArithmetic.
Import PyFloat HospitalService.
Local Open Scope Q_scope.

(** X25: the travel time is counted on doubles, and is not always the
    whole part of the exact quotient: 51.25 km gives 122 minutes where
    the exact count is 123, and the double nearest to
    3.7499999999999996 km gives 9 minutes where the exact count is 8. *)
Theorem travel_time_in_doubles :
  _calculate_travel_time 51.25 = 122%Z /\
  Qfloor (51.25 / 25 * 60) = 123%Z /\
  _calculate_travel_time (nearest 3.7499999999999996) = 9%Z /\
  Qfloor (nearest 3.7499999999999996 / 25 * 60) = 8%Z.
Proof. repeat split; vm_compute; reflexivity. Qed.

(** X26: the score is summed on doubles before it is rounded, and is not
    always the rounded exact sum: with a specialty match at 4.9 km,
    priority normal and as rating the double nearest to 4.4125, the
    [total_score] is 87.7 where the exact sum rounds to 87.6. *)
Theorem total_score_in_doubles :
  rating (Examples.seven_hills_rated (nearest 4.4125)) == nearest 4.4125 /\
  hospital_score (Examples.seven_hills_rated (nearest 4.4125))
                 (SymptomAnalyzer.analyze "zzz qqq" "en") == 87.7 /\
  PyNum.round (40 + 30 + nearest 4.4125 / 5 * 20) 1 == 87.6.
Proof. repeat split; vm_compute; reflexivity. Qed.
End DoubleArithmetic.

(* ================================================================== *)
(** ** The further properties at sample inputs *)
(* ================================================================== *)

Section FurtherWitnesses.
Import PyStr SymptomAnalyzer HospitalService Spec Exc App MedicalChatbot.

(** X2 on "fever" with words around it. *)
Lemma scores_grow_with_text_witness :
  exists n',
    In ("infectious", n')
       (raw_scores (analyze ("I have " ++ "fever" ++ " today") "en"))
    /\ 3 <= n'.
Proof.
  apply (proj2 (scores_grow_with_text "I have " "fever" " today")).
  vm_compute. tauto.
Defined.

(** X3 on "chest pain" with words around it. *)
Lemma priority_grows_with_text_witness :
  priority (analyze ("I have " ++ "chest pain" ++ " now") "en") = "critical".
Proof.
  apply (proj1 (priority_grows_with_text "I have " "chest pain" " now")).
  vm_compute. reflexivity.
Defined.

(** X5 on the language code "fr". *)
Lemma analyze_unknown_language_witness :
  analyze "fever" "fr" = analyze "fever" "en".
Proof. apply analyze_unknown_language; discriminate. Defined.

(** X6 on an English text passed as Hindi. *)
Lemma translate_without_native_words_witness :
  _translate_symptoms (lower "Fever and cough") "hi" = lower "Fever and cough"
  /\ analyze "Fever and cough" "hi" = analyze "Fever and cough" "en".
Proof.
  apply (translate_without_native_words "Fever and cough" "hi"
           [ ("बुखार", "fever"); ("सिरदर्द", "headache"); ("दर्द", "pain");
             ("पेट", "stomach"); ("खांसी", "cough"); ("सांस", "breathing");
             ("चक्कर", "dizziness"); ("कमजोरी", "weakness");
             ("उल्टी", "vomiting") ]).
  - vm_compute. reflexivity.
  - intros native english Hin Hocc. apply contains_iff in Hocc.
    cbn [In] in Hin.
    repeat (destruct Hin as [Heq | Hin];
            [injection Heq as <- _; vm_compute in Hocc; discriminate Hocc|]).
    destruct Hin.
Defined.

(** X7 on the two sample rows. *)
Lemma find_nearby_sorted_stable_witness :
  exists out,
    find_nearby_hospitals Examples.grid_distance Samples.table 17.7 83.3 None
                          "normal" 50 = Return out /\
    StronglySorted (fun a b => (distance_km a <= distance_km b)%Q) out.
Proof.
  destruct (find_nearby_sorted_stable Examples.grid_distance Samples.table
              17.7 83.3 None "normal" 50
              (fun r => (Qabs (17.7 - row_latitude r)
                         + Qabs (83.3 - row_longitude r)) * 111)%Q
              (fun r _ => eq_refl))
    as (out & Hret & Hsorted & _).
  exists out. split; assumption.
Defined.

(** X8 on the two sample rows, of which one has an emergency department. *)
Lemma find_nearby_respects_priority_witness :
  find_nearby_hospitals Examples.grid_distance Samples.table 17.7 83.3 None
                        "critical" 50
  = Return [Samples.seven_hills_found None] /\
  has_emergency (Samples.seven_hills_found None) = true /\
  open_247 (Samples.seven_hills_found None) = true.
Proof.
  assert (find_nearby_hospitals Examples.grid_distance Samples.table 17.7 83.3
                                None "critical" 50
          = Return [Samples.seven_hills_found None]) as Hret
      by (vm_compute; reflexivity).
  split; [exact Hret|].
  apply (proj1 (proj1 (find_nearby_respects_priority Examples.grid_distance
                         Samples.table 17.7 83.3 None "critical" 50
                         [Samples.seven_hills_found None]) Hret) eq_refl).
  now left.
Defined.

(** X9 on the priority "low". *)
Lemma unknown_priority_is_normal_witness :
  select_hospitals "low" Samples.table = Samples.table.
Proof.
  apply (unknown_priority_is_normal Examples.grid_distance Samples.table
           17.7 83.3 None "low" 50); discriminate.
Defined.

(** X10 on "cardiology" asked in small letters. *)
Lemma specialty_match_cases_witness :
  specialty_match (annotate (Some "cardiology") Examples.seven_hills 4.9) = true.
Proof.
  refine (proj1 (proj2 (proj2 (specialty_match_cases Examples.seven_hills 4.9
                                 "cardiology")) _) "Cardiology" _ _).
  - discriminate.
  - vm_compute. tauto.
  - vm_compute. reflexivity.
Defined.

(** X11 on a text of three fields. *)
Lemma comma_list_round_trip_witness :
  join "," (comma_list (Some "ICU,CT Scan,MRI")) = "ICU,CT Scan,MRI".
Proof.
  destruct (proj2 (proj2 (comma_list_round_trip "ICU,CT Scan,MRI")))
    as [H _]; [discriminate | exact H].
Defined.

(** X12 on one hospital at 12.5 km and at 4.9 km. *)
Lemma hospital_score_monotone_witness :
  (hospital_score (annotate None Examples.seven_hills 12.5)
                  (analyze "zzz qqq" "en")
   <= hospital_score Examples.seven_hills_near (analyze "zzz qqq" "en"))%Q.
Proof.
  apply hospital_score_monotone.
  - vm_compute. reflexivity.
  - vm_compute. reflexivity.
  - vm_compute. discriminate.
  - vm_compute. discriminate.
  - vm_compute. reflexivity.
  - vm_compute. reflexivity.
Defined.

(** X13 on 1 km and 10 km, and on 2.25 km. *)
Lemma travel_time_floor_and_growth_witness :
  _calculate_travel_time 1 <= _calculate_travel_time 10
  /\ _calculate_travel_time 2.25 = 5.
Proof.
  split.
  - apply (proj1 (proj2 (travel_time_floor_and_growth 1 10))).
    vm_compute. discriminate.
  - apply (proj2 (proj2 (proj2 (travel_time_floor_and_growth 2.25 2.25)))).
    + vm_compute. reflexivity.
    + reflexivity.
Defined.


(** X16 on the two sample rows and the radius 50. *)
Lemma distance_field_within_radius_witness :
  (distance_km (Samples.seven_hills_found None) <= inject_Z 50)%Q.
Proof.
  apply (proj1 (distance_field_within_radius Examples.grid_distance
                  Samples.table 17.7 83.3 None "critical" 50
                  [Samples.seven_hills_found None])).
  - vm_compute. reflexivity.
  - now left.
Defined.

(** X17 on a request from the equator. *)
Lemma find_hospitals_missing_fields_witness :
  status (fst (find_hospitals Examples.grid_distance "2024-01-01T00:00:00"
                 Samples.table [] Samples.equator_request)) = 400.
Proof.
  apply (proj2 (proj2 (find_hospitals_missing_fields Examples.grid_distance
                         "2024-01-01T00:00:00" Samples.table []
                         Samples.equator_request)) 0%Q).
  - vm_compute. reflexivity.
  - left. vm_compute. reflexivity.
Defined.

(** X18 on a latitude of 1000 and a distance routine that checks. *)
Lemma find_hospitals_failure_witness :
  status (fst (find_hospitals Examples.checked_distance "2024-01-01T00:00:00"
                 Samples.table [] Samples.far_north_request)) = 500
  /\ snd (find_hospitals Examples.checked_distance "2024-01-01T00:00:00"
            Samples.table [] Samples.far_north_request) = [].
Proof.
  assert (Samples.far_north_request.(data_latitude) = Some 1000%Q) as H1
      by (vm_compute; reflexivity).
  assert (Samples.far_north_request.(data_longitude) = Some 83.3%Q) as H2
      by (vm_compute; reflexivity).
  assert (Samples.far_north_request.(data_symptoms) = Some "fever") as H3
      by (vm_compute; reflexivity).
  assert (truthy_number (Some 1000%Q) && truthy_number (Some 83.3%Q)
          && truthy_text (Some "fever") = true) as H4
      by (vm_compute; reflexivity).
  destruct (find_hospitals_failure Examples.checked_distance
              "2024-01-01T00:00:00" Samples.table []
              Samples.far_north_request 1000 83.3 "fever" H1 H2 H3 H4)
    as [Hfail _].
  destruct Hfail as (Hs & Hk & _); [vm_compute; reflexivity|].
  split; assumption.
Defined.


(** X20 on the request with a critical symptom. *)
Lemma critical_symptoms_get_emergency_hospitals_witness :
  priority (analyze "I think it is a heart attack" "en") = "critical" /\
  forall h : ScoredHospital,
    In h (score_hospitals [Samples.seven_hills_found (Some "Cardiology")]
                          17.7 83.3
                          (analyze "I think it is a heart attack" "en")) ->
    has_emergency h = true /\ open_247 h = true.
Proof.
  apply (critical_symptoms_get_emergency_hospitals Examples.grid_distance
           "2024-01-01T00:00:00" Samples.table [] Samples.heart_attack_request
           "I think it is a heart attack" "heart attack").
  - vm_compute. reflexivity.
  - vm_compute. tauto.
  - exists "i think it is a ", "". vm_compute. reflexivity.
  - vm_compute. reflexivity.
Defined.

(** X21 on the request with a critical symptom, read as a request for
    emergency hospitals. *)
Lemma emergency_hospitals_response_witness :
  exists hospitals,
    payload (emergency_hospitals Examples.grid_distance Samples.table
                                 Samples.heart_attack_request)
    = EmergencyHospitals hospitals /\
    (List.length hospitals <= 15)%nat.
Proof.
  destruct (emergency_hospitals_response Examples.grid_distance
              Samples.table Samples.heart_attack_request) as [_ H200].
  destruct H200 as (hs & Hp & Hl & _); [vm_compute; reflexivity|].
  exists hs. split; assumption.
Defined.

(** X22 on a message in capitals. *)
Lemma emergency_messages_get_emergency_answers_witness :
  In (get_response 7 "  URGENT: my father fell  ")
     (PyDict.get_default responses "emergency" []).
Proof.
  apply (emergency_messages_get_emergency_answers 7
           "  URGENT: my father fell  " "urgent").
  - vm_compute. tauto.
  - exists "", ": my father fell". vm_compute. reflexivity.
Defined.

(** X23 on a message about chills. *)
Lemma greeting_patterns_win_witness :
  _detect_intent (strip (lower "I have chills")) = "greeting".
Proof.
  apply (greeting_patterns_win 0 "I have chills" "hi").
  - vm_compute. tauto.
  - exists "i have c", "lls". vm_compute. reflexivity.
Defined.

(** X24 on a message with a symptom keyword that is no symptom word. *)
Lemma extract_symptoms_never_empty_witness :
  get_response 0 "I feel sick"
  = format (choice 0 (PyDict.get_default responses "symptom_query" []))
           (_extract_symptoms (strip (lower "I feel sick"))).
Proof.
  apply (proj2 (proj2 (extract_symptoms_never_empty 0 "I feel sick")));
    vm_compute; reflexivity.
Defined.
End FurtherWitnesses.
